(** * Campus canteen food management: the React front end, in Rocq

    A shallow embedding of the two front-end programs of the repository:

    - the kitchen-inventory component ([unnamed/part_001], second
      component: [loadItems], [handleSubmit], [filteredItems]), in
      [Module Inventory];
    - the canteen component of [cfms_frontend/src/App.tsx] (second
      component: [handleLogin], [handleLogout], [handleFeedbackSubmit],
      [todayMenus], [sortedHistory], the rating dashboard), in
      [Module Canteen].

    The Django back end is not part of the sources; where a statement is
    about it, [Module Backend] models it from the specification and says so. *)

From Stdlib Require Import ZArith QArith Ascii String List Bool Lia Permutation Sorted.
From stdpp Require Import base gmap strings.
Import ListNotations.

Set Warnings "-register-all".

Local Open Scope string_scope.
Local Open Scope Z_scope.

(** ** JavaScript strings

    A JavaScript string is a sequence of UTF-16 code units.  The embedding
    uses [string], whose characters are the code units below 256 (the
    Latin-1 range): there [toLowerCase] maps a code unit to a code unit, and
    the white space that [trim] removes is TAB, LF, VT, FF, CR, SP and NBSP. *)
Module JsString.

Definition lowerUnit (c : ascii) : ascii :=
  let n := nat_of_ascii c in
  if ((65 <=? n) && (n <=? 90))%nat then ascii_of_nat (n + 32)
  else if ((192 <=? n) && (n <=? 222) && negb (n =? 215))%nat then ascii_of_nat (n + 32)
  else c.

Fixpoint toLowerCase (s : string) : string :=
  match s with
  | EmptyString => EmptyString
  | String c r => String (lowerUnit c) (toLowerCase r)
  end.

Definition isWhiteSpace (c : ascii) : bool :=
  let n := nat_of_ascii c in
  (((9 <=? n) && (n <=? 13)) || (n =? 32) || (n =? 160))%nat.

Fixpoint trimStart (s : string) : string :=
  match s with
  | EmptyString => EmptyString
  | String c r => if isWhiteSpace c then trimStart r else s
  end.

Fixpoint trimEnd (s : string) : string :=
  match s with
  | EmptyString => EmptyString
  | String c r =>
      match trimEnd r with
      | EmptyString => if isWhiteSpace c then EmptyString else String c EmptyString
      | r' => String c r'
      end
  end.

Definition trim (s : string) : string := trimEnd (trimStart s).

(** [s.startsWith(p)] *)
Fixpoint startsWith (s p : string) : bool :=
  match p, s with
  | EmptyString, _ => true
  | String _ _, EmptyString => false
  | String a p', String b s' => Ascii.eqb a b && startsWith s' p'
  end.

(** [s.includes(sub)]: [sub] occurs in [s] at some position. *)
Fixpoint includes (s sub : string) : bool :=
  startsWith s sub ||
  match s with
  | EmptyString => false
  | String _ r => includes r sub
  end.

(** What [includes] decides. *)
Definition Substring (sub s : string) : Prop :=
  exists pre post, s = pre +:+ sub +:+ post.

End JsString.
Import JsString.

(** ** JavaScript values, exceptions and the outside world *)
Module Js.

(** A value produced by [JSON.parse].  An object keeps its own properties in
    insertion order, each key once ([JSON.parse] keeps the last of a
    duplicated key).  The numbers the components read are identifiers,
    quantities, counts and status codes: integers. *)
Inductive Json : Type :=
| JNull
| JBool (b : bool)
| JNum (n : Z)
| JStr (s : string)
| JArr (elems : list Json)
| JObj (fields : list (string * Json)).

Fixpoint lookupField (k : string) (fields : list (string * Json)) : option Json :=
  match fields with
  | [] => None
  | (k', v) :: rest => if String.eqb k' k then Some v else lookupField k rest
  end.

(** [v.k] on a value that is neither [null] nor [undefined], for the keys the
    components read ([error], [role], [username], [items], ...), none of which
    a built-in prototype defines.  [None] is [undefined]. *)
Definition getProp (v : Json) (k : string) : option Json :=
  match v with
  | JObj fields => lookupField k fields
  | _ => None
  end.

(** [v?.k] *)
Definition getPropOpt (v : Json) (k : string) : option Json :=
  match v with
  | JNull => None
  | _ => getProp v k
  end.

(** [Object.keys(v)] *)
Definition keys (v : Json) : list string :=
  match v with
  | JObj fields => map fst fields
  | _ => []
  end.

(** [a ?? b]: [b] when [a] is [undefined] or [null]. *)
Definition nullish {A} (a : option Json) (some : Json -> A) (b : A) : A :=
  match a with
  | None | Some JNull => b
  | Some v => some v
  end.

(** [!v] *)
Definition falsy (v : Json) : bool :=
  match v with
  | JNull => true
  | JBool b => negb b
  | JNum n => (n =? 0)
  | JStr s => String.eqb s ""
  | JArr _ | JObj _ => false
  end.

Definition digitChar (d : Z) : ascii := ascii_of_nat (48 + Z.to_nat d).

Fixpoint digitsOf (fuel : nat) (n : Z) (acc : string) : string :=
  match fuel with
  | O => acc
  | S fuel' =>
      let acc' := String (digitChar (n mod 10)) acc in
      if n <? 10 then acc' else digitsOf fuel' (n / 10) acc'
  end.

(** [String(n)] for an integer [n]. *)
Definition numberToString (n : Z) : string :=
  if n <? 0 then "-" +:+ digitsOf (Z.to_nat (Z.log2 (- n)) + 1) (- n) ""
  else digitsOf (Z.to_nat (Z.log2 n) + 1) n "".

Fixpoint joinWith (sep : string) (parts : list string) : string :=
  match parts with
  | [] => ""
  | [p] => p
  | p :: rest => p +:+ sep +:+ joinWith sep rest
  end.

(** [String(v)], as [new Error(v)] computes its message. *)
Fixpoint toStringJson (v : Json) : string :=
  match v with
  | JNull => "null"
  | JBool true => "true"
  | JBool false => "false"
  | JNum n => numberToString n
  | JStr s => s
  | JArr elems =>
      joinWith "," (map (fun e => match e with JNull => "" | _ => toStringJson e end) elems)
  | JObj _ => "[object Object]"
  end.

(** What a [catch] clause can tell about the value it caught. *)
Inductive ErrorKind := TypeError | SyntaxError | PlainError | NotAnError.

Record Exn := mkExn { kind : ErrorKind; message : string }.

(** [new Error(msg)] *)
Definition newError (msg : string) : Exn := mkExn PlainError msg.

(** [err instanceof Error] *)
Definition instanceofError (e : Exn) : bool :=
  match kind e with NotAnError => false | _ => true end.

(** [err instanceof TypeError] *)
Definition instanceofTypeError (e : Exn) : bool :=
  match kind e with TypeError => true | _ => false end.

(** The body of a multipart form, field by field. *)
Inductive FormValue := FormText (s : string) | FormFile (fileName : string).

Inductive Body :=
| NoBody
| TextBody (s : string)
| FormData (entries : list (string * FormValue)).

(** The arguments of a [fetch] call. *)
Record Request := mkRequest {
  url : string;
  method : string;
  headers : list (string * string);
  credentialsInclude : bool;
  body : Body
}.

(** [response.text()] resolves to the body text, or rejects when the body
    cannot be read. *)
Inductive BodyRead := BodyText (t : string) | BodyFails (msg : string).

Record Response := mkResponse { status : Z; bodyRead : BodyRead }.

(** [response.ok]: the status is in the range 200-299. *)
Definition ok (r : Response) : bool := (200 <=? status r) && (status r <=? 299).

(** [fetch] rejects with a [TypeError] on a network failure, and resolves to
    a response otherwise, whatever its status. *)
Inductive FetchResult := NetworkFailure (msg : string) | Responds (r : Response).

(** What the components take from the browser: the world outside the page
    (servers, network, clock), and built-in functions that are used as given. *)
Class Platform := {
  Env : Type;
  serve : Env -> Request -> Env * FetchResult;
  toLocaleTimeString : Env -> string;
  API_BASE_URL : string;
  (** [None]: [JSON.parse] throws a [SyntaxError]. *)
  JSON_parse : string -> option Json;
  JSON_stringify : Json -> string;
  (** [Number(s)]; [None] is [NaN]. *)
  Number : string -> option Z;
  (** [new Date(s).getTime()]; [None] is [NaN]. *)
  Date_getTime : string -> option Z;
  URLSearchParams_toString : list (string * string) -> string
}.

(** The double nearest to the integer [z], ties to the even significand.
    Every integer below 2^53 in magnitude is a double; above, a double keeps
    the 53 leading bits.  (Beyond the largest double the engine's result is
    [Infinity], which has no integer here; the properties below stay under
    2^53.) *)
Definition roundDouble (z : Z) : Z :=
  let a := Z.abs z in
  if a <? 2 ^ 53 then z
  else
    let e := Z.log2 a - 52 in
    let q := a / 2 ^ e in
    let r := a mod 2 ^ e in
    let half := 2 ^ (e - 1) in
    let q' := if (half <? r) || ((r =? half) && Z.odd q) then q + 1 else q in
    Z.sgn z * (q' * 2 ^ e).

(** [x + y] on numbers with integer values: the exact sum, rounded. *)
Definition plus (x y : Z) : Z := roundDouble (x + y).

(** A number as [JSON.stringify] writes it: [NaN] becomes [null]. *)
Definition numberJson (n : option Z) : Json :=
  match n with Some z => JNum z | None => JNull end.

Section Effects.
Context {P : Platform}.

(** The state of a component [St], the outside world and the requests sent
    so far, latest first. *)
Record World (St : Type) := mkWorld { page : St; env : Env; requests : list Request }.
Arguments mkWorld {St}.
Arguments page {St}.
Arguments env {St}.
Arguments requests {St}.

Inductive Outcome (A : Type) := Returns (a : A) | Throws (e : Exn).
Arguments Returns {A}.
Arguments Throws {A}.

(** An [async] function body: it runs on a world and returns or throws. *)
Definition M (St A : Type) : Type := World St -> Outcome A * World St.

Definition ret {St A} (a : A) : M St A := fun w => (Returns a, w).

Definition bind {St A B} (m : M St A) (k : A -> M St B) : M St B :=
  fun w => match m w with
           | (Returns a, w') => k a w'
           | (Throws e, w') => (Throws e, w')
           end.

Definition throw {St A} (e : Exn) : M St A := fun w => (Throws e, w).

(** [try { body } catch (err) { handler }] *)
Definition tryCatch {St A} (body : M St A) (handler : Exn -> M St A) : M St A :=
  fun w => match body w with
           | (Returns a, w') => (Returns a, w')
           | (Throws e, w') => handler e w'
           end.

(** [try { body } finally { fin }] *)
Definition tryFinally {St A} (body : M St A) (fin : M St unit) : M St A :=
  fun w => match body w with
           | (r, w') =>
               match fin w' with
               | (Returns _, w'') => (r, w'')
               | (Throws e, w'') => (Throws e, w'')
               end
           end.

(** The state the handler closed over. *)
Definition getState {St} : M St St := fun w => (Returns (page w), w).

(** A [setX(...)] call of a [useState] hook. *)
Definition setState {St} (f : St -> St) : M St unit :=
  fun w => (Returns tt, mkWorld (f (page w)) (env w) (requests w)).

(** [new Date().toLocaleTimeString()] *)
Definition currentTime {St} : M St string :=
  fun w => (Returns (toLocaleTimeString (env w)), w).

(** [await fetch(...)] *)
Definition fetch {St} (req : Request) : M St Response :=
  fun w =>
    let (env', res) := serve (env w) req in
    let w' := mkWorld (page w) env' (req :: requests w) in
    match res with
    | NetworkFailure msg => (Throws (mkExn TypeError msg), w')
    | Responds r => (Returns r, w')
    end.

(** [await response.text()] *)
Definition text {St} (r : Response) : M St string :=
  match bodyRead r with
  | BodyText t => ret t
  | BodyFails msg => throw (mkExn TypeError msg)
  end.

(** [JSON.parse(t)] *)
Definition parse {St} (t : string) : M St Json :=
  match JSON_parse t with
  | Some v => ret v
  | None => throw (mkExn SyntaxError "Unexpected token in JSON")
  end.

(** [const readJsonSafely = async (response) => { ... }] *)
Definition readJsonSafely {St} (response : Response) : M St Json :=
  bind (text response) (fun t =>
  if String.eqb t "" then ret JNull
  else tryCatch (parse t) (fun _ => ret JNull)).

(** [await response.json()] *)
Definition json {St} (r : Response) : M St Json :=
  bind (text r) parse.

End Effects.

Arguments mkWorld {P St}.
Arguments page {P St}.
Arguments env {P St}.
Arguments requests {P St}.
Arguments Returns {A}.
Arguments Throws {A}.

Declare Scope js_scope.
Delimit Scope js_scope with js.
Notation "x <- m ;; k" := (bind m (fun x => k))
  (at level 100, m at next level, right associativity) : js_scope.
Notation "m ;; k" := (bind m (fun _ => k))
  (at level 100, right associativity) : js_scope.

End Js.
Import Js.

(** ** The kitchen-inventory component

    [function App()] of the second component of [unnamed/part_001]: one
    list of items with a form, a search box and a category selector. *)
Module Inventory.

Record FoodItem := mkFoodItem {
  id : Z;
  name : string;
  category : string;
  quantity : Z;
  created_at : string
}.

(** The [useState] cells, in the order of the source.  The cells [name],
    [category] and [quantity] of the form are [nameInput], [categoryInput]
    and [quantityInput] here: the fields of [FoodItem] have their names. *)
Record State := mkState {
  items : list FoodItem;
  nameInput : string;
  categoryInput : string;
  quantityInput : string;
  searchTerm : string;
  activeCategory : string;
  loading : bool;
  submitting : bool;
  error : string;
  lastUpdated : string
}.

Definition initialState : State :=
  mkState [] "" "" "1" "" "All" true false "" "".

Definition setItems (f : list FoodItem -> list FoodItem) (s : State) : State :=
  mkState (f (items s)) (nameInput s) (categoryInput s) (quantityInput s) (searchTerm s)
          (activeCategory s) (loading s) (submitting s) (error s) (lastUpdated s).
Definition setName (v : string) (s : State) : State :=
  mkState (items s) v (categoryInput s) (quantityInput s) (searchTerm s)
          (activeCategory s) (loading s) (submitting s) (error s) (lastUpdated s).
Definition setCategory (v : string) (s : State) : State :=
  mkState (items s) (nameInput s) v (quantityInput s) (searchTerm s)
          (activeCategory s) (loading s) (submitting s) (error s) (lastUpdated s).
Definition setQuantity (v : string) (s : State) : State :=
  mkState (items s) (nameInput s) (categoryInput s) v (searchTerm s)
          (activeCategory s) (loading s) (submitting s) (error s) (lastUpdated s).
Definition setLoading (v : bool) (s : State) : State :=
  mkState (items s) (nameInput s) (categoryInput s) (quantityInput s) (searchTerm s)
          (activeCategory s) v (submitting s) (error s) (lastUpdated s).
Definition setSubmitting (v : bool) (s : State) : State :=
  mkState (items s) (nameInput s) (categoryInput s) (quantityInput s) (searchTerm s)
          (activeCategory s) (loading s) v (error s) (lastUpdated s).
Definition setError (v : string) (s : State) : State :=
  mkState (items s) (nameInput s) (categoryInput s) (quantityInput s) (searchTerm s)
          (activeCategory s) (loading s) (submitting s) v (lastUpdated s).
Definition setLastUpdated (v : string) (s : State) : State :=
  mkState (items s) (nameInput s) (categoryInput s) (quantityInput s) (searchTerm s)
          (activeCategory s) (loading s) (submitting s) (error s) v.

(** TypeScript's [as FoodItem] and the typing of [data.items] as
    [FoodItem[]] are unchecked: how a response value is read as items is
    left open. *)
Class Casts := {
  asFoodItem : Json -> FoodItem;
  asFoodItems : Json -> list FoodItem
}.

Definition cannotReach : string :=
  "Cannot reach backend API. Start Django server on http://localhost:8000.".

Section Component.
Context {P : Platform} {C : Casts}.

Local Open Scope js_scope.

Definition API_URL : string := API_BASE_URL +:+ "/api/food-items/".

(** The [catch] clause that [loadItems] and [handleSubmit] share. *)
Definition reportError (err : Exn) : M State unit :=
  if instanceofTypeError err then setState (setError cannotReach)
  else setState (setError (if instanceofError err then message err else "Unexpected error.")).

(** [data.k] where [data] may be [null]: reading a property of [null]
    throws a [TypeError]. *)
Definition member (data : Json) (k : string) : M State (option Json) :=
  match data with
  | JNull => throw (mkExn TypeError ("Cannot read properties of null (reading '" +:+ k +:+ "')"))
  | _ => ret (getProp data k)
  end.

(** [fetch(API_URL)] *)
Definition listRequest : Request := mkRequest API_URL "GET" [] false NoBody.

(** [fetch(API_URL, { method: 'POST', ... })], from the form's inputs. *)
Definition createRequest (s : State) : Request :=
  mkRequest API_URL "POST" [("Content-Type", "application/json")] false
            (TextBody (JSON_stringify
               (JObj [("name", JStr (nameInput s));
                      ("category", JStr (categoryInput s));
                      ("quantity", numberJson (Number (quantityInput s)))]))).

Definition loadItems : M State unit :=
  setState (setLoading true) ;;
  setState (setError "") ;;
  tryFinally
    (tryCatch
       (response <- fetch listRequest ;;
        (if negb (ok response) then throw (newError "Unable to load food items.") else ret tt) ;;
        data <- json response ;;
        its <- member data "items" ;;
        setState (setItems (fun _ => nullish its asFoodItems [])) ;;
        now <- currentTime ;;
        setState (setLastUpdated now))
       reportError)
    (setState (setLoading false)).

Definition handleSubmit : M State unit :=
  s <- getState ;;
  setState (setSubmitting true) ;;
  setState (setError "") ;;
  tryFinally
    (tryCatch
       (response <- fetch (createRequest s) ;;
        data <- json response ;;
        (if negb (ok response) then
           err <- member data "error" ;;
           throw (newError (nullish err toStringJson "Unable to create item."))
         else ret tt) ;;
        setState (setItems (fun previous => asFoodItem data :: previous)) ;;
        now <- currentTime ;;
        setState (setLastUpdated now) ;;
        setState (setName "") ;;
        setState (setCategory "") ;;
        setState (setQuantity "1"))
       reportError)
    (setState (setSubmitting false)).

End Component.

(** [filteredItems], as a function of the three values it depends on. *)
Definition filteredItems (items : list FoodItem) (activeCategory searchTerm : string)
  : list FoodItem :=
  let query := toLowerCase (trim searchTerm) in
  List.filter (fun item =>
    let matchesCategory :=
      String.eqb activeCategory "All" || String.eqb (category item) activeCategory in
    let matchesSearch :=
      Nat.eqb (String.length query) 0 ||
      includes (toLowerCase (name item)) query ||
      includes (toLowerCase (category item)) query in
    matchesCategory && matchesSearch) items.

(** What the search box looks for: the trimmed, lowercased term, in the
    lowercased name and in the lowercased category. *)
Definition matchesSearch (searchTerm : string) (item : FoodItem) : Prop :=
  Substring (toLowerCase (trim searchTerm)) (toLowerCase (name item)) \/
  Substring (toLowerCase (trim searchTerm)) (toLowerCase (category item)).

(** [totalQuantity] and [lowStockCount] *)
Definition totalQuantity (items : list FoodItem) : Z :=
  fold_left (fun sum item => plus sum (quantity item)) items 0.

Definition lowStockCount (items : list FoodItem) : nat :=
  List.length (List.filter (fun item => quantity item <=? 2) items).

End Inventory.

(** ** The canteen component

    [function App()] of the second component of
    [cfms_frontend/src/App.tsx]: login, the student's menus and feedback
    form, the administrator's dashboard. *)
Module Canteen.

Record FoodItem := mkFoodItem {
  id : Z;
  name : string;
  category : string;
  quantity : Z;
  image_url : string;
  created_at : string
}.

(** The fields [id], [message] and [created_at] of a feedback are [fb_id],
    [fb_message] and [fb_created_at] here. *)
Record FeedbackItem := mkFeedbackItem {
  fb_id : Z;
  student_name : string;
  food_item_id : option Z;
  food_item_name : string;
  rating : Z;
  fb_message : string;
  fb_created_at : string
}.

Record AnalyticsItem := mkAnalyticsItem {
  food_name : string;
  avg_rating : Q;
  count : Z
}.

Record AnalyticsData := mkAnalyticsData {
  top_rated : list AnalyticsItem;
  rating_distribution : gmap string Z
}.

(** The [useState] cells, grouped as the source groups them.  The cells
    [name], [category] and [quantity] of the item form are [nameInput],
    [categoryInput] and [quantityInput] here. *)
Record Loaded := mkLoaded {
  items : list FoodItem;
  feedbacks : list FeedbackItem;
  analytics : AnalyticsData
}.

Record ItemForm := mkItemForm {
  nameInput : string;
  categoryInput : string;
  quantityInput : string;
  imageFile : option string
}.

Record FeedbackForm := mkFeedbackForm {
  feedbackMessage : string;
  feedbackRating : string;
  feedbackFoodId : string
}.

Record Filters := mkFilters {
  filterSearch : string;
  filterCategory : string;
  filterFrom : string;
  filterTo : string
}.

Record Status := mkStatus {
  loading : bool;
  submitting : bool;
  feedbackSubmitting : bool;
  error : string;
  feedbackStatus : string;
  lastUpdated : string
}.

(** [role] and [currentUser] hold the values taken from the login response
    as they are: [as UserRole] checks nothing at run time.  [JNull] is
    [null]. *)
Record Session := mkSession {
  role : Json;
  username : string;
  password : string;
  currentUser : Json;
  loginError : string;
  loginLoading : bool
}.

Record State := mkState {
  loaded : Loaded;
  itemForm : ItemForm;
  feedbackForm : FeedbackForm;
  filterInputs : Filters;
  status : Status;
  session : Session
}.

Definition initialState : State :=
  mkState (mkLoaded [] [] (mkAnalyticsData [] ∅))
          (mkItemForm "" "morning" "1" None)
          (mkFeedbackForm "" "5" "")
          (mkFilters "" "" "" "")
          (mkStatus true false false "" "" "")
          (mkSession JNull "" "" (JStr "") "" false).

Definition onLoaded (f : Loaded -> Loaded) (s : State) : State :=
  mkState (f (loaded s)) (itemForm s) (feedbackForm s) (filterInputs s) (status s) (session s).
Definition onItemForm (f : ItemForm -> ItemForm) (s : State) : State :=
  mkState (loaded s) (f (itemForm s)) (feedbackForm s) (filterInputs s) (status s) (session s).
Definition onFeedbackForm (f : FeedbackForm -> FeedbackForm) (s : State) : State :=
  mkState (loaded s) (itemForm s) (f (feedbackForm s)) (filterInputs s) (status s) (session s).
Definition onStatus (f : Status -> Status) (s : State) : State :=
  mkState (loaded s) (itemForm s) (feedbackForm s) (filterInputs s) (f (status s)) (session s).
Definition onSession (f : Session -> Session) (s : State) : State :=
  mkState (loaded s) (itemForm s) (feedbackForm s) (filterInputs s) (status s) (f (session s)).

Definition setItems (f : list FoodItem -> list FoodItem) : State -> State :=
  onLoaded (fun d => mkLoaded (f (items d)) (feedbacks d) (analytics d)).
Definition setFeedbacks (v : list FeedbackItem) : State -> State :=
  onLoaded (fun d => mkLoaded (items d) v (analytics d)).
Definition setAnalytics (v : AnalyticsData) : State -> State :=
  onLoaded (fun d => mkLoaded (items d) (feedbacks d) v).

Definition setName (v : string) : State -> State :=
  onItemForm (fun f => mkItemForm v (categoryInput f) (quantityInput f) (imageFile f)).
Definition setCategory (v : string) : State -> State :=
  onItemForm (fun f => mkItemForm (nameInput f) v (quantityInput f) (imageFile f)).
Definition setQuantity (v : string) : State -> State :=
  onItemForm (fun f => mkItemForm (nameInput f) (categoryInput f) v (imageFile f)).
Definition setImageFile (v : option string) : State -> State :=
  onItemForm (fun f => mkItemForm (nameInput f) (categoryInput f) (quantityInput f) v).

Definition setFeedbackMessage (v : string) : State -> State :=
  onFeedbackForm (fun f => mkFeedbackForm v (feedbackRating f) (feedbackFoodId f)).
Definition setFeedbackRating (v : string) : State -> State :=
  onFeedbackForm (fun f => mkFeedbackForm (feedbackMessage f) v (feedbackFoodId f)).
Definition setFeedbackFoodId (v : string) : State -> State :=
  onFeedbackForm (fun f => mkFeedbackForm (feedbackMessage f) (feedbackRating f) v).

Definition setLoading (v : bool) : State -> State :=
  onStatus (fun t => mkStatus v (submitting t) (feedbackSubmitting t) (error t)
                              (feedbackStatus t) (lastUpdated t)).
Definition setSubmitting (v : bool) : State -> State :=
  onStatus (fun t => mkStatus (loading t) v (feedbackSubmitting t) (error t)
                              (feedbackStatus t) (lastUpdated t)).
Definition setFeedbackSubmitting (v : bool) : State -> State :=
  onStatus (fun t => mkStatus (loading t) (submitting t) v (error t)
                              (feedbackStatus t) (lastUpdated t)).
Definition setError (v : string) : State -> State :=
  onStatus (fun t => mkStatus (loading t) (submitting t) (feedbackSubmitting t) v
                              (feedbackStatus t) (lastUpdated t)).
Definition setFeedbackStatus (v : string) : State -> State :=
  onStatus (fun t => mkStatus (loading t) (submitting t) (feedbackSubmitting t) (error t)
                              v (lastUpdated t)).
Definition setLastUpdated (v : string) : State -> State :=
  onStatus (fun t => mkStatus (loading t) (submitting t) (feedbackSubmitting t) (error t)
                              (feedbackStatus t) v).

Definition setRole (v : Json) : State -> State :=
  onSession (fun u => mkSession v (username u) (password u) (currentUser u)
                                (loginError u) (loginLoading u)).
Definition setPassword (v : string) : State -> State :=
  onSession (fun u => mkSession (role u) (username u) v (currentUser u)
                                (loginError u) (loginLoading u)).
Definition setCurrentUser (v : Json) : State -> State :=
  onSession (fun u => mkSession (role u) (username u) (password u) v
                                (loginError u) (loginLoading u)).
Definition setLoginError (v : string) : State -> State :=
  onSession (fun u => mkSession (role u) (username u) (password u) (currentUser u)
                                v (loginLoading u)).
Definition setLoginLoading (v : bool) : State -> State :=
  onSession (fun u => mkSession (role u) (username u) (password u) (currentUser u)
                                (loginError u) v).

Definition setUsername (v : string) : State -> State :=
  onSession (fun u => mkSession (role u) v (password u) (currentUser u)
                                (loginError u) (loginLoading u)).

Definition onFilters (f : Filters -> Filters) (s : State) : State :=
  mkState (loaded s) (itemForm s) (feedbackForm s) (f (filterInputs s)) (status s) (session s).

Definition setFilterSearch (v : string) : State -> State :=
  onFilters (fun f => mkFilters v (filterCategory f) (filterFrom f) (filterTo f)).
Definition setFilterCategory (v : string) : State -> State :=
  onFilters (fun f => mkFilters (filterSearch f) v (filterFrom f) (filterTo f)).
Definition setFilterFrom (v : string) : State -> State :=
  onFilters (fun f => mkFilters (filterSearch f) (filterCategory f) v (filterTo f)).
Definition setFilterTo (v : string) : State -> State :=
  onFilters (fun f => mkFilters (filterSearch f) (filterCategory f) (filterFrom f) v).

(** The unchecked typings of response values. *)
Class Casts := {
  asFoodItem : Json -> FoodItem;
  asFoodItems : Json -> list FoodItem;
  asFeedbacks : Json -> list FeedbackItem;
  asTopRated : Json -> list AnalyticsItem;
  asDistribution : Json -> gmap string Z
}.

(** [s.replace(/\/+$/, '')] *)
Fixpoint stripTrailingSlashes (s : string) : string :=
  match s with
  | EmptyString => EmptyString
  | String c r =>
      match stripTrailingSlashes r with
      | EmptyString => if Ascii.eqb c "/" then EmptyString else String c EmptyString
      | r' => String c r'
      end
  end.

(** [s.replace(/\/api$/, '')] *)
Fixpoint stripApiSuffix (s : string) : string :=
  if String.eqb s "/api" then EmptyString
  else match s with
       | EmptyString => EmptyString
       | String c r => String c (stripApiSuffix r)
       end.

Section Component.
Context {P : Platform} {C : Casts}.

Local Open Scope js_scope.

Definition NORMALIZED_BASE_URL : string := stripApiSuffix (stripTrailingSlashes API_BASE_URL).
Definition FOOD_URL : string := NORMALIZED_BASE_URL +:+ "/api/food-items/".
Definition LOGIN_URL : string := NORMALIZED_BASE_URL +:+ "/api/auth/login/".
Definition FEEDBACK_URL : string := NORMALIZED_BASE_URL +:+ "/api/feedback/".
Definition ANALYTICS_URL : string := NORMALIZED_BASE_URL +:+ "/api/analytics/feedback/".

(** [queryString(params)] *)
Definition queryString (params : list (string * string)) : string :=
  let search :=
    flat_map (fun kv => if String.eqb (trim (snd kv)) "" then [] else [(fst kv, trim (snd kv))])
             params in
  let query := URLSearchParams_toString search in
  if String.eqb query "" then "" else "?" +:+ query.

(** [filters], the memoised object of the four filter inputs. *)
Definition filters (s : State) : list (string * string) :=
  [("search", filterSearch (filterInputs s));
   ("category", filterCategory (filterInputs s));
   ("date_from", filterFrom (filterInputs s));
   ("date_to", filterTo (filterInputs s))].

Definition jsonHeaders : list (string * string) := [("Content-Type", "application/json")].

(** [err instanceof Error ? err.message : fallback] *)
Definition messageOr (err : Exn) (fallback : string) : string :=
  if instanceofError err then message err else fallback.

(** [if (c) throw new Error(msg)] *)
Definition throwIf (c : bool) (msg : string) : M State unit :=
  if c then throw (newError msg) else ret tt.

Definition loadItems : M State unit :=
  s <- getState ;;
  setState (setLoading true) ;;
  setState (setError "") ;;
  tryFinally
    (tryCatch
       (response <- fetch (mkRequest (FOOD_URL +:+ queryString (filters s)) "GET" [] true NoBody) ;;
        data <- readJsonSafely response ;;
        throwIf (negb (ok response))
                (nullish (getPropOpt data "error") toStringJson "Unable to load food items.") ;;
        throwIf (falsy data) "Backend returned an invalid response." ;;
        setState (setItems (fun _ => nullish (getProp data "items") asFoodItems [])) ;;
        now <- currentTime ;;
        setState (setLastUpdated now))
       (fun err => setState (setError (messageOr err "Unexpected error."))))
    (setState (setLoading false)).

Definition loadFeedbacks : M State unit :=
  s <- getState ;;
  tryCatch
    (response <- fetch (mkRequest (FEEDBACK_URL +:+ queryString (filters s)) "GET" [] true NoBody) ;;
     data <- readJsonSafely response ;;
     throwIf (negb (ok response))
             (nullish (getPropOpt data "error") toStringJson "Unable to load feedback.") ;;
     setState (setFeedbacks (nullish (getPropOpt data "feedbacks") asFeedbacks [])))
    (fun err => setState (setError (messageOr err "Unable to load feedback list."))).

Definition loadAnalytics : M State unit :=
  s <- getState ;;
  tryCatch
    (response <- fetch (mkRequest (ANALYTICS_URL +:+ queryString (filters s)) "GET" [] true NoBody) ;;
     data <- readJsonSafely response ;;
     throwIf (negb (ok response))
             (nullish (getPropOpt data "error") toStringJson "Unable to load analytics.") ;;
     throwIf (falsy data) "Invalid analytics response." ;;
     setState (setAnalytics
       (mkAnalyticsData (nullish (getProp data "top_rated") asTopRated [])
                        (nullish (getProp data "rating_distribution") asDistribution ∅))))
    (fun err => setState (setError (messageOr err "Unable to load analytics."))).

(** [v === 'lit'] for a value read from a response. *)
Definition isString (v : option Json) (lit : string) : bool :=
  match v with
  | Some (JStr t) => String.eqb t lit
  | _ => false
  end.

(** The effect that depends on [role] and the filters; the two loads are
    started one after the other. *)
Definition roleEffect : M State unit :=
  s <- getState ;;
  if isString (Some (role (session s))) "admin" then loadFeedbacks ;; loadAnalytics
  else ret tt.

Definition loginFallback (response : Response) : string :=
  if Js.status response =? 404
  then "Login endpoint not found. Restart backend and verify latest code is running."
  else "Login failed (HTTP " +:+ numberToString (Js.status response) +:+ ").".

(** The [fetch] of [handleLogin], from the inputs of the login form. *)
Definition loginRequest (s : State) : Request :=
  mkRequest LOGIN_URL "POST" jsonHeaders true
            (TextBody (JSON_stringify
               (JObj [("username", JStr (trim (username (session s))));
                      ("password", JStr (password (session s)))]))).

(** The [try] block of [handleLogin]. *)
Definition loginAttempt (s : State) : M State unit :=
  response <- fetch (loginRequest s) ;;
  data <- readJsonSafely response ;;
  throwIf (negb (ok response))
          (nullish (getPropOpt data "error") toStringJson (loginFallback response)) ;;
  throwIf (falsy data ||
           (negb (isString (getProp data "role") "student") &&
            negb (isString (getProp data "role") "admin")))
          "Invalid login response from backend." ;;
  setState (setRole (nullish (getProp data "role") (fun v => v) JNull)) ;;
  setState (setCurrentUser
              (nullish (getProp data "username") (fun v => v)
                       (JStr (trim (username (session s)))))) ;;
  setState (setPassword "").

(** The two updates that precede the [try] block. *)
Definition loginStart : M State unit :=
  setState (setLoginError "") ;;
  setState (setLoginLoading true).

Definition handleLogin : M State unit :=
  s <- getState ;;
  loginStart ;;
  tryFinally
    (tryCatch
       (loginAttempt s)
       (fun err => setState (setLoginError (messageOr err "Unexpected login error."))))
    (setState (setLoginLoading false)).

Definition handleLogout : M State unit :=
  setState (setRole JNull) ;;
  setState (setCurrentUser (JStr "")) ;;
  setState (setLoginError "") ;;
  setState (setFeedbackStatus "").

Definition handleSubmit : M State unit :=
  s <- getState ;;
  setState (setSubmitting true) ;;
  setState (setError "") ;;
  tryFinally
    (tryCatch
       (let payload :=
          app [("name", FormText (nameInput (itemForm s)));
               ("category", FormText (categoryInput (itemForm s)));
               ("quantity", FormText (quantityInput (itemForm s)))]
              match imageFile (itemForm s) with
              | Some f => [("image", FormFile f)]
              | None => []
              end in
        response <- fetch (mkRequest FOOD_URL "POST" [] true (FormData payload)) ;;
        data <- readJsonSafely response ;;
        throwIf (negb (ok response))
                (nullish (getPropOpt data "error") toStringJson "Unable to create item.") ;;
        throwIf (falsy data) "Backend returned an invalid response." ;;
        setState (setItems (fun previous => asFoodItem data :: previous)) ;;
        now <- currentTime ;;
        setState (setLastUpdated now) ;;
        setState (setName "") ;;
        setState (setCategory "morning") ;;
        setState (setQuantity "1") ;;
        setState (setImageFile None))
       (fun err => setState (setError (messageOr err "Unexpected error."))))
    (setState (setSubmitting false)).

(** The object that [handleFeedbackSubmit] passes to [JSON.stringify]. *)
Definition feedbackPayload (f : FeedbackForm) : Json :=
  JObj [("message", JStr (feedbackMessage f));
        ("rating", numberJson (Number (feedbackRating f)));
        ("food_item_id",
         if String.eqb (feedbackFoodId f) "" then JNull
         else numberJson (Number (feedbackFoodId f)))].

Definition feedbackRequest (s : State) : Request :=
  mkRequest FEEDBACK_URL "POST" jsonHeaders true
            (TextBody (JSON_stringify (feedbackPayload (feedbackForm s)))).

Definition handleFeedbackSubmit : M State unit :=
  s <- getState ;;
  setState (setFeedbackStatus "") ;;
  setState (setFeedbackSubmitting true) ;;
  tryFinally
    (tryCatch
       (response <- fetch (feedbackRequest s) ;;
        data <- readJsonSafely response ;;
        throwIf (negb (ok response))
                (nullish (getPropOpt data "error") toStringJson "Unable to submit feedback.") ;;
        setState (setFeedbackStatus "Feedback submitted successfully.") ;;
        setState (setFeedbackMessage "") ;;
        setState (setFeedbackFoodId "") ;;
        setState (setFeedbackRating "5"))
       (fun err => setState (setFeedbackStatus (messageOr err "Unable to submit feedback."))))
    (setState (setFeedbackSubmitting false)).

End Component.

(** [Array.prototype.sort(comparefn)].  A comparator result that is [NaN]
    counts as [+0], and the sort is stable.  For a consistent comparator
    that fixes the result, which is the one of the stable insertion sort
    below.  For a comparator that is not consistent (the one of
    [sortedHistory] when some dates are readable and some are not) the
    language leaves the order to the engine: of such lists only that the
    result is a permutation is stated, and that a list of three items whose
    middle date is unreadable stays as it is, as it does in the engines. *)
Section ArraySort.
Context {A : Type} (comparefn : A -> A -> option Z).

Definition sortCompare (x y : A) : Z :=
  match comparefn x y with Some v => v | None => 0 end.

Fixpoint insertSorted (x : A) (l : list A) : list A :=
  match l with
  | [] => [x]
  | y :: r => if 0 <? sortCompare x y then y :: insertSorted x r else x :: l
  end.

Fixpoint sort (l : list A) : list A :=
  match l with
  | [] => []
  | x :: r => insertSorted x (sort r)
  end.

End ArraySort.

(** [a - b] on numbers that may be [NaN].  Of the difference of two times
    the sort reads the sign only, which is that of the exact difference. *)
Definition minus (a b : option Z) : option Z :=
  match a, b with
  | Some x, Some y => Some (x - y)
  | _, _ => None
  end.

(** [items.reduce((sum, item) => sum + item.quantity, 0)] *)
Definition totalQuantity (items : list FoodItem) : Z :=
  fold_left (fun sum item => plus sum (quantity item)) items 0.

Record Menus := mkMenus {
  morning : list FoodItem;
  lunch : list FoodItem;
  dinner : list FoodItem
}.

Definition todayMenus (items : list FoodItem) : Menus :=
  mkMenus
    (List.filter (fun item => String.eqb (toLowerCase (category item)) "morning") items)
    (List.filter (fun item => String.eqb (toLowerCase (category item)) "lunch") items)
    (List.filter (fun item => String.eqb (toLowerCase (category item)) "dinner") items).

Section Views.
Context {P : Platform}.

(** [new Date(item.created_at).getTime()] *)
Definition createdTime (item : FoodItem) : option Z := Date_getTime (created_at item).

(** The comparator of [sortedHistory]. *)
Definition byCreation (a b : FoodItem) : option Z := minus (createdTime b) (createdTime a).

Definition sortedHistory (items : list FoodItem) : list FoodItem := sort byCreation items.

End Views.

(** [earlier] is listed before [later] in a history that is newest first:
    [Date] reads both [created_at] strings, and the first time is not the
    older one. *)
Definition notOlder {P : Platform} (earlier later : FoodItem) : Prop :=
  exists t1 t2,
    Date_getTime (created_at earlier) = Some t1 /\
    Date_getTime (created_at later) = Some t2 /\ t2 <= t1.

(** [Date] reads the [created_at] of the item. *)
Definition readableDate {P : Platform} (item : FoodItem) : Prop :=
  is_Some (Date_getTime (created_at item)).

(** One line of the "Rating Distribution" chart. *)
Record RatingRow := mkRatingRow {
  label : string;
  width : Q;
  value : Z
}.

(** [Object.values(d).reduce((sum, n) => sum + n, 0)] *)
Definition distributionTotal (d : gmap string Z) : Z :=
  map_fold (fun _ n sum => sum + n) 0 d.

(** The body of [['5', '4', '3', '2', '1'].map((key) => ...)]; the width is
    kept as the exact quotient. *)
Definition ratingRows (d : gmap string Z) : list RatingRow :=
  map (fun key =>
         let value := default 0 (d !! key) in
         let total := distributionTotal d in
         let width := if 0 <? total then (inject_Z value / inject_Z total * 100)%Q else 0%Q in
         mkRatingRow (key +:+ " Star") width value)
      ["5"; "4"; "3"; "2"; "1"].

(** The values that [role] takes: [null], or one of the two roles. *)
Definition validRole (v : Json) : Prop :=
  v = JNull \/ v = JStr "student" \/ v = JStr "admin".

(** Which of the three screens [App] returns: the tests on [role] that end
    the render.  The totals, menus and history that the render computes from
    the loaded items before these tests are not part of it; they return when
    the items are the array of items that their type says. *)
Inductive Screen := LoginScreen | StudentScreen | AdminScreen.

Definition screen (s : State) : Screen :=
  if falsy (role (session s)) then LoginScreen
  else if isString (Some (role (session s))) "student" then StudentScreen
  else AdminScreen.

(** The values of the [<option>]s of the rating [<select>]. *)
Definition ratingOptions : list string := ["5"; "4"; "3"; "2"; "1"].

(** The [onChange] handlers of the inputs. *)
Inductive Input :=
| Username (v : string)
| Password (v : string)
| Name (v : string)
| Category (v : string)
| Quantity (v : string)
| ImageFile (v : option string)
| FeedbackFood (v : string)
| FeedbackRating (v : string)
| FeedbackMessage (v : string)
| FilterSearch (v : string)
| FilterCategory (v : string)
| FilterFrom (v : string)
| FilterTo (v : string).

Definition onChange (i : Input) : State -> State :=
  match i with
  | Username v => setUsername v
  | Password v => setPassword v
  | Name v => setName v
  | Category v => setCategory v
  | Quantity v => setQuantity v
  | ImageFile v => setImageFile v
  | FeedbackFood v => setFeedbackFoodId v
  | FeedbackRating v => setFeedbackRating v
  | FeedbackMessage v => setFeedbackMessage v
  | FilterSearch v => setFilterSearch v
  | FilterCategory v => setFilterCategory v
  | FilterFrom v => setFilterFrom v
  | FilterTo v => setFilterTo v
  end.

(** What can happen to the component: the user types, submits a form or
    clicks a button of the screen that is shown, or React runs an effect. *)
Inductive Event :=
| Change (i : Input)
| SubmitLogin
| ClickLogout
| ClickRefresh
| SubmitItem
| SubmitFeedback
| ItemsEffect
| RoleEffect.

(** The screen that offers the event; an effect can run on any. *)
Definition offered (e : Event) (s : State) : bool :=
  match e, screen s with
  | Change (Username _ | Password _), LoginScreen => true
  | Change (FeedbackFood _ | FeedbackRating _ | FeedbackMessage _), StudentScreen => true
  | Change (Name _ | Category _ | Quantity _ | ImageFile _), AdminScreen => true
  | Change (FilterSearch _ | FilterCategory _ | FilterFrom _ | FilterTo _), AdminScreen => true
  | Change _, _ => false
  | SubmitLogin, LoginScreen => true
  | SubmitLogin, _ => false
  | (ClickLogout | ClickRefresh), (StudentScreen | AdminScreen) => true
  | (ClickLogout | ClickRefresh), LoginScreen => false
  | SubmitItem, AdminScreen => true
  | SubmitItem, _ => false
  | SubmitFeedback, StudentScreen => true
  | SubmitFeedback, _ => false
  | (ItemsEffect | RoleEffect), _ => true
  end.

Section Events.
Context {P : Platform} {C : Casts}.

Local Open Scope js_scope.

(** The handler of an event; the handlers are run one at a time. *)
Definition handle (e : Event) : M State unit :=
  match e with
  | Change i => setState (onChange i)
  | SubmitLogin => handleLogin
  | ClickLogout => handleLogout
  | ClickRefresh =>
      s <- getState ;;
      if isString (Some (role (session s))) "student" then loadItems
      else loadItems ;; loadFeedbacks ;; loadAnalytics
  | SubmitItem => handleSubmit
  | SubmitFeedback => handleFeedbackSubmit
  | ItemsEffect => loadItems
  | RoleEffect => roleEffect
  end.

(** The worlds that the component can be in, from its initial state. *)
Inductive reachable : World State -> Prop :=
| reachable_initial (outside : Env) :
    reachable (mkWorld initialState outside [])
| reachable_event (w : World State) (e : Event) :
    reachable w -> offered e (page w) = true -> reachable (snd (handle e w)).

End Events.


(** [FOOD_IMAGE_MAP]: the keywords of an entry and its image. *)
Definition FOOD_IMAGE_MAP : list (list string * string) :=
  [(["rice"], "https://cdn.jsdelivr.net/gh/twitter/twemoji@14.0.2/assets/72x72/1f35a.png");
   (["dal"; "sambar"; "curry"],
    "https://cdn.jsdelivr.net/gh/twitter/twemoji@14.0.2/assets/72x72/1f35b.png");
   (["idli"; "dosa"; "chapati"; "roti"; "bread"],
    "https://cdn.jsdelivr.net/gh/twitter/twemoji@14.0.2/assets/72x72/1f35e.png");
   (["milk"], "https://cdn.jsdelivr.net/gh/twitter/twemoji@14.0.2/assets/72x72/1f95b.png");
   (["apple"], "https://cdn.jsdelivr.net/gh/twitter/twemoji@14.0.2/assets/72x72/1f34e.png");
   (["banana"], "https://cdn.jsdelivr.net/gh/twitter/twemoji@14.0.2/assets/72x72/1f34c.png");
   (["egg"], "https://cdn.jsdelivr.net/gh/twitter/twemoji@14.0.2/assets/72x72/1f95a.png");
   (["chicken"], "https://cdn.jsdelivr.net/gh/twitter/twemoji@14.0.2/assets/72x72/1f357.png")].

Definition DEFAULT_FOOD_IMAGE : string :=
  "https://cdn.jsdelivr.net/gh/twitter/twemoji@14.0.2/assets/72x72/1f372.png".

(** [entry.keywords.some((keyword) => normalized.includes(keyword))] *)
Definition mentions (normalized : string) (entry : list string * string) : bool :=
  existsb (fun keyword => includes normalized keyword) (fst entry).

(** [getFoodImage(item)] *)
Definition getFoodImage (item : FoodItem) : string :=
  if negb (String.eqb (image_url item) "") then image_url item
  else
    let normalized := toLowerCase (trim (name item)) in
    match List.find (mentions normalized) FOOD_IMAGE_MAP with
    | Some entry => snd entry
    | None => DEFAULT_FOOD_IMAGE
    end.

(** What [renderMenuTable] puts in a card: the line for an empty menu, or
    a row per item with its image, name and quantity. *)
Inductive MenuCard :=
| EmptyMenu (line : string)
| MenuRows (rows : list (string * string * Z)).

Definition renderMenuTable (title : string) (menuItems : list FoodItem) : MenuCard :=
  if Nat.eqb (length menuItems) 0
  then EmptyMenu ("No items added for " +:+ toLowerCase title +:+ ".")
  else MenuRows (map (fun item => (getFoodImage item, name item, quantity item)) menuItems).

(** A run of [n] slashes. *)
Fixpoint slashes (n : nat) : string :=
  match n with
  | O => EmptyString
  | S n' => String "/" (slashes n')
  end.

(** The keys that the chart reads. *)
Definition starKeys : list string := ["5"; "4"; "3"; "2"; "1"].

Section Exports.
Context {P : Platform}.

Definition FOOD_CSV_URL : string := NORMALIZED_BASE_URL +:+ "/api/reports/food-items.csv".
Definition FOOD_PDF_URL : string := NORMALIZED_BASE_URL +:+ "/api/reports/food-items.pdf".
Definition FEEDBACK_CSV_URL : string := NORMALIZED_BASE_URL +:+ "/api/reports/feedback.csv".
Definition FEEDBACK_PDF_URL : string := NORMALIZED_BASE_URL +:+ "/api/reports/feedback.pdf".

(** [exportUrlWithFilters(base)], in the state that is rendered. *)
Definition exportUrlWithFilters (s : State) (base : string) : string :=
  base +:+ queryString (filters s).

(** The requests for the lists of the three loaders. *)
Definition itemsRequest (s : State) : Request :=
  mkRequest (FOOD_URL +:+ queryString (filters s)) "GET" [] true NoBody.
Definition feedbacksRequest (s : State) : Request :=
  mkRequest (FEEDBACK_URL +:+ queryString (filters s)) "GET" [] true NoBody.
Definition analyticsRequest (s : State) : Request :=
  mkRequest (ANALYTICS_URL +:+ queryString (filters s)) "GET" [] true NoBody.

(** The multipart request of [handleSubmit]. *)
Definition itemRequest (s : State) : Request :=
  mkRequest FOOD_URL "POST" [] true
    (FormData
       (app [("name", FormText (nameInput (itemForm s)));
             ("category", FormText (categoryInput (itemForm s)));
             ("quantity", FormText (quantityInput (itemForm s)))]
            match imageFile (itemForm s) with
            | Some f => [("image", FormFile f)]
            | None => []
            end)).

End Exports.

Section Traffic.
Context {P : Platform}.

(** The requests that the handler of an event sends, the latest first. *)
Definition requestsOf (e : Event) (s : State) : list Request :=
  match e with
  | Change _ | ClickLogout => []
  | SubmitLogin => [loginRequest s]
  | ClickRefresh =>
      if isString (Some (role (session s))) "student" then [itemsRequest s]
      else [analyticsRequest s; feedbacksRequest s; itemsRequest s]
  | SubmitItem => [itemRequest s]
  | SubmitFeedback => [feedbackRequest s]
  | ItemsEffect => [itemsRequest s]
  | RoleEffect =>
      if isString (Some (role (session s))) "admin"
      then [analyticsRequest s; feedbacksRequest s]
      else []
  end.

(** A request that reads the feedback list or its analytics. *)
Definition readsFeedback (r : Request) : bool :=
  String.eqb (method r) "GET" &&
  (startsWith (url r) FEEDBACK_URL || startsWith (url r) ANALYTICS_URL).

(** The value that [readJsonSafely] returns for the body text [t]. *)
Definition bodyValue (t : string) : Json :=
  if String.eqb t "" then JNull
  else match JSON_parse t with Some v => v | None => JNull end.

End Traffic.

End Canteen.

(** ** The category selector of the inventory

    [categories] of the kitchen-inventory component.  [localeCompare]
    depends on the locale of the browser and is taken as given; the sort is
    the one of [Canteen.sort]. *)
Module Selector.

(** [Array.from(new Set(values))]: each value once, in the order of its
    first occurrence. *)
Fixpoint unique (values : list string) : list string :=
  match values with
  | [] => []
  | v :: rest => v :: List.filter (fun x => negb (String.eqb x v)) (unique rest)
  end.

Section Categories.
Context (localeCompare : string -> string -> Z).

Definition categories (items : list Inventory.FoodItem) : list string :=
  "All" :: Canteen.sort (fun a b => Some (localeCompare a b))
                        (unique (map Inventory.category items)).

End Categories.

End Selector.

(** ** The first portal

    [function App()] of the first component of [unnamed/part_001]: the login
    and the two portals, before feedback and filters.  Its [FoodItem] has
    the fields of the inventory's, and is the inventory's here. *)
Module Portal.

(** The [useState] cells, in the order of the source; [name], [category]
    and [quantity] are [nameInput], [categoryInput] and [quantityInput]. *)
Record State := mkState {
  items : list Inventory.FoodItem;
  nameInput : string;
  categoryInput : string;
  quantityInput : string;
  loading : bool;
  submitting : bool;
  error : string;
  lastUpdated : string;
  role : Json;
  username : string;
  password : string;
  loginError : string;
  loginLoading : bool
}.

Definition initialState : State :=
  mkState [] "" "morning" "1" true false "" "" JNull "" "" "" false.

Definition setItems (f : list Inventory.FoodItem -> list Inventory.FoodItem) (s : State)
  : State :=
  mkState (f (items s)) (nameInput s) (categoryInput s) (quantityInput s) (loading s)
          (submitting s) (error s) (lastUpdated s) (role s) (username s) (password s)
          (loginError s) (loginLoading s).
Definition setName (v : string) (s : State) : State :=
  mkState (items s) v (categoryInput s) (quantityInput s) (loading s)
          (submitting s) (error s) (lastUpdated s) (role s) (username s) (password s)
          (loginError s) (loginLoading s).
Definition setCategory (v : string) (s : State) : State :=
  mkState (items s) (nameInput s) v (quantityInput s) (loading s)
          (submitting s) (error s) (lastUpdated s) (role s) (username s) (password s)
          (loginError s) (loginLoading s).
Definition setQuantity (v : string) (s : State) : State :=
  mkState (items s) (nameInput s) (categoryInput s) v (loading s)
          (submitting s) (error s) (lastUpdated s) (role s) (username s) (password s)
          (loginError s) (loginLoading s).
Definition setLoading (v : bool) (s : State) : State :=
  mkState (items s) (nameInput s) (categoryInput s) (quantityInput s) v
          (submitting s) (error s) (lastUpdated s) (role s) (username s) (password s)
          (loginError s) (loginLoading s).
Definition setSubmitting (v : bool) (s : State) : State :=
  mkState (items s) (nameInput s) (categoryInput s) (quantityInput s) (loading s)
          v (error s) (lastUpdated s) (role s) (username s) (password s)
          (loginError s) (loginLoading s).
Definition setError (v : string) (s : State) : State :=
  mkState (items s) (nameInput s) (categoryInput s) (quantityInput s) (loading s)
          (submitting s) v (lastUpdated s) (role s) (username s) (password s)
          (loginError s) (loginLoading s).
Definition setLastUpdated (v : string) (s : State) : State :=
  mkState (items s) (nameInput s) (categoryInput s) (quantityInput s) (loading s)
          (submitting s) (error s) v (role s) (username s) (password s)
          (loginError s) (loginLoading s).
Definition setRole (v : Json) (s : State) : State :=
  mkState (items s) (nameInput s) (categoryInput s) (quantityInput s) (loading s)
          (submitting s) (error s) (lastUpdated s) v (username s) (password s)
          (loginError s) (loginLoading s).
Definition setPassword (v : string) (s : State) : State :=
  mkState (items s) (nameInput s) (categoryInput s) (quantityInput s) (loading s)
          (submitting s) (error s) (lastUpdated s) (role s) (username s) v
          (loginError s) (loginLoading s).
Definition setLoginError (v : string) (s : State) : State :=
  mkState (items s) (nameInput s) (categoryInput s) (quantityInput s) (loading s)
          (submitting s) (error s) (lastUpdated s) (role s) (username s) (password s)
          v (loginLoading s).
Definition setLoginLoading (v : bool) (s : State) : State :=
  mkState (items s) (nameInput s) (categoryInput s) (quantityInput s) (loading s)
          (submitting s) (error s) (lastUpdated s) (role s) (username s) (password s)
          (loginError s) v.

Section Component.
Context {P : Platform} {C : Inventory.Casts}.

Local Open Scope js_scope.

Definition API_URL : string := API_BASE_URL +:+ "/api/food-items/".
Definition LOGIN_URL : string := API_BASE_URL +:+ "/api/auth/login/".

(** [if (c) throw new Error(msg)] *)
Definition throwIf (c : bool) (msg : string) : M State unit :=
  if c then throw (newError msg) else ret tt.

(** The [catch] clause that [loadItems] and [handleSubmit] share. *)
Definition reportError (err : Exn) : M State unit :=
  if instanceofTypeError err then setState (setError Inventory.cannotReach)
  else setState (setError (if instanceofError err then message err else "Unexpected error.")).

Definition listRequest : Request := mkRequest API_URL "GET" [] false NoBody.

Definition loadItems : M State unit :=
  setState (setLoading true) ;;
  setState (setError "") ;;
  tryFinally
    (tryCatch
       (response <- fetch listRequest ;;
        data <- readJsonSafely response ;;
        throwIf (negb (ok response))
                (nullish (getPropOpt data "error") toStringJson "Unable to load food items.") ;;
        throwIf (falsy data) "Backend returned an invalid response." ;;
        setState (setItems (fun _ => nullish (getProp data "items") Inventory.asFoodItems [])) ;;
        now <- currentTime ;;
        setState (setLastUpdated now))
       reportError)
    (setState (setLoading false)).

Definition loginRequest (s : State) : Request :=
  mkRequest LOGIN_URL "POST" [("Content-Type", "application/json")] false
            (TextBody (JSON_stringify
               (JObj [("username", JStr (trim (username s)));
                      ("password", JStr (password s))]))).

Definition handleLogin : M State unit :=
  s <- getState ;;
  setState (setLoginError "") ;;
  setState (setLoginLoading true) ;;
  tryFinally
    (tryCatch
       (response <- fetch (loginRequest s) ;;
        data <- readJsonSafely response ;;
        throwIf (negb (ok response))
                (nullish (getPropOpt data "error") toStringJson "Login failed.") ;;
        throwIf (falsy data ||
                 (negb (Canteen.isString (getProp data "role") "student") &&
                  negb (Canteen.isString (getProp data "role") "admin")))
                "Invalid login response from backend." ;;
        setState (setRole (nullish (getProp data "role") (fun v => v) JNull)) ;;
        setState (setPassword ""))
       (fun err =>
          setState (setLoginError
                      (if instanceofError err then message err
                       else "Unexpected login error."))))
    (setState (setLoginLoading false)).

(** The [onClick] of the two "Logout" buttons. *)
Definition logout : M State unit := setState (setRole JNull).

Definition createRequest (s : State) : Request :=
  mkRequest API_URL "POST" [("Content-Type", "application/json")] false
            (TextBody (JSON_stringify
               (JObj [("name", JStr (nameInput s));
                      ("category", JStr (categoryInput s));
                      ("quantity", numberJson (Number (quantityInput s)))]))).

Definition handleSubmit : M State unit :=
  s <- getState ;;
  setState (setSubmitting true) ;;
  setState (setError "") ;;
  tryFinally
    (tryCatch
       (response <- fetch (createRequest s) ;;
        data <- readJsonSafely response ;;
        throwIf (negb (ok response))
                (nullish (getPropOpt data "error") toStringJson "Unable to create item.") ;;
        throwIf (falsy data) "Backend returned an invalid response." ;;
        setState (setItems (fun previous => Inventory.asFoodItem data :: previous)) ;;
        now <- currentTime ;;
        setState (setLastUpdated now) ;;
        setState (setName "") ;;
        setState (setCategory "morning") ;;
        setState (setQuantity "1"))
       reportError)
    (setState (setSubmitting false)).

End Component.

End Portal.

(** ** The back end, from the specification

    The Django application is not among the sources.  What follows is its
    specification (sections 3, 4.3, 4.5 and 7) written as functions. *)
Module Backend.

(** Modelled from the spec: the two roles and the session of section 3. *)
Inductive Role := student | admin.

Record Session := mkSession { user : string; role : Role }.

(** Modelled from the spec: the records of section 3; the identity of a
    food item is its key in the store. *)
Record FoodItem := mkFoodItem {
  name : string;
  category : string;
  quantity : Z;
  created_at : Z
}.

Record FeedbackEntry := mkFeedbackEntry {
  entry_id : Z;
  student_name : string;
  food_item : option Z;
  rating : Z;
  message : string;
  submitted_at : Z
}.

(** Modelled from the spec: the record store of section 2, food items by
    identity and feedback entries in the order of their creation. *)
Record Store := mkStore {
  foodItems : gmap Z FoodItem;
  feedbackEntries : list FeedbackEntry
}.

(** Modelled from the spec: the errors of section 7. *)
Inductive Error :=
| ValidationError (field : string)
| AuthError
| Forbidden
| NotFound.

(** Modelled from the spec: an identity distinct from those of all existing
    entries. *)
Definition freshId (entries : list FeedbackEntry) : Z :=
  1 + fold_right (fun e m => Z.max (entry_id e) m) 0 entries.

(** Modelled from the spec: [createFeedback] of section 4.5, absent from the
    sources.  It is restricted to the student role, validates the message
    length and the rating, then resolves the food item; the author is the
    session's identity; an error leaves the store as it was. *)
Definition createFeedback (store : Store) (session : option Session) (now : Z)
    (message : string) (rating : Z) (foodItemId : option Z)
  : (Error + FeedbackEntry) * Store :=
  match session with
  | None => (inl AuthError, store)
  | Some who =>
      match role who with
      | admin => (inl Forbidden, store)
      | student =>
          if (String.length message <? 3)%nat then (inl (ValidationError "message"), store)
          else if negb ((1 <=? rating) && (rating <=? 5))
          then (inl (ValidationError "rating"), store)
          else
            let known :=
              match foodItemId with
              | Some i => bool_decide (is_Some (foodItems store !! i))
              | None => true
              end in
            if negb known then (inl NotFound, store)
            else
              let entry :=
                mkFeedbackEntry (freshId (feedbackEntries store)) (user who) foodItemId
                                rating message now in
              (inr entry, mkStore (foodItems store) (feedbackEntries store ++ [entry]))
      end
  end.

(** Modelled from the spec: the result of [computeAnalytics]; the mean is
    kept as the exact quotient. *)
Record TopRated := mkTopRated {
  foodName : string;
  avgRating : Q;
  count : nat
}.

Record Analytics := mkAnalytics {
  topRated : list TopRated;
  ratingDistribution : gmap Z nat
}.

(** Modelled from the spec: the name of the food item an entry refers to,
    if it refers to one. *)
Definition entryFoodName (store : Store) (e : FeedbackEntry) : option string :=
  i ← food_item e; name <$> (foodItems store !! i).

(** Modelled from the spec: the names of the groups, each once, in the
    order of first appearance. *)
Fixpoint distinct (names : list string) : list string :=
  match names with
  | [] => []
  | n :: rest => n :: List.filter (fun m => negb (String.eqb m n)) (distinct rest)
  end.

(** Modelled from the spec: the group of a food name, with the mean and the
    count of its ratings. *)
Definition sumRatings (entries : list FeedbackEntry) : Z :=
  fold_right (fun e s => rating e + s) 0 entries.

Definition group (store : Store) (entries : list FeedbackEntry) (n : string) : TopRated :=
  let members :=
    List.filter (fun e => bool_decide (entryFoodName store e = Some n)) entries in
  mkTopRated n
             (Qred (inject_Z (sumRatings members) / inject_Z (Z.of_nat (length members))))
             (length members).

(** Modelled from the spec: [a] ranks before [b], greater mean first, then
    greater count, then the name in ascending order. *)
Definition ranksBefore (a b : TopRated) : bool :=
  match (avgRating b ?= avgRating a)%Q with
  | Lt => true
  | Gt => false
  | Eq =>
      match Nat.compare (count b) (count a) with
      | Lt => true
      | Gt => false
      | Eq => match String.compare (foodName a) (foodName b) with Gt => false | _ => true end
      end
  end.

(** Modelled from the spec: the groups in rank order, and the N of top-N. *)
Fixpoint insertRanked (x : TopRated) (l : list TopRated) : list TopRated :=
  match l with
  | [] => [x]
  | y :: r => if ranksBefore x y then x :: l else y :: insertRanked x r
  end.

Definition rank (l : list TopRated) : list TopRated :=
  fold_right insertRanked [] l.

Definition topN : nat := 5.

(** Modelled from the spec: the number of entries with the rating [r]. *)
Definition countRated (entries : list FeedbackEntry) (r : Z) : nat :=
  length (List.filter (fun e => rating e =? r) entries).

(** Modelled from the spec: [computeAnalytics] of section 4.3, absent from
    the sources.  The filter of section 4.2 is taken as the predicate [keep]
    that it decides on feedback entries; the empty filter keeps every
    entry. *)
Definition computeAnalytics (store : Store) (keep : FeedbackEntry -> bool) : Analytics :=
  let entries := List.filter keep (feedbackEntries store) in
  let names := distinct (omap (entryFoodName store) entries) in
  mkAnalytics
    (take topN (rank (map (group store entries) names)))
    (list_to_map (map (fun r => (r, countRated entries r)) [1; 2; 3; 4; 5])).

(** Modelled from the spec: the empty filter returns everything. *)
Definition emptyFilter : FeedbackEntry -> bool := fun _ => true.

End Backend.

(** ** A platform to run the components on

    A scripted network (each [fetch] takes the next scripted result, and
    fails when the script is exhausted) and small stand-ins for the
    built-in functions, enough for the sample runs below. *)
Module Sample.

Definition dq : string := String (ascii_of_nat 34) EmptyString.

Definition quoted (s : string) : string := dq +:+ s +:+ dq.

(** [JSON.stringify] on values whose strings need no escaping. *)
Fixpoint stringify (v : Json) : string :=
  match v with
  | JNull => "null"
  | JBool true => "true"
  | JBool false => "false"
  | JNum n => numberToString n
  | JStr s => quoted s
  | JArr elems => "[" +:+ joinWith "," (map stringify elems) +:+ "]"
  | JObj fields =>
      "{" +:+ joinWith "," (map (fun kv => match kv with
                                           | (k, x) => quoted k +:+ ":" +:+ stringify x
                                           end) fields) +:+ "}"
  end.

Definition studentLogin : Json := JObj [("role", JStr "student"); ("username", JStr "asha")].
Definition teacherLogin : Json := JObj [("role", JStr "teacher"); ("username", JStr "asha")].
Definition serverError : Json := JObj [("error", JStr "Invalid credentials.")].

(** [JSON.parse] on the texts of the sample values; any other text is
    taken as malformed. *)
Definition parse (t : string) : option Json :=
  List.find (fun v => String.eqb (stringify v) t) [studentLogin; teacherLogin; serverError].

Fixpoint digitsValue (s : string) (acc : Z) : option Z :=
  match s with
  | EmptyString => Some acc
  | String c r =>
      let n := Z.of_nat (nat_of_ascii c) in
      if (48 <=? n) && (n <=? 57) then digitsValue r (10 * acc + (n - 48)) else None
  end.

(** [Number] on strings of decimal digits. *)
Definition number (s : string) : option Z := digitsValue s 0.

(** [new Date(s).getTime()] on three ISO timestamps; any other string is
    taken as an invalid date. *)
Definition getTime (s : string) : option Z :=
  if String.eqb s "2024-01-01T00:00:00Z" then Some 1704067200000
  else if String.eqb s "2024-01-02T00:00:00Z" then Some 1704153600000
  else if String.eqb s "2024-01-03T00:00:00Z" then Some 1704240000000
  else None.

Definition searchParams (entries : list (string * string)) : string :=
  joinWith "&" (map (fun kv => fst kv +:+ "=" +:+ snd kv) entries).

Definition platform : Platform := {|
  Env := list FetchResult;
  serve := fun script _ =>
    match script with
    | [] => ([], NetworkFailure "Failed to fetch")
    | r :: rest => (rest, r)
    end;
  toLocaleTimeString := fun _ => "10:00:00 AM";
  API_BASE_URL := "";
  JSON_parse := parse;
  JSON_stringify := stringify;
  Number := number;
  Date_getTime := getTime;
  URLSearchParams_toString := searchParams
|}.

Definition textOf (v : option Json) : string :=
  match v with Some (JStr s) => s | _ => "" end.

Definition numberOf (v : option Json) : Z :=
  match v with Some (JNum n) => n | _ => 0 end.

Definition arrayOf (v : Json) : list Json :=
  match v with JArr l => l | _ => [] end.

Definition inventoryItem (v : Json) : Inventory.FoodItem :=
  Inventory.mkFoodItem (numberOf (getProp v "id")) (textOf (getProp v "name"))
                       (textOf (getProp v "category")) (numberOf (getProp v "quantity"))
                       (textOf (getProp v "created_at")).

Definition inventoryCasts : Inventory.Casts := {|
  Inventory.asFoodItem := inventoryItem;
  Inventory.asFoodItems := fun v => map inventoryItem (arrayOf v)
|}.

Definition canteenItem (v : Json) : Canteen.FoodItem :=
  Canteen.mkFoodItem (numberOf (getProp v "id")) (textOf (getProp v "name"))
                     (textOf (getProp v "category")) (numberOf (getProp v "quantity"))
                     (textOf (getProp v "image_url")) (textOf (getProp v "created_at")).

Definition canteenCasts : Canteen.Casts := {|
  Canteen.asFoodItem := canteenItem;
  Canteen.asFoodItems := fun v => map canteenItem (arrayOf v);
  Canteen.asFeedbacks := fun _ => [];
  Canteen.asTopRated := fun _ => [];
  Canteen.asDistribution := fun _ => ∅
|}.

(** Inventory items. *)
Definition rice : Inventory.FoodItem :=
  Inventory.mkFoodItem 1 "Rice" "lunch" 10 "2024-01-01T00:00:00Z".
Definition idli : Inventory.FoodItem :=
  Inventory.mkFoodItem 2 "Idli" "Lunch" 4 "2024-01-02T00:00:00Z".
Definition milk : Inventory.FoodItem :=
  Inventory.mkFoodItem 3 "Milk" "morning" 2 "2024-01-03T00:00:00Z".

(** Canteen items. *)
Definition dal : Canteen.FoodItem :=
  Canteen.mkFoodItem 1 "Dal" "Lunch" 10 "" "2024-01-01T00:00:00Z".
Definition dosa : Canteen.FoodItem :=
  Canteen.mkFoodItem 2 "Dosa" "morning" 5 "" "2024-01-03T00:00:00Z".
Definition roti : Canteen.FoodItem :=
  Canteen.mkFoodItem 3 "Roti" "dinner" 7 "" "2024-01-02T00:00:00Z".
(** An item whose [created_at] is no date. *)
Definition chai : Canteen.FoodItem :=
  Canteen.mkFoodItem 4 "Tea" "evening" 6 "" "not a date".

(** A store with one food item and the three ratings of "Rice". *)
Definition riceStore : Backend.Store :=
  Backend.mkStore
    {[ 1 := Backend.mkFoodItem "Rice" "lunch" 10 1704067200 ]}
    [Backend.mkFeedbackEntry 1 "asha" (Some 1) 5 "Very good" 1704070000;
     Backend.mkFeedbackEntry 2 "ravi" (Some 1) 5 "Tasty rice" 1704071000;
     Backend.mkFeedbackEntry 3 "meena" (Some 1) 3 "Too salty" 1704072000].

Definition asha : Backend.Session := Backend.mkSession "asha" Backend.student.

(** The components in their initial state, before any request, in front of
    a scripted network. *)
Definition canteenWorld (script : list FetchResult) : World (P := platform) Canteen.State :=
  mkWorld (P := platform) Canteen.initialState script [].

Definition inventoryWorld (script : list FetchResult) : World (P := platform) Inventory.State :=
  mkWorld (P := platform) Inventory.initialState script [].

Definition okResponse (v : Json) : FetchResult :=
  Responds (mkResponse 200 (BodyText (stringify v))).

Definition unauthorized : FetchResult :=
  Responds (mkResponse 401 (BodyText (stringify serverError))).

Definition gatewayError : FetchResult :=
  Responds (mkResponse 502 (BodyText "<html>Bad Gateway</html>")).

(** Two students with the same feedback form. *)
Definition studentWorld : World (P := platform) Canteen.State :=
  mkWorld (P := platform)
          (Canteen.setFeedbackMessage "Tasty rice"
             (Canteen.setCurrentUser (JStr "asha") (Canteen.setRole (JStr "student")
                Canteen.initialState)))
          [] [].

Definition otherStudentWorld : World (P := platform) Canteen.State :=
  mkWorld (P := platform)
          (Canteen.setFeedbackMessage "Tasty rice"
             (Canteen.setCurrentUser (JStr "ravi") (Canteen.setRole (JStr "student")
                Canteen.initialState)))
          [] [].

(** [localeCompare] of a locale that orders by code unit. *)
Definition compareUnits (a b : string) : Z :=
  match String.compare a b with Lt => -1 | Eq => 0 | Gt => 1 end.

End Sample.

(** ** A second platform

    A back end configured with a final "/api/", and the texts of an item, of
    a list, of an empty object, of an error and of [null]. *)
Module Deployed.

Definition riceJson : Json :=
  JObj [("id", JNum 4); ("name", JStr "Rice"); ("category", JStr "lunch");
        ("quantity", JNum 10); ("image_url", JStr "");
        ("created_at", JStr "2024-01-03T00:00:00Z")].
Definition itemsJson : Json := JObj [("items", JArr [riceJson])].
Definition emptyJson : Json := JObj [].
Definition quantityError : Json := JObj [("error", JStr "Quantity must be positive.")].
Definition adminLogin : Json := JObj [("role", JStr "admin")].

Definition parse (t : string) : option Json :=
  List.find (fun v => String.eqb (Sample.stringify v) t)
            [riceJson; itemsJson; emptyJson; quantityError; adminLogin; JNull].

Definition platform : Platform := {|
  Env := list FetchResult;
  serve := fun script _ =>
    match script with
    | [] => ([], NetworkFailure "Failed to fetch")
    | r :: rest => (rest, r)
    end;
  toLocaleTimeString := fun _ => "10:00:00 AM";
  API_BASE_URL := "https://canteen.example/api/";
  JSON_parse := parse;
  JSON_stringify := Sample.stringify;
  Number := Sample.number;
  Date_getTime := Sample.getTime;
  URLSearchParams_toString := Sample.searchParams
|}.

Definition respond (code : Z) (v : Json) : FetchResult :=
  Responds (mkResponse code (BodyText (Sample.stringify v))).

Definition inventoryWorld (script : list FetchResult) : World (P := platform) Inventory.State :=
  mkWorld (P := platform) Inventory.initialState script [].

Definition canteenWorld (script : list FetchResult) : World (P := platform) Canteen.State :=
  mkWorld (P := platform) Canteen.initialState script [].

Definition portalWorld (script : list FetchResult) : World (P := platform) Portal.State :=
  mkWorld (P := platform) Portal.initialState script [].

(** The canteen after a student's login on the first platform. *)
Definition studentSession : World (P := Sample.platform) Canteen.State :=
  snd (Canteen.handle (C := Sample.canteenCasts) Canteen.SubmitLogin
         (Sample.canteenWorld [Sample.okResponse Sample.studentLogin])).

(** A tea of no session. *)
Definition tea : Canteen.FoodItem :=
  Canteen.mkFoodItem 9 "Tea" "evening" 20 "" "2024-01-01T00:00:00Z".

(** A curd rice without an image of its own, and a rice with one. *)
Definition curdRice : Canteen.FoodItem :=
  Canteen.mkFoodItem 7 "  Curd RICE" "lunch" 3 "" "2024-01-01T00:00:00Z".
Definition pictured : Canteen.FoodItem :=
  Canteen.mkFoodItem 8 "Rice" "lunch" 3 "/media/rice.jpg" "2024-01-01T00:00:00Z".

End Deployed.

(** * Properties *)

(** ** Strings *)

Example toLowerCase_Lunch : toLowerCase "Lunch" = "lunch".
Proof. reflexivity. Qed.

Example trim_rice : trim "  Rice " = "Rice".
Proof. reflexivity. Qed.

Example includes_inside : includes "fried rice" "d r" = true.
Proof. reflexivity. Qed.

Lemma startsWith_spec s p :
  startsWith s p = true <-> exists post, s = p +:+ post.
Proof.
  revert s; induction p as [|a p IH]; intros s.
  - split; [intros _; now exists s | intros _; destruct s; reflexivity].
  - destruct s as [|b s']; cbn [startsWith].
    + split; [discriminate | intros [post H]; discriminate H].
    + rewrite andb_true_iff, IH. split.
      * intros [Hab [post ->]]. apply Ascii.eqb_eq in Hab. subst b. now exists post.
      * intros [post H]. injection H as -> ->. split; [apply Ascii.eqb_refl | now exists post].
Qed.

Lemma includes_spec s sub : includes s sub = true <-> Substring sub s.
Proof.
  unfold Substring. induction s as [|c r IH].
  - cbn [includes]. rewrite orb_false_r, startsWith_spec. split.
    + intros [post H]. exists "", post. exact H.
    + intros [pre [post H]]. destruct pre; [now exists post | discriminate H].
  - cbn [includes]. rewrite orb_true_iff, startsWith_spec, IH. split.
    + intros [[post H] | [pre [post H]]].
      * exists "", post. exact H.
      * exists (String c pre), post. simpl. now rewrite H.
    + intros [pre [post H]]. destruct pre as [|d pre].
      * left. now exists post.
      * right. simpl in H. injection H as _ ->. now exists pre, post.
Qed.

Lemma includes_empty s : includes s "" = true.
Proof. destruct s; reflexivity. Qed.

Lemma length_zero_empty (s : string) : Nat.eqb (String.length s) 0 = true -> s = "".
Proof. destruct s; [reflexivity | discriminate]. Qed.

(** ** The inventory's filter *)
Section InventoryFilter.
Import Inventory.

Lemma filteredItems_In items c q item :
  In item (filteredItems items c q) <->
  In item items /\ (c = "All" \/ category item = c) /\ matchesSearch q item.
Proof.
  unfold filteredItems, matchesSearch. rewrite filter_In.
  rewrite andb_true_iff, !orb_true_iff, !String.eqb_eq, !includes_spec.
  split.
  - intros [Hin [Hcat [[Hlen | Hname] | Hcat']]]; repeat split; auto.
    apply length_zero_empty in Hlen. rewrite Hlen.
    left. rewrite <- includes_spec. apply includes_empty.
  - intros [Hin [Hcat [Hname | Hcat']]]; repeat split; auto.
Qed.

Lemma filteredItems_no_search items c :
  filteredItems items c "" =
  List.filter (fun item => String.eqb c "All" || String.eqb (category item) c) items.
Proof.
  unfold filteredItems. apply filter_ext. intros item. cbn. apply andb_true_r.
Qed.

End InventoryFilter.

Section CategoryFilter.
Import Inventory.

(** C1, as stated, fails on both category filters.  In the inventory the
    selector value "All" is no category: with it [filteredItems] returns an
    item of category "lunch".  In the canteen [todayMenus] lowercases the
    stored category before comparing: the item stored with category "Lunch"
    is listed in the lunch menu. *)
Lemma category_filter_not_exact :
  ~ (forall items c item,
       In item (filteredItems items c "") <-> In item items /\ category item = c) /\
  ~ (forall items item,
       In item (Canteen.lunch (Canteen.todayMenus items)) ->
       Canteen.category item = "lunch").
Proof.
  split.
  - intros H. destruct (H [Sample.rice] "All" Sample.rice) as [H1 _].
    assert (Hin : In Sample.rice (filteredItems [Sample.rice] "All" "")) by (left; reflexivity).
    destruct (H1 Hin) as [_ Hc]. discriminate Hc.
  - intros H.
    assert (Hin : In Sample.dal (Canteen.lunch (Canteen.todayMenus [Sample.dal])))
      by (left; reflexivity).
    specialize (H _ _ Hin). discriminate H.
Qed.

(** C1, amended: for a selector value [c] other than "All" and an empty
    search box, [filteredItems] returns, in their order, exactly the items
    whose category is [c], compared exactly and with case: the item stored
    as "Lunch" is not returned for "lunch".  The value "All" selects every
    item, and each of the three menus of [todayMenus] lists, in their
    order, exactly the items whose lowercased category is the name of its
    session, so that an item stored as "Lunch" is listed under lunch. *)
Theorem filteredItems_category (items : list FoodItem) (c : string) :
  c <> "All" ->
  filteredItems items c "" = List.filter (fun item => String.eqb (category item) c) items /\
  (forall item, In item (filteredItems items c "") <-> In item items /\ category item = c) /\
  (c = "lunch" -> forall item, category item = "Lunch" -> ~ In item (filteredItems items c "")) /\
  filteredItems items "All" "" = items /\
  (forall its,
     Canteen.morning (Canteen.todayMenus its) =
       List.filter (fun item => String.eqb (toLowerCase (Canteen.category item)) "morning") its /\
     Canteen.lunch (Canteen.todayMenus its) =
       List.filter (fun item => String.eqb (toLowerCase (Canteen.category item)) "lunch") its /\
     Canteen.dinner (Canteen.todayMenus its) =
       List.filter (fun item => String.eqb (toLowerCase (Canteen.category item)) "dinner") its) /\
  (forall its item,
     (In item (Canteen.morning (Canteen.todayMenus its)) <->
      In item its /\ toLowerCase (Canteen.category item) = "morning") /\
     (In item (Canteen.lunch (Canteen.todayMenus its)) <->
      In item its /\ toLowerCase (Canteen.category item) = "lunch") /\
     (In item (Canteen.dinner (Canteen.todayMenus its)) <->
      In item its /\ toLowerCase (Canteen.category item) = "dinner")) /\
  (forall its item,
     In item its -> Canteen.category item = "Lunch" ->
     In item (Canteen.lunch (Canteen.todayMenus its))).
Proof.
  intros Hc.
  assert (Hsel : String.eqb c "All" = false) by (now apply String.eqb_neq).
  assert (Heq : filteredItems items c "" =
                List.filter (fun item => String.eqb (category item) c) items).
  { rewrite filteredItems_no_search. apply filter_ext. intros item. now rewrite Hsel. }
  assert (Hin : forall item,
            In item (filteredItems items c "") <-> In item items /\ category item = c).
  { intros item. rewrite Heq, filter_In, String.eqb_eq. reflexivity. }
  split; [exact Heq |]. split; [exact Hin |]. split; [| split; [| split; [| split]]].
  - intros -> item HL Hmem. apply Hin in Hmem. destruct Hmem as [_ Hcat].
    rewrite HL in Hcat. discriminate Hcat.
  - rewrite filteredItems_no_search. clear Heq Hin. cbn.
    induction items as [|x l IH]; [reflexivity | cbn; now rewrite IH].
  - intros its. repeat split; reflexivity.
  - intros its item. cbn. rewrite !filter_In, !String.eqb_eq. repeat split; tauto.
  - intros its item Hmem HL. cbn. apply filter_In. split; [exact Hmem |].
    rewrite HL. reflexivity.
Qed.

Lemma filteredItems_category_witness :
  "lunch" <> "All" /\
  filteredItems [Sample.rice; Sample.idli; Sample.milk] "lunch" "" = [Sample.rice] /\
  ~ In Sample.idli (filteredItems [Sample.rice; Sample.idli; Sample.milk] "lunch" "") /\
  Canteen.todayMenus [Sample.dal; Sample.dosa; Sample.roti] =
    Canteen.mkMenus [Sample.dosa] [Sample.dal] [Sample.roti].
Proof.
  assert (Hc : "lunch" <> "All") by discriminate.
  destruct (filteredItems_category [Sample.rice; Sample.idli; Sample.milk] "lunch" Hc)
    as (H & _ & Hcase & _ & Hmenus & _).
  split; [exact Hc |]. split; [| split].
  - rewrite H. reflexivity.
  - apply Hcase; reflexivity.
  - destruct (Hmenus [Sample.dal; Sample.dosa; Sample.roti]) as (Hm & Hl & Hd).
    destruct (Canteen.todayMenus [Sample.dal; Sample.dosa; Sample.roti]) as [m l d].
    cbn [Canteen.morning Canteen.lunch Canteen.dinner] in Hm, Hl, Hd.
    rewrite Hm, Hl, Hd. reflexivity.
Defined.




End CategoryFilter.

(** ** The history view *)
Section History.
Import Canteen.
Context {P : Platform}.

Lemma insertSorted_Permutation {A} (cmp : A -> A -> option Z) x l :
  Permutation (x :: l) (insertSorted cmp x l).
Proof.
  induction l as [|y r IH]; cbn [insertSorted].
  - reflexivity.
  - destruct (0 <? sortCompare cmp x y).
    + etransitivity; [apply perm_swap | apply perm_skip, IH].
    + reflexivity.
Qed.

Lemma sort_Permutation {A} (cmp : A -> A -> option Z) l :
  Permutation l (sort cmp l).
Proof.
  induction l as [|x r IH]; cbn [sort].
  - reflexivity.
  - etransitivity; [apply perm_skip, IH | apply insertSorted_Permutation].
Qed.

Lemma notOlder_trans a b c : notOlder a b -> notOlder b c -> notOlder a c.
Proof.
  intros (t1 & t2 & H1 & H2 & Hle) (t2' & t3 & H2' & H3 & Hle').
  rewrite H2 in H2'. injection H2' as <-.
  exists t1, t3. repeat split; auto. lia.
Qed.

Lemma insertSorted_byCreation x l :
  readableDate x ->
  Forall readableDate l ->
  StronglySorted notOlder l ->
  StronglySorted notOlder (insertSorted byCreation x l).
Proof.
  intros [tx Hx] Hvalid Hsorted.
  induction Hsorted as [|y r Hr IH Hy]; cbn [insertSorted].
  - repeat constructor.
  - apply Forall_cons_iff in Hvalid. destruct Hvalid as [[ty Hty] Hvalid].
    unfold sortCompare, byCreation, createdTime. rewrite Hx, Hty. cbn [minus].
    destruct (0 <? ty - tx) eqn:Hcmp.
    + apply Z.ltb_lt in Hcmp. constructor; [now apply IH |].
      apply (Permutation_Forall (insertSorted_Permutation byCreation x r)).
      constructor; [| exact Hy].
      exists ty, tx. repeat split; auto. lia.
    + apply Z.ltb_ge in Hcmp.
      assert (Hxy : notOlder x y) by (exists tx, ty; repeat split; auto; lia).
      constructor; [now constructor |].
      constructor; [exact Hxy |].
      eapply List.Forall_impl; [| exact Hy]. intros z Hz. exact (notOlder_trans _ _ _ Hxy Hz).
Qed.

(** C4, amended: [sortedHistory] shows every loaded item exactly once (it
    is a permutation of the loaded list), whatever the list.  When [Date]
    reads the [created_at] of every item, the history is in descending order
    of creation time, newest first: of two items of the history, the one
    listed first has the later time, or the same. *)
Theorem sortedHistory_newest_first (items : list FoodItem) :
  Permutation items (sortedHistory items) /\
  (Forall (fun item => is_Some (Date_getTime (created_at item))) items ->
   StronglySorted notOlder (sortedHistory items) /\
   forall pre earlier mid later post,
     sortedHistory items = (pre ++ earlier :: mid ++ later :: post)%list ->
     exists t1 t2,
       Date_getTime (created_at earlier) = Some t1 /\
       Date_getTime (created_at later) = Some t2 /\ t2 <= t1).
Proof.
  split; [apply sort_Permutation |].
  intros Hvalid.
  assert (Hsorted : StronglySorted notOlder (sortedHistory items)).
  { unfold sortedHistory.
    induction items as [|x r IH]; cbn [sort].
    - constructor.
    - apply Forall_cons_iff in Hvalid. destruct Hvalid as [Hx Hr].
      apply insertSorted_byCreation; [exact Hx | | now apply IH].
      apply (Permutation_Forall (sort_Permutation _ r)). exact Hr. }
  split; [exact Hsorted |].
  intros pre earlier mid later post Heq. rewrite Heq in Hsorted. clear Heq.
  induction pre as [|x pre IH]; cbn [app] in Hsorted.
  - apply StronglySorted_inv in Hsorted. destruct Hsorted as [_ Hall].
    apply Forall_app in Hall. destruct Hall as [_ Hall].
    apply Forall_cons_iff in Hall. exact (proj1 Hall).
  - apply StronglySorted_inv in Hsorted. exact (IH (proj1 Hsorted)).
Qed.

End History.

Lemma sortedHistory_newest_first_witness :
  Forall (fun item => is_Some (@Date_getTime Sample.platform (Canteen.created_at item)))
         [Sample.dal; Sample.dosa; Sample.roti] /\
  Canteen.sortedHistory (P := Sample.platform) [Sample.dal; Sample.dosa; Sample.roti] =
    [Sample.dosa; Sample.roti; Sample.dal] /\
  StronglySorted (Canteen.notOlder (P := Sample.platform))
                 (Canteen.sortedHistory (P := Sample.platform)
                    [Sample.dal; Sample.dosa; Sample.roti]).
Proof.
  assert (H : Forall (fun item => is_Some (@Date_getTime Sample.platform
                                             (Canteen.created_at item)))
                     [Sample.dal; Sample.dosa; Sample.roti]).
  { repeat constructor; eexists; reflexivity. }
  split; [exact H |]. split; [reflexivity |].
  exact (proj1 (proj2 (sortedHistory_newest_first (P := Sample.platform) _) H)).
Defined.

(** C4, as stated, fails for a list with a date that [Date] does not
    read.  Against "not a date" the comparator yields [NaN], which the sort
    takes as "keep the order": the list Dal (1 January), Tea (no date), Dosa
    (3 January) is shown as it was loaded, so that the history lists Dal
    before the newer Dosa. *)
Lemma sortedHistory_unreadable_date :
  Canteen.sortedHistory (P := Sample.platform) [Sample.dal; Sample.chai; Sample.dosa] =
    [Sample.dal; Sample.chai; Sample.dosa] /\
  ~ (forall items pre earlier mid later post t1 t2,
       Canteen.sortedHistory (P := Sample.platform) items =
         (pre ++ earlier :: mid ++ later :: post)%list ->
       @Date_getTime Sample.platform (Canteen.created_at earlier) = Some t1 ->
       @Date_getTime Sample.platform (Canteen.created_at later) = Some t2 ->
       t2 <= t1).
Proof.
  split; [reflexivity |]. intros H.
  specialize (H [Sample.dal; Sample.chai; Sample.dosa] [] Sample.dal [Sample.chai] Sample.dosa []
                1704067200000 1704240000000 eq_refl eq_refl eq_refl).
  lia.
Qed.

Example sortedHistory_sample :
  Canteen.sortedHistory (P := Sample.platform) [Sample.dal; Sample.dosa; Sample.roti] =
  [Sample.dosa; Sample.roti; Sample.dal].
Proof. reflexivity. Qed.

(** ** Reading a response body *)
Section ReadJson.
Context {P : Platform} {St : Type}.

Lemma readJsonSafely_text (code : Z) (t : string) (w : World St) :
  readJsonSafely (mkResponse code (BodyText t)) w =
  (Returns (if String.eqb t "" then JNull
            else match JSON_parse t with Some v => v | None => JNull end), w).
Proof.
  unfold readJsonSafely, text, bind, ret, tryCatch, parse. cbn.
  destruct (String.eqb t ""); [reflexivity |].
  destruct (JSON_parse t); reflexivity.
Qed.

(** C10: on a response whose body is the text [t], [readJsonSafely] returns
    and never throws, and leaves everything as it was; it returns the parsed
    value when [t] is not empty and [JSON.parse] accepts it, and [null] both
    when [t] is empty and when [JSON.parse] rejects it, so that a caller
    sees the same result for an empty and for a malformed body. *)
Theorem readJsonSafely_total (code : Z) (t : string) (w : World St) :
  (exists v, readJsonSafely (mkResponse code (BodyText t)) w = (Returns v, w)) /\
  (forall v, t <> "" -> JSON_parse t = Some v ->
             readJsonSafely (mkResponse code (BodyText t)) w = (Returns v, w)) /\
  (t = "" \/ JSON_parse t = None ->
   readJsonSafely (mkResponse code (BodyText t)) w = (Returns JNull, w)) /\
  (forall t', JSON_parse t' = None ->
              readJsonSafely (mkResponse code (BodyText t')) w =
              readJsonSafely (mkResponse code (BodyText "")) w).
Proof.
  rewrite readJsonSafely_text. split; [eauto |]. split; [| split].
  - intros v Hne Hv. apply String.eqb_neq in Hne. now rewrite Hne, Hv.
  - intros [-> | Hbad]; [reflexivity |].
    rewrite Hbad. now destruct (String.eqb t "").
  - intros t' Hbad. rewrite !readJsonSafely_text, Hbad. cbn.
    now destruct (String.eqb t' "").
Qed.

End ReadJson.

Lemma readJsonSafely_total_witness :
  let w := Sample.canteenWorld [] in
  readJsonSafely (mkResponse 200 (BodyText (Sample.stringify Sample.studentLogin))) w =
    (Returns Sample.studentLogin, w) /\
  readJsonSafely (mkResponse 200 (BodyText "<html>")) w = (Returns JNull, w).
Proof.
  intros w.
  destruct (readJsonSafely_total (P := Sample.platform) 200
              (Sample.stringify Sample.studentLogin) w) as (_ & Hgood & _).
  destruct (readJsonSafely_total (P := Sample.platform) 200 "<html>" w) as (_ & _ & Hbad & _).
  split.
  - apply Hgood; [discriminate | reflexivity].
  - apply Hbad. right. reflexivity.
Defined.

(** When the body cannot be read, the rejection of [response.text()] is
    not caught: the [await] is outside the [try]. *)
Lemma readJsonSafely_unreadable {P : Platform} {St : Type} code msg (w : World St) :
  readJsonSafely (mkResponse code (BodyFails msg)) w = (Throws (mkExn TypeError msg), w).
Proof. reflexivity. Qed.

(** [readJsonSafely] changes nothing, whether it returns or throws. *)
Lemma readJsonSafely_cases {P : Platform} {St : Type} (r : Response) (w : World St) :
  (exists v, readJsonSafely r w = (Returns v, w)) \/
  (exists e, readJsonSafely r w = (Throws e, w)).
Proof.
  destruct r as [code [t | msg]].
  - left. rewrite readJsonSafely_text. eauto.
  - right. rewrite readJsonSafely_unreadable. eauto.
Qed.

(** Reduces a handler to its cases: the network result, the value read
    from the body, and the guards. *)
Ltac handler_cases :=
  unfold bind, getState, tryFinally, tryCatch, setState, fetch, Canteen.throwIf, throw, ret,
         currentTime; cbn -[readJsonSafely];
  repeat match goal with
         | |- context [serve ?e ?r] =>
             destruct (serve e r) as [? [? | ?]]; cbn -[readJsonSafely]
         | |- context [readJsonSafely ?r ?w] =>
             destruct (readJsonSafely_cases r w) as [[? ->] | [? ->]]; cbn -[readJsonSafely]
         | |- context [if ?b then _ else _] => destruct b; cbn -[readJsonSafely]
         end.

(** ** Network failures in the inventory *)
Section InventoryNetwork.
Import Inventory.
Context {P : Platform} {C : Casts}.

(** Whatever the outcome, [loadItems] and [handleSubmit] return, and send
    one request. *)
Lemma loadItems_one_request (w : World State) :
  fst (loadItems w) = Returns tt /\
  requests (snd (loadItems w)) = listRequest :: requests w.
Proof.
  unfold loadItems, bind, tryFinally, tryCatch, setState, fetch, reportError. cbn.
  destruct (serve (env w) listRequest) as [env' [msg | response]]; cbn; [auto |].
  destruct (ok response); cbn; [| auto].
  unfold json, bind, text, parse. destruct (bodyRead response); cbn; [| auto].
  destruct (JSON_parse t) as [data |]; cbn; [| auto].
  destruct data; cbn; auto.
Qed.

Lemma handleSubmit_one_request (w : World State) :
  fst (handleSubmit w) = Returns tt /\
  requests (snd (handleSubmit w)) = createRequest (page w) :: requests w.
Proof.
  unfold handleSubmit, bind, tryFinally, tryCatch, setState, getState, fetch, reportError. cbn.
  destruct (serve (env w) (createRequest (page w))) as [env' [msg | response]]; cbn; [auto |].
  unfold json, bind, text, parse. destruct (bodyRead response); cbn; [| auto].
  destruct (JSON_parse t) as [data |]; cbn; [| auto].
  destruct (ok response); cbn; [auto |].
  destruct data; cbn; auto.
Qed.

(** C9: when the [fetch] of [loadItems] or of [handleSubmit] fails with its
    [TypeError], the component shows the fixed message "Cannot reach backend
    API. Start Django server on http://localhost:8000.", not a message of the
    server or of the error; the handler returns, has sent
    that one request and no other, keeps the items it had, and clears its
    busy flag. *)
Theorem network_failure_reported (w : World State) (env' : Env) (msg : string) :
  (serve (env w) listRequest = (env', NetworkFailure msg) ->
   loadItems w =
   (Returns tt,
    mkWorld (setLoading false
               (setError "Cannot reach backend API. Start Django server on http://localhost:8000."
                  (setError "" (setLoading true (page w)))))
            env' (listRequest :: requests w))) /\
  (serve (env w) (createRequest (page w)) = (env', NetworkFailure msg) ->
   handleSubmit w =
   (Returns tt,
    mkWorld (setSubmitting false
               (setError "Cannot reach backend API. Start Django server on http://localhost:8000."
                  (setError "" (setSubmitting true (page w)))))
            env' (createRequest (page w) :: requests w))).
Proof.
  split; intros Hnet.
  - unfold loadItems, bind, tryFinally, tryCatch, setState, fetch, reportError. cbn.
    rewrite Hnet. reflexivity.
  - unfold handleSubmit, bind, tryFinally, tryCatch, setState, getState, fetch, reportError. cbn.
    rewrite Hnet. reflexivity.
Qed.

End InventoryNetwork.

Lemma network_failure_reported_witness :
  let w := Sample.inventoryWorld [] in
  Inventory.error (page (snd (Inventory.loadItems (C := Sample.inventoryCasts) w))) =
    "Cannot reach backend API. Start Django server on http://localhost:8000." /\
  Inventory.error (page (snd (Inventory.handleSubmit (C := Sample.inventoryCasts) w))) =
    "Cannot reach backend API. Start Django server on http://localhost:8000.".
Proof.
  intros w.
  destruct (network_failure_reported (P := Sample.platform) (C := Sample.inventoryCasts)
              w [] "Failed to fetch") as [Hload Hsubmit].
  split.
  - rewrite Hload; reflexivity.
  - rewrite Hsubmit; reflexivity.
Defined.

(** ** The session in the canteen *)
Section CanteenSession.
Import Canteen.
Context {P : Platform} {C : Casts}.

(** C7: [handleLogout] returns after resetting [role], [currentUser],
    [loginError] and [feedbackStatus], and nothing else: it sends no
    request, the outside world (the server and what it stores) is as before,
    and so are the loaded items, feedbacks and analytics, the forms, the
    filters and the other cells.  The effect that depends on [role] then
    finds no administrator and sends no request either. *)
Theorem handleLogout_frame (w : World State) :
  let w' := snd (handleLogout w) in
  fst (handleLogout w) = Returns tt /\
  requests w' = requests w /\
  env w' = env w /\
  loaded (page w') = loaded (page w) /\
  itemForm (page w') = itemForm (page w) /\
  feedbackForm (page w') = feedbackForm (page w) /\
  filterInputs (page w') = filterInputs (page w) /\
  status (page w') =
    mkStatus (loading (status (page w))) (submitting (status (page w)))
             (feedbackSubmitting (status (page w))) (error (status (page w)))
             "" (lastUpdated (status (page w))) /\
  session (page w') =
    mkSession JNull (username (session (page w))) (password (session (page w)))
              (JStr "") "" (loginLoading (session (page w))) /\
  screen (page w') = LoginScreen /\
  roleEffect w' = (Returns tt, w').
Proof.
  cbn. repeat split; reflexivity.
Qed.

End CanteenSession.

Section CanteenLogin.
Import Canteen.
Context {P : Platform} {C : Casts}.

Lemma isString_eq v lit : isString v lit = true -> v = Some (JStr lit).
Proof.
  destruct v as [[| | | t | |] |]; cbn; try discriminate.
  intros H. apply String.eqb_eq in H. now subst.
Qed.

(** The [try] block either throws before any update, or stores one of the
    two roles. *)
Lemma loginAttempt_cases (s : State) (w : World State) :
  (exists e, fst (loginAttempt s w) = Throws e /\ page (snd (loginAttempt s w)) = page w) \/
  (exists r u, fst (loginAttempt s w) = Returns tt /\
               (r = JStr "student" \/ r = JStr "admin") /\
               page (snd (loginAttempt s w)) =
               setPassword "" (setCurrentUser u (setRole r (page w)))).
Proof.
  unfold loginAttempt, bind, fetch.
  destruct (serve (env w) (loginRequest s)) as [env' [msg | response]]; [left; eauto |].
  destruct response as [code [t | msg]]; [| left; eauto].
  rewrite readJsonSafely_text.
  set (data := if String.eqb t "" then JNull
               else match JSON_parse t with Some v => v | None => JNull end).
  unfold throwIf, throw, ret, setState.
  destruct (negb (ok (mkResponse code (BodyText t)))); [left; eauto |].
  destruct (falsy data) eqn:Hfalsy; cbn [orb]; [left; eauto |].
  destruct (isString (getProp data "role") "student") eqn:Hstudent; cbn [negb andb].
  - right. apply isString_eq in Hstudent. rewrite Hstudent. cbn. eauto 10.
  - destruct (isString (getProp data "role") "admin") eqn:Hadmin; cbn [negb].
    + right. apply isString_eq in Hadmin. rewrite Hadmin. cbn. eauto 10.
    + left; eauto.
Qed.

(** A response that is read as [data] is refused unless [data.role] is one
    of the two roles. *)
Lemma loginAttempt_other_role (s : State) (w : World State) env' code t data :
  serve (env w) (loginRequest s) = (env', Responds (mkResponse code (BodyText t))) ->
  ok (mkResponse code (BodyText t)) = true ->
  t <> "" ->
  JSON_parse t = Some data ->
  isString (getProp data "role") "student" = false ->
  isString (getProp data "role") "admin" = false ->
  fst (loginAttempt s w) = Throws (newError "Invalid login response from backend.").
Proof.
  intros Hnet Hok Ht Hdata Hs Ha.
  unfold loginAttempt, bind, fetch. rewrite Hnet, readJsonSafely_text.
  apply String.eqb_neq in Ht. rewrite Ht, Hdata.
  unfold throwIf. rewrite Hok, Hs, Ha. cbn [negb andb]. rewrite orb_true_r. reflexivity.
Qed.

End CanteenLogin.

(** ** The role, in every state the canteen component can reach *)
Section CanteenInvariant.
Import Canteen.
Context {P : Platform} {C : Casts}.

Lemma loadItems_session (w : World State) :
  session (page (snd (loadItems w))) = session (page w).
Proof. unfold loadItems. handler_cases; reflexivity. Qed.

Lemma loadFeedbacks_session (w : World State) :
  session (page (snd (loadFeedbacks w))) = session (page w).
Proof. unfold loadFeedbacks. handler_cases; reflexivity. Qed.

Lemma loadAnalytics_session (w : World State) :
  session (page (snd (loadAnalytics w))) = session (page w).
Proof. unfold loadAnalytics. handler_cases; reflexivity. Qed.

Lemma handleSubmit_session (w : World State) :
  session (page (snd (handleSubmit w))) = session (page w).
Proof. unfold handleSubmit. handler_cases; reflexivity. Qed.

Lemma handleFeedbackSubmit_session (w : World State) :
  session (page (snd (handleFeedbackSubmit w))) = session (page w).
Proof. unfold handleFeedbackSubmit. handler_cases; reflexivity. Qed.

Lemma bind_session {A} (m : M State A) (k : A -> M State unit) (w : World State) :
  (forall w0, session (page (snd (m w0))) = session (page w0)) ->
  (forall a w0, session (page (snd (k a w0))) = session (page w0)) ->
  session (page (snd (bind m k w))) = session (page w).
Proof.
  intros Hm Hk. unfold bind. specialize (Hm w).
  destruct (m w) as [[a | e] w1]; cbn in Hm |- *; [now rewrite Hk | exact Hm].
Qed.

Lemma roleEffect_session (w : World State) :
  session (page (snd (roleEffect w))) = session (page w).
Proof.
  unfold roleEffect, bind at 1, getState.
  destruct (isString _ _); [| reflexivity].
  apply bind_session; [apply loadFeedbacks_session | intros _; apply loadAnalytics_session].
Qed.

Lemma refresh_session (w : World State) :
  session (page (snd (handle ClickRefresh w))) = session (page w).
Proof.
  cbn [handle]. unfold bind at 1, getState.
  destruct (isString _ _); [apply loadItems_session |].
  apply bind_session; [apply loadItems_session | intros _ w0].
  apply bind_session; [apply loadFeedbacks_session | intros _; apply loadAnalytics_session].
Qed.

Lemma onChange_role (i : Input) (s : State) :
  role (session (onChange i s)) = role (session s).
Proof. destruct i; reflexivity. Qed.

Lemma handleLogin_validRole (w : World State) :
  validRole (role (session (page w))) ->
  validRole (role (session (page (snd (handleLogin w))))).
Proof.
  intros Hvalid.
  unfold handleLogin, bind at 1 2, getState, loginStart, bind, tryFinally, tryCatch, setState.
  cbn.
  match goal with
  | |- context [loginAttempt ?s ?w0] =>
      destruct (loginAttempt_cases s w0) as [(e & He & Hpage) | (r & u & Hr & Hval & Hpage)];
      destruct (loginAttempt s w0) as [[[] | e'] w1]
  end; cbn in *; try discriminate; rewrite Hpage; cbn.
  - exact Hvalid.
  - unfold validRole. tauto.
Qed.

(** In every reachable state [role] is [null], "student" or "admin". *)
Lemma reachable_validRole (w : World State) :
  reachable w -> validRole (role (session (page w))).
Proof.
  induction 1 as [outside | w e Hreach IH Hoffered].
  - left. reflexivity.
  - destruct e.
    + cbn. now rewrite onChange_role.
    + now apply handleLogin_validRole.
    + left. reflexivity.
    + now rewrite refresh_session.
    + cbn [handle]. now rewrite handleSubmit_session.
    + cbn [handle]. now rewrite handleFeedbackSubmit_session.
    + cbn [handle]. now rewrite loadItems_session.
    + cbn [handle]. now rewrite roleEffect_session.
Qed.

(** The login form is shown only while [role] is [null]. *)
Lemma login_offered_role (w : World State) :
  reachable w -> offered SubmitLogin (page w) = true -> role (session (page w)) = JNull.
Proof.
  intros Hreach Hoffered. apply reachable_validRole in Hreach.
  unfold offered, screen in Hoffered.
  destruct Hreach as [H | [H | H]]; rewrite H in *; [reflexivity | discriminate..].
Qed.

(** C8: a login attempt is made from the login screen, in a state the
    component can reach.  It returns, and then either the [try] block threw
    [e], [role] is [null] and [loginError] is the message of [e]; or the
    block returned and [role] is exactly "student" or "admin".  An accepted
    HTTP response whose body carries another role is among the first: the
    error is "Invalid login response from backend." and the login screen
    stays. *)
Theorem handleLogin_role (w : World State) :
  reachable w ->
  offered SubmitLogin (page w) = true ->
  let started := snd (loginStart w) in
  let w' := snd (handleLogin w) in
  fst (handleLogin w) = Returns tt /\
  validRole (role (session (page w'))) /\
  ((exists e, fst (loginAttempt (page w) started) = Throws e /\
              role (session (page w')) = JNull /\
              loginError (session (page w')) = messageOr e "Unexpected login error.") \/
   (fst (loginAttempt (page w) started) = Returns tt /\
    (role (session (page w')) = JStr "student" \/ role (session (page w')) = JStr "admin") /\
    loginError (session (page w')) = "")) /\
  (forall env' code t data,
     serve (env w) (loginRequest (page w)) = (env', Responds (mkResponse code (BodyText t))) ->
     ok (mkResponse code (BodyText t)) = true ->
     t <> "" ->
     JSON_parse t = Some data ->
     getProp data "role" <> Some (JStr "student") ->
     getProp data "role" <> Some (JStr "admin") ->
     role (session (page w')) = JNull /\
     loginError (session (page w')) = "Invalid login response from backend." /\
     screen (page w') = LoginScreen).
Proof.
  intros Hreach Hoffered started w'.
  pose proof (login_offered_role w Hreach Hoffered) as Hrole.
  assert (Hrun : handleLogin w =
                 match loginAttempt (page w) started with
                 | (Returns _, w1) =>
                     (Returns tt, mkWorld (setLoginLoading false (page w1)) (env w1) (requests w1))
                 | (Throws e, w1) =>
                     (Returns tt,
                      mkWorld (setLoginLoading false
                                 (setLoginError (messageOr e "Unexpected login error.") (page w1)))
                              (env w1) (requests w1))
                 end).
  { subst started. unfold handleLogin, bind, getState, tryFinally, tryCatch, setState. cbn.
    destruct (loginAttempt _ _) as [[[] | e] w1]; reflexivity. }
  assert (Hcases :
    (exists e, fst (loginAttempt (page w) started) = Throws e /\
               role (session (page w')) = JNull /\
               loginError (session (page w')) = messageOr e "Unexpected login error.") \/
    (fst (loginAttempt (page w) started) = Returns tt /\
     (role (session (page w')) = JStr "student" \/ role (session (page w')) = JStr "admin") /\
     loginError (session (page w')) = "")).
  { subst w'. rewrite Hrun.
    destruct (loginAttempt_cases (page w) started) as [(e & He & Hpage) | (r & u & Hr & Hval & Hpage)].
    - left. exists e. split; [exact He |].
      destruct (loginAttempt (page w) started) as [[[] | e'] w1]; cbn in He, Hpage |- *;
        [discriminate |].
      injection He as ->. rewrite Hpage. cbn. auto.
    - right. split; [exact Hr |].
      destruct (loginAttempt (page w) started) as [[[] | e'] w1]; cbn in Hr, Hpage |- *;
        [| discriminate].
      rewrite Hpage. cbn. auto. }
  split; [| split; [| split; [exact Hcases |]]].
  - rewrite Hrun. now destruct (loginAttempt (page w) started) as [[[] | e] w1].
  - unfold validRole. destruct Hcases as [(e & _ & -> & _) | (_ & [-> | ->] & _)]; auto.
  - intros env' code t data Hnet Hok Ht Hdata Hs Ha.
    assert (Hthrow : fst (loginAttempt (page w) started) =
                     Throws (newError "Invalid login response from backend.")).
    { apply (loginAttempt_other_role _ _ env' code t data); auto.
      - destruct (isString (getProp data "role") "student") eqn:E; [| reflexivity].
        apply isString_eq in E. contradiction.
      - destruct (isString (getProp data "role") "admin") eqn:E; [| reflexivity].
        apply isString_eq in E. contradiction. }
    destruct Hcases as [(e & He & Hr & Herr) | (Hret & _)].
    + rewrite Hthrow in He. injection He as <-.
      split; [exact Hr |]. split; [exact Herr |].
      unfold screen. now rewrite Hr.
    + rewrite Hthrow in Hret. discriminate Hret.
Qed.

End CanteenInvariant.

Section CanteenFeedback.
Import Canteen.
Context {P : Platform} {C : Casts}.

(** [handleFeedbackSubmit] returns and sends one request, [feedbackRequest]
    of the state it started from. *)
Lemma handleFeedbackSubmit_request (w : World State) :
  fst (handleFeedbackSubmit w) = Returns tt /\
  requests (snd (handleFeedbackSubmit w)) = feedbackRequest (page w) :: requests w.
Proof.
  unfold handleFeedbackSubmit, bind, getState, tryFinally, tryCatch, setState, fetch. cbn.
  destruct (serve (env w) (feedbackRequest (page w))) as [env' [msg | response]]; cbn; [auto |].
  destruct response as [code [t | msg]]; [| cbn; auto].
  rewrite readJsonSafely_text. unfold throwIf.
  destruct (negb (ok _)); cbn; auto.
Qed.

(** C6: the request that [handleFeedbackSubmit] sends is determined by the
    message, the rating and the food item of the feedback form.  Two runs
    that agree on these three send the same request, whatever their roles,
    users, login inputs and other cells; the object that is serialised has
    the keys [message], [rating] and [food_item_id], and no other, so no
    field of it names the student. *)
Theorem feedbackRequest_identity_free (w1 w2 : World State) :
  feedbackMessage (feedbackForm (page w1)) = feedbackMessage (feedbackForm (page w2)) ->
  feedbackRating (feedbackForm (page w1)) = feedbackRating (feedbackForm (page w2)) ->
  feedbackFoodId (feedbackForm (page w1)) = feedbackFoodId (feedbackForm (page w2)) ->
  requests (snd (handleFeedbackSubmit w1)) = feedbackRequest (page w1) :: requests w1 /\
  requests (snd (handleFeedbackSubmit w2)) = feedbackRequest (page w2) :: requests w2 /\
  feedbackRequest (page w1) = feedbackRequest (page w2) /\
  body (feedbackRequest (page w1)) =
    TextBody (JSON_stringify (feedbackPayload (feedbackForm (page w1)))) /\
  keys (feedbackPayload (feedbackForm (page w1))) = ["message"; "rating"; "food_item_id"].
Proof.
  intros Hm Hr Hf.
  split; [apply handleFeedbackSubmit_request |].
  split; [apply handleFeedbackSubmit_request |].
  split; [| split; reflexivity].
  unfold feedbackRequest, feedbackPayload. now rewrite Hm, Hr, Hf.
Qed.

(** The component of [App.tsx] has no branch for a [TypeError]: when the
    [fetch] of its [loadItems] fails, it shows the message of the error. *)
Lemma canteen_loadItems_network_failure (w : World State) env' msg :
  serve (env w) (mkRequest (FOOD_URL +:+ queryString (filters (page w))) "GET" [] true NoBody) =
    (env', NetworkFailure msg) ->
  error (status (page (snd (loadItems w)))) = msg.
Proof.
  intros Hnet.
  unfold loadItems, bind, getState, tryFinally, tryCatch, setState, fetch. cbn.
  rewrite Hnet. reflexivity.
Qed.

End CanteenFeedback.

Lemma handleLogin_role_witness :
  let w := Sample.canteenWorld [Sample.okResponse Sample.teacherLogin] in
  let w' := snd (Canteen.handleLogin w) in
  Canteen.role (Canteen.session (page w')) = JNull /\
  Canteen.loginError (Canteen.session (page w')) = "Invalid login response from backend." /\
  Canteen.screen (page w') = Canteen.LoginScreen.
Proof.
  intros w w'.
  destruct (handleLogin_role (P := Sample.platform) (C := Sample.canteenCasts) w
              (Canteen.reachable_initial _) eq_refl)
    as (_ & _ & _ & Hother).
  apply (Hother [] 200 (Sample.stringify Sample.teacherLogin) Sample.teacherLogin).
  - reflexivity.
  - reflexivity.
  - discriminate.
  - reflexivity.
  - discriminate.
  - discriminate.
Defined.

Lemma feedbackRequest_identity_free_witness :
  Canteen.feedbackRequest (P := Sample.platform) (page Sample.studentWorld) =
  Canteen.feedbackRequest (P := Sample.platform) (page Sample.otherStudentWorld) /\
  Canteen.currentUser (Canteen.session (page Sample.studentWorld)) <>
  Canteen.currentUser (Canteen.session (page Sample.otherStudentWorld)).
Proof.
  destruct (feedbackRequest_identity_free (P := Sample.platform)
              Sample.studentWorld Sample.otherStudentWorld eq_refl eq_refl eq_refl) as (_ & _ & H & _).
  split; [exact H | discriminate].
Defined.

(** ** The back end of the specification *)
Section BackendFacts.
Import Backend.

(** Every rating from 1 to 5 has a bucket, whatever the entries. *)
Lemma ratingDistribution_buckets (store : Store) (keep : FeedbackEntry -> bool) (r : Z) :
  1 <= r <= 5 ->
  ratingDistribution (computeAnalytics store keep) !! r =
  Some (countRated (List.filter keep (feedbackEntries store)) r).
Proof.
  intros Hr. unfold computeAnalytics. cbn [ratingDistribution].
  assert (Hcases : r = 1 \/ r = 2 \/ r = 3 \/ r = 4 \/ r = 5) by lia.
  destruct Hcases as [-> | [-> | [-> | [-> | ->]]]]; reflexivity.
Qed.

(** C2: on the three entries rated 5, 5 and 3 that refer to "Rice", under
    the empty filter, [computeAnalytics] yields the one group "Rice" with
    mean 13/3 and count 3, and a distribution with a bucket for each rating
    from 1 to 5: 0, 0, 1, 0 and 2, the empty buckets being present with 0.
    The chart of the dashboard draws it as 2, 0, 1, 0, 0 from 5 stars down. *)
Theorem computeAnalytics_rice :
  let result := computeAnalytics Sample.riceStore emptyFilter in
  topRated result = [mkTopRated "Rice" (13 # 3) 3] /\
  ratingDistribution result =
    {[ 1 := 0%nat; 2 := 0%nat; 3 := 1%nat; 4 := 0%nat; 5 := 2%nat ]} /\
  ratingDistribution result !! 1 = Some 0%nat /\
  ratingDistribution result !! 2 = Some 0%nat /\
  ratingDistribution result !! 4 = Some 0%nat /\
  dom (ratingDistribution result) = {[ 1; 2; 3; 4; 5 ]} /\
  map Canteen.value
      (Canteen.ratingRows
         (list_to_map [("1", 0); ("2", 0); ("3", 1); ("4", 0); ("5", 2)])) = [2; 0; 1; 0; 0].
Proof.
  cbv zeta. repeat split; vm_compute; reflexivity.
Qed.

(** The chart reads a missing bucket as 0: it draws the same for a
    distribution that leaves the empty buckets out. *)
Example ratingRows_missing_buckets :
  map Canteen.value (Canteen.ratingRows (list_to_map [("3", 1); ("5", 2)])) = [2; 0; 1; 0; 0].
Proof. vm_compute. reflexivity. Qed.

Lemma createFeedback_error_keeps_store store session now message rating foodItemId e :
  fst (createFeedback store session now message rating foodItemId) = inl e ->
  snd (createFeedback store session now message rating foodItemId) = store.
Proof.
  unfold createFeedback.
  destruct session as [who |]; [| reflexivity].
  destruct (role who); [| reflexivity].
  destruct (String.length message <? 3)%nat; [reflexivity |].
  destruct (negb _); [reflexivity |].
  destruct (negb _); [reflexivity | discriminate].
Qed.

(** The author of a created entry is the user of the session, whatever the
    request carries. *)
Lemma createFeedback_author store who now message rating foodItemId entry :
  fst (createFeedback store (Some who) now message rating foodItemId) = inr entry ->
  student_name entry = user who.
Proof.
  unfold createFeedback.
  destruct (role who); [| discriminate].
  destruct (String.length message <? 3)%nat; [discriminate |].
  destruct (negb _); [discriminate |].
  destruct (negb _); [discriminate |].
  cbn. intros H. injection H as <-. reflexivity.
Qed.

(** C5: in a student's session, for every rating [r] below 1 or above 5,
    whatever the message and the food item, [createFeedback] fails with a
    [ValidationError], and the store, with its feedback entries, is as it
    was: no entry is created. *)
Theorem createFeedback_rating_out_of_range
    (store : Store) (who : Session) (now : Z) (message : string) (r : Z)
    (foodItemId : option Z) :
  role who = student ->
  r < 1 \/ 5 < r ->
  (exists field,
     fst (createFeedback store (Some who) now message r foodItemId) =
     inl (ValidationError field)) /\
  snd (createFeedback store (Some who) now message r foodItemId) = store /\
  feedbackEntries (snd (createFeedback store (Some who) now message r foodItemId)) =
  feedbackEntries store.
Proof.
  intros Hrole Hr.
  assert (Hrange : negb ((1 <=? r) && (r <=? 5)) = true).
  { apply negb_true_iff, andb_false_iff.
    destruct Hr; [left; now apply Z.leb_gt | right; now apply Z.leb_gt]. }
  unfold createFeedback. rewrite Hrole, Hrange.
  destruct (String.length message <? 3)%nat; cbn; eauto.
Qed.

End BackendFacts.

Lemma createFeedback_rating_out_of_range_witness :
  fst (Backend.createFeedback Sample.riceStore (Some Sample.asha) 1704080000
         "Very good" 6 (Some 1)) = inl (Backend.ValidationError "rating") /\
  snd (Backend.createFeedback Sample.riceStore (Some Sample.asha) 1704080000
         "Very good" 6 (Some 1)) = Sample.riceStore.
Proof.
  destruct (createFeedback_rating_out_of_range Sample.riceStore Sample.asha 1704080000
              "Very good" 6 (Some 1) eq_refl) as [_ [H _]].
  - right. lia.
  - split; [reflexivity | exact H].
Defined.

Example createFeedback_accepts_five :
  exists entry store',
    Backend.createFeedback Sample.riceStore (Some Sample.asha) 1704080000
      "Very good" 5 (Some 1) = (inr entry, store') /\
    Backend.student_name entry = "asha" /\
    length (Backend.feedbackEntries store') = 4%nat.
Proof. eexists _, _. split; [reflexivity | split; reflexivity]. Qed.

(** ** Sample runs *)

Example login_student :
  let w' := snd (Canteen.handleLogin (Sample.canteenWorld [Sample.okResponse Sample.studentLogin])) in
  Canteen.role (Canteen.session (page w')) = JStr "student" /\
  Canteen.currentUser (Canteen.session (page w')) = JStr "asha" /\
  Canteen.loginError (Canteen.session (page w')) = "" /\
  Canteen.screen (page w') = Canteen.StudentScreen /\
  length (requests w') = 1%nat.
Proof. repeat split; reflexivity. Qed.

Example login_unauthorized :
  let w' := snd (Canteen.handleLogin (Sample.canteenWorld [Sample.unauthorized])) in
  Canteen.role (Canteen.session (page w')) = JNull /\
  Canteen.loginError (Canteen.session (page w')) = "Invalid credentials.".
Proof. split; reflexivity. Qed.

Example login_gateway_error :
  let w' := snd (Canteen.handleLogin (Sample.canteenWorld [Sample.gatewayError])) in
  Canteen.role (Canteen.session (page w')) = JNull /\
  Canteen.loginError (Canteen.session (page w')) = "Login failed (HTTP 502).".
Proof. split; reflexivity. Qed.

Example login_offline :
  let w' := snd (Canteen.handleLogin (Sample.canteenWorld [])) in
  Canteen.role (Canteen.session (page w')) = JNull /\
  Canteen.loginError (Canteen.session (page w')) = "Failed to fetch".
Proof. split; reflexivity. Qed.

Example inventory_server_error :
  Inventory.error
    (page (snd (Inventory.loadItems (C := Sample.inventoryCasts)
                  (Sample.inventoryWorld [Sample.gatewayError])))) =
  "Unable to load food items.".
Proof. reflexivity. Qed.

Example canteen_offline :
  Canteen.error
    (Canteen.status
       (page (snd (Canteen.loadItems (C := Sample.canteenCasts) (Sample.canteenWorld []))))) =
  "Failed to fetch".
Proof. reflexivity. Qed.

Example feedback_payload :
  JSON_stringify (Platform := Sample.platform)
    (Canteen.feedbackPayload (P := Sample.platform)
       (Canteen.mkFeedbackForm "Tasty rice" "4" "1")) =
  Sample.stringify (JObj [("message", JStr "Tasty rice"); ("rating", JNum 4);
                          ("food_item_id", JNum 1)]).
Proof. reflexivity. Qed.

(** * Further properties *)

(** ** Letter case and white space *)

Lemma lowerUnit_idem c : lowerUnit (lowerUnit c) = lowerUnit c.
Proof. destruct c as [[] [] [] [] [] [] [] []]; reflexivity. Qed.

Lemma isWhiteSpace_lowerUnit c : isWhiteSpace (lowerUnit c) = isWhiteSpace c.
Proof. destruct c as [[] [] [] [] [] [] [] []]; reflexivity. Qed.

Lemma toLowerCase_idem s : toLowerCase (toLowerCase s) = toLowerCase s.
Proof. induction s as [|c r IH]; cbn; [reflexivity | now rewrite lowerUnit_idem, IH]. Qed.

Lemma toLowerCase_trimStart s : toLowerCase (trimStart s) = trimStart (toLowerCase s).
Proof.
  induction s as [|c r IH]; cbn [trimStart toLowerCase]; [reflexivity |].
  rewrite isWhiteSpace_lowerUnit. destruct (isWhiteSpace c); [exact IH | reflexivity].
Qed.

Lemma toLowerCase_trimEnd s : toLowerCase (trimEnd s) = trimEnd (toLowerCase s).
Proof.
  induction s as [|c r IH]; cbn [trimEnd toLowerCase]; [reflexivity |].
  rewrite <- IH, isWhiteSpace_lowerUnit.
  destruct (trimEnd r); cbn [toLowerCase]; [destruct (isWhiteSpace c) |]; reflexivity.
Qed.

Lemma toLowerCase_trim s : toLowerCase (trim s) = trim (toLowerCase s).
Proof. unfold trim. now rewrite toLowerCase_trimEnd, toLowerCase_trimStart. Qed.

Lemma append_nil_l (s : string) : "" +:+ s = s.
Proof. reflexivity. Qed.

Lemma append_cons c (a b : string) : String c a +:+ b = String c (a +:+ b).
Proof. reflexivity. Qed.

Lemma trimEnd_snoc s c : isWhiteSpace c = true -> trimEnd (s +:+ String c "") = trimEnd s.
Proof.
  intros Hc. induction s as [|d r IH].
  - rewrite append_nil_l. cbn [trimEnd]. now rewrite Hc.
  - rewrite append_cons. cbn [trimEnd]. now rewrite IH.
Qed.

Lemma trim_snoc s c : isWhiteSpace c = true -> trim (s +:+ String c "") = trim s.
Proof.
  intros Hc. unfold trim. induction s as [|d r IH].
  - rewrite append_nil_l. cbn [trimStart trimEnd]. now rewrite Hc.
  - rewrite append_cons. cbn [trimStart].
    destruct (isWhiteSpace d); [exact IH |].
    rewrite <- append_cons. now apply trimEnd_snoc.
Qed.

Lemma trim_cons s c : isWhiteSpace c = true -> trim (String c s) = trim s.
Proof. intros Hc. unfold trim. cbn [trimStart]. now rewrite Hc. Qed.

Lemma Substring_refl s : Substring s s.
Proof.
  exists "", "". rewrite append_nil_l.
  induction s as [|c r IH]; [reflexivity | now rewrite append_cons, <- IH].
Qed.

Lemma Substring_cons sub c s : Substring sub s -> Substring sub (String c s).
Proof. intros (pre & post & ->). now exists (String c pre), post. Qed.

Lemma append_assoc (a b c : string) : (a +:+ b) +:+ c = a +:+ (b +:+ c).
Proof. induction a as [|x a IH]; [reflexivity | now rewrite !append_cons, IH]. Qed.

Lemma Substring_trans a b c : Substring a b -> Substring b c -> Substring a c.
Proof.
  intros (p1 & q1 & ->) (p2 & q2 & ->).
  exists (p2 +:+ p1), (q1 +:+ q2). now rewrite !append_assoc.
Qed.

Lemma append_empty_r s : s +:+ "" = s.
Proof. induction s as [|c r IH]; [reflexivity | now rewrite append_cons, IH]. Qed.

Lemma trimStart_suffix s : exists pre, s = pre +:+ trimStart s.
Proof.
  induction s as [|c r [pre IH]]; cbn [trimStart]; [now exists "" |].
  destruct (isWhiteSpace c); [| now exists ""].
  exists (String c pre). now rewrite append_cons, <- IH.
Qed.

Lemma trimEnd_prefix s : exists post, s = trimEnd s +:+ post.
Proof.
  induction s as [|c r [post IH]]; cbn [trimEnd]; [now exists "" |].
  destruct (trimEnd r) as [|d r'] eqn:Ht.
  - destruct (isWhiteSpace c); [now exists (String c r) | now exists r].
  - exists post. now rewrite append_cons, <- IH.
Qed.

Lemma trim_Substring s : Substring (trim s) s.
Proof.
  unfold trim. destruct (trimStart_suffix s) as [pre Hs].
  destruct (trimEnd_prefix (trimStart s)) as [post Ht].
  exists pre, post. now rewrite <- Ht.
Qed.

(** ** More on the inventory's filter *)
Section InventoryFilterMore.
Import Inventory.

Lemma filter_twice {A} (f g : A -> bool) (l : list A) :
  List.filter f (List.filter g l) = List.filter (fun x => g x && f x) l.
Proof.
  induction l as [|x r IH]; cbn; [reflexivity |].
  destruct (g x); cbn; [destruct (f x) |]; now rewrite IH.
Qed.

Lemma filter_all {A} (f : A -> bool) (l : list A) :
  (forall x, In x l -> f x = true) -> List.filter f l = l.
Proof.
  induction l as [|x r IH]; intros H; cbn; [reflexivity |].
  rewrite (H x (or_introl eq_refl)), IH; [reflexivity |].
  intros y Hy. apply H. now right.
Qed.

Lemma filter_length_le {A} (f : A -> bool) (l : list A) :
  (length (List.filter f l) <= length l)%nat.
Proof. induction l as [|x r IH]; cbn; [lia |]. destruct (f x); cbn; lia. Qed.

(** The search of the inventory ignores the letter case of the typed term
    and the white space around it; a term that is, up to case and outer
    white space, the name of a loaded item finds that item. *)
Theorem search_ignores_case_and_padding (items : list FoodItem) (c q : string) :
  filteredItems items c (toLowerCase q) = filteredItems items c q /\
  filteredItems items c (" " +:+ q +:+ " ") = filteredItems items c q /\
  (forall item q',
     In item items ->
     toLowerCase (trim q') = toLowerCase (trim (name item)) ->
     In item (filteredItems items "All" q')).
Proof.
  split; [| split].
  - unfold filteredItems.
    now rewrite <- toLowerCase_trim, toLowerCase_idem.
  - unfold filteredItems.
    rewrite append_cons, append_nil_l, trim_cons by reflexivity.
    now rewrite trim_snoc by reflexivity.
  - intros item q' Hin Hq. apply filteredItems_In.
    split; [exact Hin |]. split; [now left |]. left.
    rewrite Hq, toLowerCase_trim. apply trim_Substring.
Qed.

Lemma search_ignores_case_and_padding_witness :
  In Sample.rice (filteredItems [Sample.milk; Sample.rice] "All" "  RICE ").
Proof.
  destruct (search_ignores_case_and_padding [Sample.milk; Sample.rice] "All" "")
    as (_ & _ & H).
  apply H; [right; left; reflexivity | reflexivity].
Defined.

(** The selector and the search box narrow the list independently: using
    one on the result of the other, in either order, gives the list that
    both give at once.  With "All" and a blank term nothing is filtered
    out, and a filter never adds an item. *)
Theorem filters_compose (items : list FoodItem) (c q : string) :
  filteredItems (filteredItems items c "") "All" q = filteredItems items c q /\
  filteredItems (filteredItems items "All" q) c "" = filteredItems items c q /\
  (trim q = "" -> filteredItems items "All" q = items) /\
  (length (filteredItems items c q) <= length items)%nat.
Proof.
  split; [| split; [| split]].
  - unfold filteredItems at 1 2. rewrite filter_twice. unfold filteredItems.
    apply filter_ext. intros item. cbn.
    now rewrite andb_true_r.
  - unfold filteredItems at 1 2. rewrite filter_twice. unfold filteredItems.
    apply filter_ext. intros item. cbn.
    rewrite andb_true_r. apply andb_comm.
  - intros Hq. unfold filteredItems. rewrite Hq. now apply filter_all.
  - apply filter_length_le.
Qed.

Lemma filters_compose_witness :
  filteredItems [Sample.rice; Sample.idli; Sample.milk] "All" "   " =
  [Sample.rice; Sample.idli; Sample.milk].
Proof.
  destruct (filters_compose [Sample.rice; Sample.idli; Sample.milk] "All" "   ")
    as (_ & _ & H & _).
  apply H. reflexivity.
Defined.

End InventoryFilterMore.

(** ** The category selector *)
Section SelectorFacts.
Import Inventory Selector.
Context (localeCompare : string -> string -> Z).

Lemma unique_In values x : In x (unique values) <-> In x values.
Proof.
  induction values as [|v rest IH]; cbn; [reflexivity |].
  rewrite filter_In, IH, negb_true_iff, String.eqb_neq.
  destruct (String.eqb_spec x v) as [-> | Hne]; [tauto |].
  split; [tauto |]. intros [-> | H]; [contradiction | auto].
Qed.

Lemma unique_NoDup values : List.NoDup (unique values).
Proof.
  induction values as [|v rest IH]; cbn; constructor.
  - rewrite filter_In, negb_true_iff, String.eqb_neq. tauto.
  - now apply List.NoDup_filter.
Qed.

(** The selector offers "All" and then every category of a loaded item,
    each once, and nothing else.  With an empty search box, a category it
    offers, other than "All", selects at least one item. *)
Theorem categories_offered (items : list FoodItem) :
  hd_error (categories localeCompare items) = Some "All" /\
  List.NoDup (tl (categories localeCompare items)) /\
  (forall c, In c (tl (categories localeCompare items)) <->
             exists item, In item items /\ category item = c) /\
  (length (categories localeCompare items) - 1 =
   length (unique (map category items)))%nat /\
  (forall c, In c (tl (categories localeCompare items)) -> c <> "All" ->
             filteredItems items c "" <> []).
Proof.
  set (sorted := Canteen.sort (fun a b => Some (localeCompare a b))
                              (unique (map category items))).
  assert (Hperm : Permutation (unique (map category items)) sorted)
    by apply sort_Permutation.
  assert (Hmem : forall c, In c sorted <-> exists item, In item items /\ category item = c).
  { intros c. split.
    - intros Hc. apply (Permutation_in _ (Permutation_sym Hperm)) in Hc.
      apply unique_In, in_map_iff in Hc. destruct Hc as (item & <- & Hin). eauto.
    - intros (item & Hin & <-). apply (Permutation_in _ Hperm).
      apply unique_In, in_map_iff. eauto. }
  split; [reflexivity |]. split; [| split; [exact Hmem | split]].
  - cbn [categories tl]. apply (Permutation_NoDup Hperm), unique_NoDup.
  - cbn [categories length]. fold sorted. rewrite <- (Permutation_length Hperm). lia.
  - intros c Hc Hne. apply Hmem in Hc. destruct Hc as (item & Hin & Hcat).
    intros Hempty.
    assert (Hitem : In item (filteredItems items c "")).
    { apply filteredItems_In. split; [exact Hin |]. split; [now right |].
      left. exists "", (toLowerCase (name item)). reflexivity. }
    rewrite Hempty in Hitem. destruct Hitem.
Qed.

End SelectorFacts.

(** ** What the inventory's handlers show *)
Section InventoryOutcomes.
Import Inventory.
Context {P : Platform} {C : Casts}.

(** When the list request is answered, [loadItems] of the inventory ends
    with [loading] cleared.  A status outside 200-299 shows the fixed text
    "Unable to load food items.", whatever the body says, and keeps the
    list.  An accepted response whose body is the JSON [null] shows "Cannot
    reach backend API. Start Django server on http://localhost:8000.", as a
    network failure does, and keeps the list.  Any other accepted JSON
    value replaces the list by its [items], by no items if it has none,
    clears the error and stamps the time. *)
Theorem inventory_loadItems_outcomes (w : World State) (env' : Env) (r : Response) :
  serve (env w) listRequest = (env', Responds r) ->
  let w' := snd (loadItems w) in
  loading (page w') = false /\
  (ok r = false ->
   error (page w') = "Unable to load food items." /\ items (page w') = items (page w)) /\
  (forall t, ok r = true -> bodyRead r = BodyText t -> JSON_parse t = Some JNull ->
             error (page w') =
               "Cannot reach backend API. Start Django server on http://localhost:8000." /\
             items (page w') = items (page w)) /\
  (forall t data, ok r = true -> bodyRead r = BodyText t -> JSON_parse t = Some data ->
                  data <> JNull ->
                  error (page w') = "" /\
                  items (page w') = nullish (getProp data "items") asFoodItems [] /\
                  lastUpdated (page w') = toLocaleTimeString env').
Proof.
  intros Hnet w'. subst w'.
  unfold loadItems, bind, tryFinally, tryCatch, setState, fetch, reportError, json, text,
    parse, member, currentTime, ret, throw.
  cbn. rewrite Hnet. cbn.
  split; [| split; [| split]].
  - destruct (ok r); cbn; [| reflexivity].
    destruct (bodyRead r); cbn; [| reflexivity].
    destruct (JSON_parse _) as [[] |]; reflexivity.
  - intros ->. cbn. auto.
  - intros t -> Hbody Hparse. cbn. rewrite Hbody. cbn. rewrite Hparse. cbn. auto.
  - intros t data -> Hbody Hparse Hdata. cbn. rewrite Hbody. cbn. rewrite Hparse.
    destruct data; try contradiction; cbn; auto.
Qed.

(** When the create request is answered with a JSON value other than
    [null], [handleSubmit] of the inventory ends with [submitting] cleared.
    If the status is outside 200-299 it shows the [error] of the value, or
    "Unable to create item." when there is none, and keeps the list and the
    form as typed.  Otherwise it puts the value in front of the list, stamps
    the time and resets the form. *)
Theorem inventory_handleSubmit_outcomes
    (w : World State) (env' : Env) (r : Response) (t : string) (data : Json) :
  serve (env w) (createRequest (page w)) = (env', Responds r) ->
  bodyRead r = BodyText t ->
  JSON_parse t = Some data ->
  data <> JNull ->
  let w' := snd (handleSubmit w) in
  submitting (page w') = false /\
  (ok r = false ->
   error (page w') = nullish (getProp data "error") toStringJson "Unable to create item." /\
   items (page w') = items (page w) /\
   nameInput (page w') = nameInput (page w) /\
   categoryInput (page w') = categoryInput (page w) /\
   quantityInput (page w') = quantityInput (page w)) /\
  (ok r = true ->
   error (page w') = "" /\
   items (page w') = asFoodItem data :: items (page w) /\
   lastUpdated (page w') = toLocaleTimeString env' /\
   nameInput (page w') = "" /\
   categoryInput (page w') = "" /\
   quantityInput (page w') = "1").
Proof.
  intros Hnet Hbody Hparse Hdata w'. subst w'.
  unfold handleSubmit, bind, getState, tryFinally, tryCatch, setState, fetch, reportError,
    json, text, parse, member, currentTime, ret, throw.
  cbn. rewrite Hnet. cbn. rewrite Hbody. cbn. rewrite Hparse. cbn.
  destruct (ok r); cbn.
  - split; [reflexivity |]. split; [discriminate |]. intros _. cbn. auto 10.
  - split; [destruct data; try contradiction; reflexivity |].
    split; [| discriminate]. intros _.
    destruct data; try contradiction; cbn; auto 10.
Qed.

End InventoryOutcomes.

(** ** The food images *)
Section FoodImages.
Import Canteen.

Lemma FOOD_IMAGE_MAP_images entry :
  In entry FOOD_IMAGE_MAP -> snd entry <> "".
Proof.
  unfold FOOD_IMAGE_MAP. cbn [In].
  intros H. repeat (destruct H as [<- | H]; [discriminate |]). destruct H.
Qed.

(** [getFoodImage] never yields an empty address: it is the image of the
    item when the item has one, and otherwise an image of the keyword table
    or the default image. *)
Theorem getFoodImage_never_empty (item : FoodItem) :
  getFoodImage item <> "" /\
  (image_url item <> "" -> getFoodImage item = image_url item) /\
  (image_url item = "" ->
   getFoodImage item = DEFAULT_FOOD_IMAGE \/
   exists entry, In entry FOOD_IMAGE_MAP /\ getFoodImage item = snd entry).
Proof.
  unfold getFoodImage.
  destruct (String.eqb_spec (image_url item) "") as [Hempty | Hown]; cbn [negb].
  - destruct (List.find _ FOOD_IMAGE_MAP) as [entry |] eqn:Hfind.
    + apply find_some in Hfind. destruct Hfind as [Hin _].
      split; [now apply FOOD_IMAGE_MAP_images |].
      split; [intros H; contradiction | intros _; right; eauto].
    + split; [discriminate |]. split; [intros H; contradiction | intros _; now left].
  - split; [exact Hown |]. split; [reflexivity | intros H; contradiction].
Qed.

Lemma getFoodImage_never_empty_witness :
  getFoodImage Deployed.pictured = "/media/rice.jpg".
Proof.
  destruct (getFoodImage_never_empty Deployed.pictured) as (_ & H & _).
  apply H. discriminate.
Defined.

Lemma existsb_includes normalized keywords :
  existsb (fun keyword => includes normalized keyword) keywords = true <->
  exists keyword, In keyword keywords /\ Substring keyword normalized.
Proof.
  rewrite existsb_exists. split; intros (k & Hin & H); exists k; split; auto;
    now apply includes_spec.
Qed.

(** For an item without an image of its own, the image is chosen from the
    name as trimmed and lowercased, so that letter case and outer white
    space do not matter.  The first entry of the table with a keyword in the
    name wins: a name that mentions "rice" gets the image of rice, whatever
    else it mentions; a name that mentions no keyword gets the default
    image. *)
Theorem getFoodImage_by_keyword (item : FoodItem) :
  image_url item = "" ->
  (Substring "rice" (toLowerCase (trim (name item))) ->
   Some (getFoodImage item) = option_map snd (hd_error FOOD_IMAGE_MAP)) /\
  ((forall entry keyword, In entry FOOD_IMAGE_MAP -> In keyword (fst entry) ->
                          ~ Substring keyword (toLowerCase (trim (name item)))) ->
   getFoodImage item = DEFAULT_FOOD_IMAGE) /\
  (forall other, image_url other = "" ->
                 toLowerCase (name other) = toLowerCase (name item) ->
                 getFoodImage other = getFoodImage item) /\
  (forall other, image_url other = "" ->
                 name other = " " +:+ name item +:+ " " ->
                 getFoodImage other = getFoodImage item).
Proof.
  intros Hempty. unfold getFoodImage. rewrite Hempty. cbn [String.eqb negb].
  split; [| split; [| split]].
  - intros Hrice. apply includes_spec in Hrice.
    unfold FOOD_IMAGE_MAP. cbn [List.find mentions fst existsb]. rewrite Hrice. reflexivity.
  - intros Hnone.
    destruct (List.find _ FOOD_IMAGE_MAP) as [entry |] eqn:Hfind; [| reflexivity].
    apply find_some in Hfind. destruct Hfind as [Hin Hmentions].
    apply existsb_includes in Hmentions. destruct Hmentions as (k & Hk & Hsub).
    exfalso. exact (Hnone entry k Hin Hk Hsub).
  - intros other Hother Hname. rewrite Hother. cbn [String.eqb negb].
    now rewrite !toLowerCase_trim, Hname.
  - intros other Hother Hname. rewrite Hother. cbn [String.eqb negb].
    rewrite Hname, append_cons, append_nil_l, trim_cons by reflexivity.
    now rewrite trim_snoc by reflexivity.
Qed.

Lemma getFoodImage_by_keyword_witness :
  getFoodImage Deployed.curdRice =
  "https://cdn.jsdelivr.net/gh/twitter/twemoji@14.0.2/assets/72x72/1f35a.png".
Proof.
  destruct (getFoodImage_by_keyword Deployed.curdRice eq_refl) as (H & _).
  assert (Hsub : Substring "rice" "curd rice") by (exists "curd ", ""; reflexivity).
  exact (f_equal (fun o => match o with Some x => x | None => "" end) (H Hsub)).
Defined.

End FoodImages.

(** ** The student's menus *)
Section Menus.
Import Canteen.

(** The sessions that [todayMenus] knows. *)
Lemma todayMenus_In items item :
  (In item (morning (todayMenus items)) <->
   In item items /\ toLowerCase (category item) = "morning") /\
  (In item (lunch (todayMenus items)) <->
   In item items /\ toLowerCase (category item) = "lunch") /\
  (In item (dinner (todayMenus items)) <->
   In item items /\ toLowerCase (category item) = "dinner").
Proof.
  cbn. rewrite !filter_In, !String.eqb_eq. tauto.
Qed.

Lemma filter_split3 {A} (f g h : A -> bool) (l : list A) :
  (forall x, f x && g x = false) ->
  (forall x, f x && h x = false) ->
  (forall x, g x && h x = false) ->
  (length (List.filter f l) + length (List.filter g l) + length (List.filter h l) =
   length (List.filter (fun x => f x || g x || h x) l))%nat.
Proof.
  intros Hfg Hfh Hgh. induction l as [|x r IH]; cbn; [reflexivity |].
  specialize (Hfg x). specialize (Hfh x). specialize (Hgh x).
  destruct (f x), (g x), (h x); cbn in *; try discriminate; lia.
Qed.

(** The three menus of the student's screen share no item; together they
    hold the loaded items whose category is, whatever its letter case,
    "morning", "lunch" or "dinner", and an item of any other category is on
    none of them. *)
Theorem todayMenus_partition (items : list FoodItem) :
  (forall item, In item (morning (todayMenus items)) ->
                ~ In item (lunch (todayMenus items)) /\
                ~ In item (dinner (todayMenus items))) /\
  (forall item, In item (lunch (todayMenus items)) ->
                ~ In item (dinner (todayMenus items))) /\
  (length (morning (todayMenus items)) + length (lunch (todayMenus items)) +
   length (dinner (todayMenus items)) =
   length (List.filter
             (fun item => String.eqb (toLowerCase (category item)) "morning" ||
                          String.eqb (toLowerCase (category item)) "lunch" ||
                          String.eqb (toLowerCase (category item)) "dinner") items))%nat /\
  (forall item,
     toLowerCase (category item) <> "morning" ->
     toLowerCase (category item) <> "lunch" ->
     toLowerCase (category item) <> "dinner" ->
     ~ In item (morning (todayMenus items)) /\
     ~ In item (lunch (todayMenus items)) /\
     ~ In item (dinner (todayMenus items))).
Proof.
  split; [| split; [| split]].
  - intros item Hm. apply todayMenus_In in Hm. destruct Hm as [_ Hm].
    split; intros H; apply todayMenus_In in H; destruct H as [_ H];
      rewrite Hm in H; discriminate H.
  - intros item Hl. apply todayMenus_In in Hl. destruct Hl as [_ Hl].
    intros H; apply todayMenus_In in H; destruct H as [_ H].
    rewrite Hl in H; discriminate H.
  - cbn [todayMenus morning lunch dinner]. apply filter_split3; intros x.
    + destruct (String.eqb_spec (toLowerCase (category x)) "morning") as [-> |]; reflexivity.
    + destruct (String.eqb_spec (toLowerCase (category x)) "morning") as [-> |]; reflexivity.
    + destruct (String.eqb_spec (toLowerCase (category x)) "lunch") as [-> |]; reflexivity.
  - intros item Hm Hl Hd.
    repeat split; intros H; apply todayMenus_In in H; destruct H as [_ H]; contradiction.
Qed.

Lemma todayMenus_partition_witness :
  ~ In Deployed.tea (morning (todayMenus [Sample.dal; Deployed.tea])) /\
  ~ In Deployed.tea (lunch (todayMenus [Sample.dal; Deployed.tea])) /\
  ~ In Deployed.tea (dinner (todayMenus [Sample.dal; Deployed.tea])).
Proof.
  destruct (todayMenus_partition [Sample.dal; Deployed.tea]) as (_ & _ & _ & H).
  apply (H Deployed.tea); discriminate.
Defined.

End Menus.

(** ** The addresses of the back end *)
Section Addresses.
Import Canteen.

Lemma stripTrailingSlashes_snoc s :
  stripTrailingSlashes (s +:+ "/") = stripTrailingSlashes s.
Proof.
  induction s as [|c r IH].
  - reflexivity.
  - rewrite append_cons. cbn [stripTrailingSlashes]. now rewrite IH.
Qed.

Lemma append_snoc_slashes s n : s +:+ String "/" (slashes n) = (s +:+ "/") +:+ slashes n.
Proof. now rewrite append_assoc. Qed.

Lemma stripTrailingSlashes_slashes s n :
  stripTrailingSlashes (s +:+ slashes n) = stripTrailingSlashes s.
Proof.
  revert s. induction n as [|n IH]; intros s; cbn [slashes].
  - now rewrite append_empty_r.
  - now rewrite append_snoc_slashes, IH, stripTrailingSlashes_snoc.
Qed.

Lemma stripTrailingSlashes_api s :
  stripTrailingSlashes (s +:+ "/api") = s +:+ "/api".
Proof.
  induction s as [|c r IH].
  - reflexivity.
  - rewrite append_cons. cbn [stripTrailingSlashes]. rewrite IH.
    destruct r; reflexivity.
Qed.

Lemma length_append (a b : string) :
  String.length (a +:+ b) = (String.length a + String.length b)%nat.
Proof. induction a as [|c r IH]; [reflexivity | rewrite append_cons; cbn; now rewrite IH]. Qed.

Lemma stripApiSuffix_api s : stripApiSuffix (s +:+ "/api") = s.
Proof.
  induction s as [|c r IH].
  - reflexivity.
  - rewrite append_cons. cbn [stripApiSuffix].
    destruct (String.eqb_spec (String c (r +:+ "/api")) "/api") as [Heq | _].
    + apply (f_equal String.length) in Heq.
      cbn [String.length] in Heq. rewrite length_append in Heq.
      cbn [String.length] in Heq. lia.
    + now rewrite IH.
Qed.

(** The base address may be configured with a final "/api" and with
    trailing slashes, or without: [NORMALIZED_BASE_URL] is the same, and so
    are the addresses of the food items, the login and the feedback. *)
Theorem base_address_normalised {P : Platform} (base : string) (n : nat) :
  (API_BASE_URL = base +:+ "/api" +:+ slashes n ->
   NORMALIZED_BASE_URL = base /\
   FOOD_URL = base +:+ "/api/food-items/" /\
   LOGIN_URL = base +:+ "/api/auth/login/" /\
   FEEDBACK_URL = base +:+ "/api/feedback/") /\
  (API_BASE_URL = base +:+ slashes n ->
   stripTrailingSlashes base = base ->
   stripApiSuffix base = base ->
   NORMALIZED_BASE_URL = base).
Proof.
  split.
  - intros Hbase.
    assert (Hn : NORMALIZED_BASE_URL = base).
    { unfold NORMALIZED_BASE_URL. rewrite Hbase, <- append_assoc.
      now rewrite stripTrailingSlashes_slashes, stripTrailingSlashes_api, stripApiSuffix_api. }
    unfold FOOD_URL, LOGIN_URL, FEEDBACK_URL. now rewrite Hn.
  - intros Hbase Hslash Hapi. unfold NORMALIZED_BASE_URL.
    now rewrite Hbase, stripTrailingSlashes_slashes, Hslash, Hapi.
Qed.

End Addresses.

(** ** The rating chart *)
Section RatingChart.
Import Canteen.

Lemma distributionTotal_zero (d : gmap string Z) :
  (forall k n, d !! k = Some n -> n = 0) -> distributionTotal d = 0.
Proof.
  unfold distributionTotal.
  apply (map_fold_weak_ind
           (fun r (m : gmap string Z) => (forall k n, m !! k = Some n -> n = 0) -> r = 0)).
  - reflexivity.
  - intros k n m r Hk IH Hzero.
    rewrite (Hzero k n) by apply lookup_insert_eq.
    rewrite IH; [reflexivity |].
    intros k' n' Hk'. apply (Hzero k' n').
    rewrite lookup_insert_ne; [exact Hk' |]. intros ->. rewrite Hk in Hk'. discriminate.
Qed.

(** The chart has the five lines "5 Star" down to "1 Star" whatever the
    distribution, each with the count of its rating, which is 0 for a rating
    that the distribution leaves out.  When the distribution counts no
    feedback (it is empty, or all its counts are 0), every bar has width 0:
    nothing is divided by zero. *)
Theorem ratingRows_widths (d : gmap string Z) :
  map label (ratingRows d) = ["5 Star"; "4 Star"; "3 Star"; "2 Star"; "1 Star"] /\
  map value (ratingRows d) = map (fun key => default 0 (d !! key)) starKeys /\
  ((forall k n, d !! k = Some n -> n = 0) ->
   Forall (fun row => width row = 0%Q /\ value row = 0) (ratingRows d)).
Proof.
  split; [reflexivity |]. split; [reflexivity |].
  intros Hzero.
  assert (Hvalue : forall k, default 0 (d !! k) = 0).
  { intros k. destruct (d !! k) as [n |] eqn:Hk; [exact (Hzero k n Hk) | reflexivity]. }
  unfold ratingRows. cbn [map]. rewrite (distributionTotal_zero d Hzero), !Hvalue.
  repeat constructor.
Qed.

Lemma ratingRows_widths_witness :
  Forall (fun row => width row = 0%Q /\ value row = 0) (ratingRows ∅).
Proof.
  apply (ratingRows_widths ∅).
  intros k n Hk. rewrite lookup_empty in Hk. discriminate Hk.
Defined.

End RatingChart.

(** ** What the canteen's handlers send *)
Section CanteenTraffic.
Import Canteen.
Context {P : Platform} {C : Casts}.

Lemma canteen_loadItems_effect (w : World State) :
  fst (loadItems w) = Returns tt /\
  requests (snd (loadItems w)) = itemsRequest (page w) :: requests w /\
  filterInputs (page (snd (loadItems w))) = filterInputs (page w).
Proof. unfold loadItems, itemsRequest. handler_cases; repeat split; reflexivity. Qed.

Lemma canteen_loadFeedbacks_effect (w : World State) :
  fst (loadFeedbacks w) = Returns tt /\
  requests (snd (loadFeedbacks w)) = feedbacksRequest (page w) :: requests w /\
  filterInputs (page (snd (loadFeedbacks w))) = filterInputs (page w).
Proof. unfold loadFeedbacks, feedbacksRequest. handler_cases; repeat split; reflexivity. Qed.

Lemma canteen_loadAnalytics_effect (w : World State) :
  fst (loadAnalytics w) = Returns tt /\
  requests (snd (loadAnalytics w)) = analyticsRequest (page w) :: requests w.
Proof. unfold loadAnalytics, analyticsRequest. handler_cases; repeat split; reflexivity. Qed.

Lemma canteen_handleSubmit_effect (w : World State) :
  fst (handleSubmit w) = Returns tt /\
  requests (snd (handleSubmit w)) = itemRequest (page w) :: requests w.
Proof. unfold handleSubmit, itemRequest. handler_cases; repeat split; reflexivity. Qed.

Lemma canteen_handleLogin_effect (w : World State) :
  fst (handleLogin w) = Returns tt /\
  requests (snd (handleLogin w)) = loginRequest (page w) :: requests w.
Proof.
  unfold handleLogin, loginStart, loginAttempt. handler_cases; repeat split; reflexivity.
Qed.

Lemma bind_run {St A B} (m : M St A) (k : A -> M St B) (w : World St) (a : A) :
  fst (m w) = Returns a -> bind m k w = k a (snd (m w)).
Proof. unfold bind. destruct (m w) as [[a' | e] w1]; cbn; [now intros [= ->] | discriminate]. Qed.

Lemma requests_same_filters (s s' : State) :
  filterInputs s' = filterInputs s ->
  itemsRequest s' = itemsRequest s /\
  feedbacksRequest s' = feedbacksRequest s /\
  analyticsRequest s' = analyticsRequest s.
Proof.
  intros H. unfold itemsRequest, feedbacksRequest, analyticsRequest, filters.
  now rewrite H.
Qed.

Lemma feedbacks_then_analytics (w : World State) :
  fst (bind loadFeedbacks (fun _ => loadAnalytics) w) = Returns tt /\
  requests (snd (bind loadFeedbacks (fun _ => loadAnalytics) w)) =
  analyticsRequest (page w) :: feedbacksRequest (page w) :: requests w.
Proof.
  destruct (canteen_loadFeedbacks_effect w) as (Hret & Hreq & Hfilters).
  rewrite (bind_run _ _ _ _ Hret).
  destruct (canteen_loadAnalytics_effect (snd (loadFeedbacks w))) as (Hret' & Hreq').
  split; [exact Hret' |]. rewrite Hreq', Hreq.
  now destruct (requests_same_filters _ _ Hfilters) as (_ & _ & ->).
Qed.

Lemma refresh_run (w : World State) :
  handle ClickRefresh w =
  (if isString (Some (role (session (page w)))) "student" then loadItems
   else bind loadItems (fun _ => bind loadFeedbacks (fun _ => loadAnalytics))) w.
Proof. reflexivity. Qed.

Lemma roleEffect_run (w : World State) :
  roleEffect w =
  (if isString (Some (role (session (page w)))) "admin"
   then bind loadFeedbacks (fun _ => loadAnalytics) else ret tt) w.
Proof. reflexivity. Qed.

(** The handler of every event returns, and the requests it has sent are
    those of [requestsOf]. *)
Lemma handle_effect (e : Event) (w : World State) :
  fst (handle e w) = Returns tt /\
  requests (snd (handle e w)) = (requestsOf e (page w) ++ requests w)%list.
Proof.
  destruct e; [| | | rewrite refresh_run | | | |]; cbn [handle requestsOf].
  - split; reflexivity.
  - apply canteen_handleLogin_effect.
  - split; reflexivity.
  - destruct (isString _ _).
    + destruct (canteen_loadItems_effect w) as (Hret & Hreq & _).
      split; [exact Hret | exact Hreq].
    + destruct (canteen_loadItems_effect w) as (Hret & Hreq & Hfilters).
      rewrite (bind_run _ _ _ _ Hret).
      destruct (feedbacks_then_analytics (snd (loadItems w))) as (Hret' & Hreq').
      split; [exact Hret' |]. rewrite Hreq', Hreq.
      destruct (requests_same_filters _ _ Hfilters) as (_ & -> & ->). reflexivity.
  - apply canteen_handleSubmit_effect.
  - apply handleFeedbackSubmit_request.
  - destruct (canteen_loadItems_effect w) as (Hret & Hreq & _).
    split; [exact Hret | exact Hreq].
  - rewrite roleEffect_run.
    destruct (isString _ _); [apply feedbacks_then_analytics | split; reflexivity].
Qed.

(** Whatever the network answers, no handler of the canteen component lets
    an exception escape, and each sends the requests of its event and no
    other, without retrying: none for typing and for logout, one for a
    login, a submission or a load of the items, two for the effect of an
    administrator's role, three for the refresh of the administrator. *)
Theorem handlers_return_and_send_once (e : Event) (w : World State) :
  fst (handle e w) = Returns tt /\
  requests (snd (handle e w)) = (requestsOf e (page w) ++ requests w)%list /\
  (length (requestsOf e (page w)) <= 3)%nat /\
  (forall i, requestsOf (Change i) (page w) = []) /\
  requestsOf ClickLogout (page w) = [] /\
  length (requestsOf SubmitLogin (page w)) = 1%nat /\
  length (requestsOf SubmitItem (page w)) = 1%nat /\
  length (requestsOf SubmitFeedback (page w)) = 1%nat /\
  length (requestsOf ItemsEffect (page w)) = 1%nat.
Proof.
  destruct (handle_effect e w) as [Hret Hreq].
  split; [exact Hret |]. split; [exact Hreq |]. split; [| repeat split].
  destruct e; cbn [requestsOf]; try destruct (isString _ _); cbn; lia.
Qed.

Lemma startsWith_same_prefix (p a b : string) :
  startsWith (p +:+ a) (p +:+ b) = startsWith a b.
Proof.
  induction p as [|c r IH]; [reflexivity |].
  rewrite !append_cons. cbn [startsWith]. now rewrite Ascii.eqb_refl, IH.
Qed.

Lemma itemsRequest_not_feedback (s : State) : readsFeedback (itemsRequest s) = false.
Proof.
  unfold readsFeedback, itemsRequest, FOOD_URL, FEEDBACK_URL, ANALYTICS_URL. cbn [url method].
  rewrite append_assoc, !startsWith_same_prefix. reflexivity.
Qed.

(** The feedback list and its analytics are read only for an
    administrator: in a state the component can reach where [role] is not
    "admin", no event that the screen offers, and no effect, sends a [GET]
    to the feedback or analytics address. *)
Theorem feedback_read_only_by_admin (e : Event) (w : World State) :
  reachable w ->
  offered e (page w) = true ->
  role (session (page w)) <> JStr "admin" ->
  exists sent,
    requests (snd (handle e w)) = (sent ++ requests w)%list /\
    Forall (fun r => readsFeedback r = false) sent.
Proof.
  intros Hreach Hoffered Hrole.
  exists (requestsOf e (page w)). split; [apply handle_effect |].
  apply reachable_validRole in Hreach.
  destruct Hreach as [Hnull | [Hstudent | Hadmin]]; [| | contradiction].
  - unfold offered, screen in Hoffered. rewrite Hnull in Hoffered. cbn in Hoffered.
    destruct e as [i | | | | | | |]; try discriminate; cbn [requestsOf].
    + constructor.
    + repeat constructor.
    + repeat constructor. apply itemsRequest_not_feedback.
    + rewrite Hnull. constructor.
  - unfold offered, screen in Hoffered. rewrite Hstudent in Hoffered. cbn in Hoffered.
    destruct e as [i | | | | | | |]; try discriminate; cbn [requestsOf]; rewrite ?Hstudent;
      cbn [isString String.eqb Ascii.eqb Bool.eqb andb]; repeat constructor;
      apply itemsRequest_not_feedback.
Qed.

Lemma screen_same_role (s s' : State) :
  role (session s') = role (session s) -> screen s' = screen s.
Proof. intros H. unfold screen. now rewrite H. Qed.

(** In every state the component can reach, [role] is [null], "student" or
    "admin", and it is not [null] only after a login request has been sent:
    the component holds no role that a login exchange has not given. *)
Theorem role_comes_from_login (w : World State) :
  reachable w ->
  (role (session (page w)) = JNull \/ role (session (page w)) = JStr "student" \/
   role (session (page w)) = JStr "admin") /\
  (role (session (page w)) <> JNull ->
   exists s, In (loginRequest s) (requests w)).
Proof.
  intros Hreach.
  assert (Hscreens :
    (screen (page w) = LoginScreen <-> role (session (page w)) = JNull) /\
    (screen (page w) = StudentScreen <-> role (session (page w)) = JStr "student") /\
    (screen (page w) = AdminScreen <-> role (session (page w)) = JStr "admin")).
  { pose proof (reachable_validRole w Hreach) as Hvalid. unfold screen.
    destruct Hvalid as [H | [H | H]]; rewrite H; cbn;
      repeat split; intros; try discriminate; reflexivity. }
  destruct Hscreens as (HL & _ & _).
  split; [exact (reachable_validRole w Hreach) |].
  intros Hrole.
  assert (Hpast : screen (page w) <> LoginScreen) by (intros Hs; now apply Hrole, HL).
  clear HL Hrole. revert Hpast.
  induction Hreach as [outside | w e Hreach IH Hoffered].
  - intros H. now contradiction H.
  - intros Hscreen. destruct (handle_effect e w) as [_ Hreq].
    assert (Hkeep : role (session (page (snd (handle e w)))) = role (session (page w)) ->
                    screen (page w) <> LoginScreen).
    { intros Hrole. now rewrite <- (screen_same_role _ _ Hrole). }
    destruct (screen (page w)) eqn:Hs.
    + unfold offered in Hoffered. rewrite Hs in Hoffered.
      destruct e as [i | | | | | | |]; try discriminate Hoffered.
      * exfalso. apply Hkeep; [apply onChange_role | reflexivity].
      * exists (page w). rewrite Hreq. left. reflexivity.
      * exfalso. apply Hkeep; [| reflexivity]. cbn [handle]. now rewrite loadItems_session.
      * exfalso. apply Hkeep; [| reflexivity]. cbn [handle]. now rewrite roleEffect_session.
    + destruct IH as [s Hin]; [discriminate |].
      exists s. rewrite Hreq. apply in_or_app. now right.
    + destruct IH as [s Hin]; [discriminate |].
      exists s. rewrite Hreq. apply in_or_app. now right.
Qed.

End CanteenTraffic.

(** ** What the canteen's handlers show *)
Section CanteenOutcomes.
Import Canteen.
Context {P : Platform} {C : Casts}.

Lemma readJsonSafely_bodyValue {St} (code : Z) (t : string) (w : World St) :
  readJsonSafely (mkResponse code (BodyText t)) w = (Returns (bodyValue t), w).
Proof. apply readJsonSafely_text. Qed.

(** Runs a handler on an answered request whose body is a text. *)
Ltac answered Hnet :=
  unfold bind, getState, tryFinally, tryCatch, setState, fetch, throwIf, throw, ret,
         currentTime;
  unfold itemRequest, itemsRequest, feedbacksRequest, analyticsRequest in Hnet;
  cbn -[readJsonSafely] in Hnet; cbn -[readJsonSafely]; rewrite Hnet; cbn -[readJsonSafely];
  rewrite ?readJsonSafely_bodyValue; cbn -[readJsonSafely bodyValue].

(** A feedback submission that is answered with a status in 200-299,
    whatever the body, shows "Feedback submitted successfully." and resets
    the form to an empty message, no food item and the rating 5.  One that
    is refused shows the [error] of the body, or "Unable to submit
    feedback." without one, and one that fails on the network shows the
    message of the failure; both keep what the student typed.  In every
    case [feedbackSubmitting] is cleared. *)
Theorem feedback_submission_outcomes (w : World State) :
  (forall env' code t,
     serve (env w) (feedbackRequest (page w)) = (env', Responds (mkResponse code (BodyText t))) ->
     let w' := snd (handleFeedbackSubmit w) in
     feedbackSubmitting (status (page w')) = false /\
     (ok (mkResponse code (BodyText t)) = true ->
      feedbackStatus (status (page w')) = "Feedback submitted successfully." /\
      feedbackForm (page w') = mkFeedbackForm "" "5" "") /\
     (ok (mkResponse code (BodyText t)) = false ->
      feedbackStatus (status (page w')) =
        nullish (getPropOpt (bodyValue t) "error") toStringJson "Unable to submit feedback." /\
      feedbackForm (page w') = feedbackForm (page w))) /\
  (forall env' msg,
     serve (env w) (feedbackRequest (page w)) = (env', NetworkFailure msg) ->
     let w' := snd (handleFeedbackSubmit w) in
     feedbackSubmitting (status (page w')) = false /\
     feedbackStatus (status (page w')) = msg /\
     feedbackForm (page w') = feedbackForm (page w)).
Proof.
  split.
  - intros env' code t Hnet w'. subst w'. unfold handleFeedbackSubmit. answered Hnet.
    destruct (ok _); cbn; repeat split; intros; try discriminate; reflexivity.
  - intros env' msg Hnet w'. subst w'. unfold handleFeedbackSubmit. answered Hnet.
    repeat split; reflexivity.
Qed.

(** A new item is put in front of the list, and the form reset to an empty
    name, "morning", quantity 1 and no file, only when the answer has a
    status in 200-299 and a body that parses to a truthy value.  An accepted
    answer with an empty, malformed or falsy body shows "Backend returned an
    invalid response."; a refused one shows the [error] of the body, or
    "Unable to create item."; a network failure shows its message.  These
    three keep the list and the form.  In every case [submitting] is
    cleared. *)
Theorem item_submission_outcomes (w : World State) :
  (forall env' code t,
     serve (env w) (itemRequest (page w)) = (env', Responds (mkResponse code (BodyText t))) ->
     let w' := snd (handleSubmit w) in
     submitting (status (page w')) = false /\
     (ok (mkResponse code (BodyText t)) = true -> falsy (bodyValue t) = false ->
      items (loaded (page w')) = asFoodItem (bodyValue t) :: items (loaded (page w)) /\
      itemForm (page w') = mkItemForm "" "morning" "1" None /\
      error (status (page w')) = "" /\
      lastUpdated (status (page w')) = toLocaleTimeString env') /\
     (ok (mkResponse code (BodyText t)) = true -> falsy (bodyValue t) = true ->
      error (status (page w')) = "Backend returned an invalid response." /\
      items (loaded (page w')) = items (loaded (page w)) /\
      itemForm (page w') = itemForm (page w)) /\
     (ok (mkResponse code (BodyText t)) = false ->
      error (status (page w')) =
        nullish (getPropOpt (bodyValue t) "error") toStringJson "Unable to create item." /\
      items (loaded (page w')) = items (loaded (page w)) /\
      itemForm (page w') = itemForm (page w))) /\
  (forall env' msg,
     serve (env w) (itemRequest (page w)) = (env', NetworkFailure msg) ->
     let w' := snd (handleSubmit w) in
     submitting (status (page w')) = false /\
     error (status (page w')) = msg /\
     items (loaded (page w')) = items (loaded (page w)) /\
     itemForm (page w') = itemForm (page w)).
Proof.
  split.
  - intros env' code t Hnet w'. subst w'. unfold handleSubmit.
    answered Hnet.
    destruct (ok _); cbn -[bodyValue]; [destruct (falsy (bodyValue t)); cbn -[bodyValue] |];
      repeat split; intros; try discriminate; reflexivity.
  - intros env' msg Hnet w'. subst w'. unfold handleSubmit.
    answered Hnet. repeat split; reflexivity.
Qed.

(** The three loaders treat an accepted answer with an empty or malformed
    body differently.  [loadItems] shows "Backend returned an invalid
    response." and keeps the items, [loadAnalytics] shows "Invalid analytics
    response." and keeps the analytics, but [loadFeedbacks] empties the
    feedback list and shows nothing. *)
Theorem loaders_on_unreadable_answer (w : World State) (env' : Env) (code : Z) (t : string) :
  ok (mkResponse code (BodyText t)) = true ->
  bodyValue t = JNull ->
  (serve (env w) (itemsRequest (page w)) = (env', Responds (mkResponse code (BodyText t))) ->
   error (status (page (snd (loadItems w)))) = "Backend returned an invalid response." /\
   items (loaded (page (snd (loadItems w)))) = items (loaded (page w)) /\
   loading (status (page (snd (loadItems w)))) = false) /\
  (serve (env w) (analyticsRequest (page w)) = (env', Responds (mkResponse code (BodyText t))) ->
   error (status (page (snd (loadAnalytics w)))) = "Invalid analytics response." /\
   analytics (loaded (page (snd (loadAnalytics w)))) = analytics (loaded (page w))) /\
  (serve (env w) (feedbacksRequest (page w)) = (env', Responds (mkResponse code (BodyText t))) ->
   feedbacks (loaded (page (snd (loadFeedbacks w)))) = [] /\
   error (status (page (snd (loadFeedbacks w)))) = error (status (page w))).
Proof.
  intros Hok Hnull. split; [| split]; intros Hnet.
  - unfold loadItems. answered Hnet.
    rewrite Hok, Hnull. cbn. auto.
  - unfold loadAnalytics. answered Hnet.
    rewrite Hok, Hnull. cbn. auto.
  - unfold loadFeedbacks. answered Hnet.
    rewrite Hok, Hnull. cbn. auto.
Qed.

(** An accepted list of items replaces the loaded list, by no items when
    the value has no [items]; a refused or failed load keeps the list that
    was loaded before and shows the [error] of the body, or "Unable to load
    food items.", or the message of the network failure. *)
Theorem items_load_outcomes (w : World State) :
  (forall env' code t,
     serve (env w) (itemsRequest (page w)) = (env', Responds (mkResponse code (BodyText t))) ->
     let w' := snd (loadItems w) in
     loading (status (page w')) = false /\
     (ok (mkResponse code (BodyText t)) = true -> falsy (bodyValue t) = false ->
      items (loaded (page w')) = nullish (getProp (bodyValue t) "items") asFoodItems [] /\
      error (status (page w')) = "" /\
      lastUpdated (status (page w')) = toLocaleTimeString env') /\
     (ok (mkResponse code (BodyText t)) = false ->
      error (status (page w')) =
        nullish (getPropOpt (bodyValue t) "error") toStringJson "Unable to load food items." /\
      items (loaded (page w')) = items (loaded (page w)))) /\
  (forall env' msg,
     serve (env w) (itemsRequest (page w)) = (env', NetworkFailure msg) ->
     let w' := snd (loadItems w) in
     loading (status (page w')) = false /\
     error (status (page w')) = msg /\
     items (loaded (page w')) = items (loaded (page w))).
Proof.
  split.
  - intros env' code t Hnet w'. subst w'. unfold loadItems.
    answered Hnet.
    destruct (ok _); cbn -[bodyValue]; [destruct (falsy (bodyValue t)); cbn -[bodyValue] |];
      repeat split; intros; try discriminate; reflexivity.
  - intros env' msg Hnet w'. subst w'. unfold loadItems.
    answered Hnet. repeat split; reflexivity.
Qed.

(** A login that the back end accepts with one of the two roles stores the
    role, takes the user's name from the answer, or the trimmed typed name
    when the answer has none, and forgets the typed password.  A login that
    is refused keeps the typed password and name, the role and the current
    user, and shows the [error] of the body or the fallback line. *)
Theorem login_outcomes (w : World State) (env' : Env) (code : Z) (t : string) :
  serve (env w) (loginRequest (page w)) = (env', Responds (mkResponse code (BodyText t))) ->
  let w' := snd (handleLogin w) in
  (forall r, ok (mkResponse code (BodyText t)) = true ->
             falsy (bodyValue t) = false ->
             getProp (bodyValue t) "role" = Some (JStr r) ->
             r = "student" \/ r = "admin" ->
             session (page w') =
             mkSession (JStr r) (username (session (page w))) ""
                       (nullish (getProp (bodyValue t) "username") (fun v => v)
                                (JStr (trim (username (session (page w))))))
                       "" false) /\
  (ok (mkResponse code (BodyText t)) = false ->
   session (page w') =
   mkSession (role (session (page w))) (username (session (page w)))
             (password (session (page w))) (currentUser (session (page w)))
             (nullish (getPropOpt (bodyValue t) "error") toStringJson
                      (loginFallback (mkResponse code (BodyText t))))
             false).
Proof.
  intros Hnet w'. subst w'. unfold handleLogin, loginStart, loginAttempt.
  answered Hnet. split.
  - intros r Hok Hfalsy Hrole Hr. rewrite Hok, Hfalsy, Hrole.
    destruct Hr as [-> | ->]; reflexivity.
  - intros Hok. rewrite Hok. reflexivity.
Qed.

End CanteenOutcomes.

(** ** More on the history and the filters of the canteen *)
Section HistoryMore.
Import Canteen.
Context {P : Platform}.

Lemma insertSorted_front x l :
  Forall (notOlder x) l -> insertSorted byCreation x l = x :: l.
Proof.
  intros Hx. destruct l as [|y r]; [reflexivity |]. cbn [insertSorted].
  apply Forall_cons_iff in Hx. destruct Hx as [(tx & ty & Hx & Hy & Hle) _].
  unfold sortCompare, byCreation, createdTime. rewrite Hx, Hy. cbn [minus].
  destruct (0 <? ty - tx) eqn:Hcmp; [apply Z.ltb_lt in Hcmp; lia | reflexivity].
Qed.

Lemma sorted_unchanged items :
  StronglySorted notOlder items -> sortedHistory items = items.
Proof.
  unfold sortedHistory. induction 1 as [|x r Hr IH Hx]; cbn [sort]; [reflexivity |].
  rewrite IH. now apply insertSorted_front.
Qed.

Lemma sortedHistory_sorted items :
  Forall readableDate items ->
  StronglySorted notOlder (sortedHistory items).
Proof.
  intros Hvalid. unfold sortedHistory.
  induction items as [|x r IH]; cbn [sort]; [constructor |].
  apply Forall_cons_iff in Hvalid. destruct Hvalid as [Hx Hr].
  apply insertSorted_byCreation; [exact Hx | | now apply IH].
  apply (Permutation_Forall (sort_Permutation _ r)). exact Hr.
Qed.

Lemma roundDouble_safe (z : Z) : Z.abs z < 2 ^ 53 -> roundDouble z = z.
Proof.
  intros Hz. apply Z.ltb_lt in Hz. unfold roundDouble. cbv zeta. now rewrite Hz.
Qed.

Lemma quantities_nonneg (l : list FoodItem) :
  Forall (fun item => 0 <= quantity item) l -> 0 <= fold_right Z.add 0 (map quantity l).
Proof.
  induction 1 as [|x r Hx _ IH]; cbn [map fold_right]; lia.
Qed.

Lemma totalQuantity_from (l : list FoodItem) (a : Z) :
  0 <= a ->
  Forall (fun item => 0 <= quantity item) l ->
  a + fold_right Z.add 0 (map quantity l) < 2 ^ 53 ->
  fold_left (fun sum item => plus sum (quantity item)) l a =
  a + fold_right Z.add 0 (map quantity l).
Proof.
  intros Ha Hpos. revert a Ha.
  induction Hpos as [|x r Hx Hr IH]; intros a Ha Hsum; cbn [fold_left map fold_right] in *.
  - lia.
  - pose proof (quantities_nonneg r Hr) as Hrest.
    unfold plus at 2. rewrite roundDouble_safe by lia.
    rewrite IH by lia. lia.
Qed.

Lemma quantities_Permutation (l l' : list FoodItem) :
  Permutation l l' ->
  fold_right Z.add 0 (map quantity l) = fold_right Z.add 0 (map quantity l').
Proof.
  induction 1; cbn [map fold_right]; lia.
Qed.

(** A list that is loaded newest first is shown in the history as it is,
    so that an item put in front of it that is not older than the others
    stays in front.  Sorting a history of items with readable dates again
    changes nothing.  When no quantity is negative and the quantities add up
    to less than 2^53, the total quantity is their exact sum, and the rows of
    the history have the total quantity of the dashboard. *)
Theorem history_of_sorted_list (items : list FoodItem) :
  (StronglySorted notOlder items -> sortedHistory items = items) /\
  (forall item, StronglySorted notOlder items -> Forall (notOlder item) items ->
                sortedHistory (item :: items) = item :: items) /\
  (Forall (fun item => is_Some (Date_getTime (created_at item))) items ->
   sortedHistory (sortedHistory items) = sortedHistory items) /\
  (Forall (fun item => 0 <= quantity item) items ->
   fold_right Z.add 0 (map quantity items) < 2 ^ 53 ->
   totalQuantity items = fold_right Z.add 0 (map quantity items) /\
   totalQuantity (sortedHistory items) = totalQuantity items).
Proof.
  split; [apply sorted_unchanged |]. split; [| split].
  - intros item Hsorted Hitem. apply sorted_unchanged. now constructor.
  - intros Hvalid. apply sorted_unchanged, sortedHistory_sorted, Hvalid.
  - intros Hpos Hsum.
    pose proof (sort_Permutation byCreation items) as Hperm.
    assert (Hexact : totalQuantity items = fold_right Z.add 0 (map quantity items)).
    { unfold totalQuantity. rewrite totalQuantity_from; [lia | lia | exact Hpos | lia]. }
    split; [exact Hexact |].
    rewrite Hexact. unfold totalQuantity, sortedHistory.
    rewrite totalQuantity_from.
    + rewrite <- (quantities_Permutation _ _ Hperm). lia.
    + lia.
    + exact (Permutation_Forall Hperm Hpos).
    + rewrite <- (quantities_Permutation _ _ Hperm). lia.
Qed.

(** Beyond 2^53 the total depends on the order of the items, as the sums
    are rounded: 2^53 + 1 + 1 is 2^53, and 1 + 1 + 2^53 is 2^53 + 2. *)
Example totalQuantity_rounds :
  let big := mkFoodItem 1 "Rice" "lunch" (2 ^ 53) "" "2024-01-01T00:00:00Z" in
  let one := mkFoodItem 2 "Dal" "lunch" 1 "" "2024-01-02T00:00:00Z" in
  totalQuantity [big; one; one] = 9007199254740992 /\
  totalQuantity [one; one; big] = 9007199254740994.
Proof. split; vm_compute; reflexivity. Qed.

Lemma queryString_blank (params : list (string * string)) :
  URLSearchParams_toString [] = "" ->
  Forall (fun kv => trim (snd kv) = "") params ->
  queryString params = "".
Proof.
  intros Hnone Hblank. unfold queryString.
  assert (Hsearch : flat_map (fun kv => if String.eqb (trim (snd kv)) "" then []
                                        else [(fst kv, trim (snd kv))]) params = []).
  { induction Hblank as [|kv r Hkv _ IH]; cbn [flat_map]; [reflexivity |].
    now rewrite Hkv, IH. }
  now rewrite Hsearch, Hnone.
Qed.

(** When the four filters are blank (empty or white space), and the
    browser writes no parameters as the empty string, the three lists are
    requested at their bare addresses and an export link is its base
    address: no query string is added.  White space around the search
    filter does not change the request. *)
Theorem blank_filters_add_no_query (s : State) :
  URLSearchParams_toString [] = "" ->
  (trim (filterSearch (filterInputs s)) = "" ->
   trim (filterCategory (filterInputs s)) = "" ->
   trim (filterFrom (filterInputs s)) = "" ->
   trim (filterTo (filterInputs s)) = "" ->
   url (itemsRequest s) = FOOD_URL /\
   url (feedbacksRequest s) = FEEDBACK_URL /\
   url (analyticsRequest s) = ANALYTICS_URL /\
   forall base, exportUrlWithFilters s base = base) /\
  (forall v, itemsRequest (setFilterSearch (" " +:+ v +:+ " ") s) =
             itemsRequest (setFilterSearch v s)).
Proof.
  intros Hnone. split.
  - intros H1 H2 H3 H4.
    assert (Hq : queryString (filters s) = "").
    { apply queryString_blank; [exact Hnone |]. unfold filters.
      repeat constructor; assumption. }
    unfold itemsRequest, feedbacksRequest, analyticsRequest, exportUrlWithFilters.
    cbn [url]. rewrite Hq. repeat split; intros; apply append_empty_r.
  - intros v. unfold itemsRequest, queryString, filters. cbn [flat_map fst snd].
    cbn [setFilterSearch onFilters filterInputs filterSearch filterCategory filterFrom filterTo].
    rewrite append_cons, append_nil_l, trim_cons by reflexivity.
    now rewrite trim_snoc by reflexivity.
Qed.

End HistoryMore.

Section CanteenCredentials.
Import Canteen.
Context {P : Platform} {C : Casts}.

Lemma onChange_session_past_login (i : Input) (s : State) :
  offered (Change i) s = true ->
  screen s <> LoginScreen ->
  session (onChange i s) = session s.
Proof.
  unfold offered. intros Hoffered Hscreen.
  destruct (screen s); [contradiction | |]; destruct i; try discriminate; reflexivity.
Qed.

(** Past the login screen the component holds no password and no login
    error: an accepted login has emptied both cells, and nothing on the
    student's or the administrator's screen writes them. *)
Theorem no_password_past_login (w : World State) :
  reachable w ->
  screen (page w) <> LoginScreen ->
  password (session (page w)) = "" /\ loginError (session (page w)) = "".
Proof.
  induction 1 as [outside | w e Hreach IH Hoffered].
  - intros H. now contradiction H.
  - intros Hscreen.
    assert (Hkeep : session (page (snd (handle e w))) = session (page w) ->
                    password (session (page (snd (handle e w)))) = "" /\
                    loginError (session (page (snd (handle e w)))) = "").
    { intros Hsession. rewrite Hsession. apply IH.
      unfold screen in *. now rewrite <- Hsession. }
    destruct e as [i | | | | | | |].
    + destruct (screen (page w)) eqn:Hs.
      * exfalso. apply Hscreen. rewrite <- Hs.
        apply screen_same_role. exact (onChange_role i (page w)).
      * apply Hkeep.
        exact (onChange_session_past_login i (page w) Hoffered ltac:(now rewrite Hs)).
      * apply Hkeep.
        exact (onChange_session_past_login i (page w) Hoffered ltac:(now rewrite Hs)).
    + pose proof (login_offered_role w Hreach Hoffered) as Hnull.
      change (handle SubmitLogin w) with (handleLogin w) in *.
      revert Hscreen.
      unfold handleLogin, loginStart, bind at 1 2 3, getState, tryFinally, tryCatch, setState.
      cbn -[loginAttempt].
      match goal with
      | |- context [loginAttempt ?s ?w0] =>
          destruct (loginAttempt_cases s w0) as [(e & He & Hpage) | (r & u & Hr & Hval & Hpage)];
          destruct (loginAttempt s w0) as [[[] | e'] w1]
      end; cbn in *; try discriminate; rewrite Hpage; cbn.
      * unfold screen. cbn. rewrite Hnull. cbn. intros H. now contradiction H.
      * auto.
    + exfalso. apply Hscreen. reflexivity.
    + apply Hkeep, refresh_session.
    + apply Hkeep. cbn [handle]. apply handleSubmit_session.
    + apply Hkeep. cbn [handle]. apply handleFeedbackSubmit_session.
    + apply Hkeep. cbn [handle]. apply loadItems_session.
    + apply Hkeep. cbn [handle]. apply roleEffect_session.
Qed.

End CanteenCredentials.

(** ** The first portal *)
Section PortalOutcomes.
Import Portal.
Context {P : Platform} {C : Inventory.Casts}.

(** Runs a handler of the portal on the result of its request. *)
Ltac portal_run Hnet :=
  unfold bind, getState, tryFinally, tryCatch, setState, fetch, throwIf, reportError, throw,
         ret, currentTime;
  cbn -[readJsonSafely] in Hnet; cbn -[readJsonSafely]; rewrite Hnet; cbn -[readJsonSafely];
  rewrite ?readJsonSafely_bodyValue; cbn -[readJsonSafely Canteen.bodyValue].

(** In the first portal [loadItems] reports a network failure with "Cannot
    reach backend API. Start Django server on http://localhost:8000."; a
    refused answer with the [error] of its body, or "Unable to load food
    items."; an accepted answer with an empty, malformed or falsy body with
    "Backend returned an invalid response.".  These three change nothing
    else: the loaded list and every other cell of the state are kept.  An
    accepted truthy value replaces the list by its [items], by none when it
    has none.  In every case [loading] is cleared. *)
Theorem portal_load_outcomes (w : World State) :
  (forall env' msg,
     serve (env w) listRequest = (env', NetworkFailure msg) ->
     let w' := snd (loadItems w) in
     loading (page w') = false /\
     error (page w') =
       "Cannot reach backend API. Start Django server on http://localhost:8000." /\
     items (page w') = items (page w) /\
     page w' =
       setLoading false
         (setError "Cannot reach backend API. Start Django server on http://localhost:8000."
            (page w))) /\
  (forall env' code t,
     serve (env w) listRequest = (env', Responds (mkResponse code (BodyText t))) ->
     let w' := snd (loadItems w) in
     loading (page w') = false /\
     (ok (mkResponse code (BodyText t)) = false ->
      error (page w') =
        nullish (getPropOpt (Canteen.bodyValue t) "error") toStringJson
                "Unable to load food items." /\
      items (page w') = items (page w) /\
      page w' =
        setLoading false
          (setError (nullish (getPropOpt (Canteen.bodyValue t) "error") toStringJson
                             "Unable to load food items.") (page w))) /\
     (ok (mkResponse code (BodyText t)) = true -> falsy (Canteen.bodyValue t) = true ->
      error (page w') = "Backend returned an invalid response." /\
      items (page w') = items (page w) /\
      page w' = setLoading false (setError "Backend returned an invalid response." (page w))) /\
     (ok (mkResponse code (BodyText t)) = true -> falsy (Canteen.bodyValue t) = false ->
      error (page w') = "" /\
      items (page w') =
        nullish (getProp (Canteen.bodyValue t) "items") Inventory.asFoodItems [] /\
      lastUpdated (page w') = toLocaleTimeString env')).
Proof.
  split.
  - intros env' msg Hnet w'. subst w'. unfold loadItems. portal_run Hnet.
    repeat split; reflexivity.
  - intros env' code t Hnet w'. subst w'. unfold loadItems. portal_run Hnet.
    destruct (ok _); cbn -[Canteen.bodyValue];
      [destruct (falsy (Canteen.bodyValue t)); cbn -[Canteen.bodyValue] |];
      repeat split; intros; try discriminate; reflexivity.
Qed.

(** In the first portal an accepted login with one of the two roles stores
    the role and empties the password and the login error, and the logout
    that follows, which resets the role and no other cell of the state and
    sends nothing, leaves a login screen without password or error.  A refused login shows the
    [error] of the body, or "Login failed.", and keeps role and password. *)
Theorem portal_login_logout (w : World State) (env' : Env) (code : Z) (t : string) :
  serve (env w) (loginRequest (page w)) = (env', Responds (mkResponse code (BodyText t))) ->
  let w' := snd (handleLogin w) in
  let w'' := snd (logout w') in
  (forall r, ok (mkResponse code (BodyText t)) = true ->
             falsy (Canteen.bodyValue t) = false ->
             getProp (Canteen.bodyValue t) "role" = Some (JStr r) ->
             r = "student" \/ r = "admin" ->
             role (page w') = JStr r /\
             password (page w') = "" /\
             loginError (page w') = "" /\
             username (page w') = username (page w) /\
             page w'' = setRole JNull (page w') /\
             role (page w'') = JNull /\
             password (page w'') = "" /\
             loginError (page w'') = "" /\
             requests w'' = requests w' /\
             env w'' = env w') /\
  (ok (mkResponse code (BodyText t)) = false ->
   role (page w') = role (page w) /\
   password (page w') = password (page w) /\
   loginError (page w') =
     nullish (getPropOpt (Canteen.bodyValue t) "error") toStringJson "Login failed.").
Proof.
  intros Hnet w' w''. subst w'' w'. unfold logout, handleLogin. portal_run Hnet. split.
  - intros r Hok Hfalsy Hrole Hr. rewrite Hok, Hfalsy, Hrole.
    destruct Hr as [-> | ->]; cbn; repeat split; reflexivity.
  - intros Hok. rewrite Hok. cbn. repeat split; reflexivity.
Qed.

End PortalOutcomes.

(** ** Sample runs of the further properties *)

Lemma categories_offered_witness :
  In "Lunch" (tl (Selector.categories Sample.compareUnits
                    [Sample.rice; Sample.idli; Sample.milk])) /\
  Inventory.filteredItems [Sample.rice; Sample.idli; Sample.milk] "Lunch" "" <> [].
Proof.
  destruct (categories_offered Sample.compareUnits [Sample.rice; Sample.idli; Sample.milk])
    as (_ & _ & Hmem & _ & Hsome).
  assert (Hin : In "Lunch" (tl (Selector.categories Sample.compareUnits
                                  [Sample.rice; Sample.idli; Sample.milk]))).
  { apply Hmem. exists Sample.idli. split; [right; left; reflexivity | reflexivity]. }
  split; [exact Hin |]. apply Hsome; [exact Hin | discriminate].
Defined.

Lemma inventory_loadItems_outcomes_witness :
  let w := Deployed.inventoryWorld [Deployed.respond 200 JNull] in
  Inventory.error (page (snd (Inventory.loadItems (C := Sample.inventoryCasts) w))) =
  "Cannot reach backend API. Start Django server on http://localhost:8000.".
Proof.
  intros w.
  destruct (inventory_loadItems_outcomes (P := Deployed.platform) (C := Sample.inventoryCasts)
              w [] (mkResponse 200 (BodyText "null")) eq_refl) as (_ & _ & Hnull & _).
  apply (Hnull "null"); reflexivity.
Defined.

Lemma inventory_handleSubmit_outcomes_witness :
  let w := Deployed.inventoryWorld [Deployed.respond 400 Deployed.quantityError] in
  Inventory.error (page (snd (Inventory.handleSubmit (C := Sample.inventoryCasts) w))) =
  "Quantity must be positive.".
Proof.
  intros w.
  destruct (inventory_handleSubmit_outcomes (P := Deployed.platform)
              (C := Sample.inventoryCasts) w []
              (mkResponse 400 (BodyText (Sample.stringify Deployed.quantityError)))
              (Sample.stringify Deployed.quantityError) Deployed.quantityError
              eq_refl eq_refl eq_refl ltac:(discriminate)) as (_ & Hrefused & _).
  apply Hrefused. reflexivity.
Defined.

Lemma base_address_normalised_witness :
  Canteen.NORMALIZED_BASE_URL (P := Deployed.platform) = "https://canteen.example" /\
  Canteen.FOOD_URL (P := Deployed.platform) = "https://canteen.example/api/food-items/".
Proof.
  destruct (base_address_normalised (P := Deployed.platform) "https://canteen.example" 1)
    as [H _].
  destruct (H eq_refl) as (Hn & Hfood & _). split; [exact Hn | exact Hfood].
Defined.

Lemma feedback_read_only_by_admin_witness :
  exists sent,
    requests (snd (Canteen.handle (C := Sample.canteenCasts) Canteen.ItemsEffect
                     (Sample.canteenWorld []))) =
    (sent ++ requests (Sample.canteenWorld []))%list /\
    Forall (fun r => Canteen.readsFeedback (P := Sample.platform) r = false) sent.
Proof.
  apply (feedback_read_only_by_admin (P := Sample.platform) (C := Sample.canteenCasts)).
  - apply Canteen.reachable_initial.
  - reflexivity.
  - discriminate.
Defined.

Lemma role_comes_from_login_witness :
  Canteen.role (Canteen.session (page Deployed.studentSession)) = JStr "student" /\
  exists s, In (Canteen.loginRequest (P := Sample.platform) s)
              (requests Deployed.studentSession).
Proof.
  assert (Hreach : Canteen.reachable (C := Sample.canteenCasts) Deployed.studentSession).
  { apply Canteen.reachable_event; [apply Canteen.reachable_initial | reflexivity]. }
  destruct (role_comes_from_login (P := Sample.platform) (C := Sample.canteenCasts)
              Deployed.studentSession Hreach) as (_ & Hsent).
  split.
  - reflexivity.
  - apply Hsent. discriminate.
Defined.

Lemma no_password_past_login_witness :
  Canteen.password (Canteen.session (page Deployed.studentSession)) = "" /\
  Canteen.loginError (Canteen.session (page Deployed.studentSession)) = "".
Proof.
  apply (no_password_past_login (P := Sample.platform) (C := Sample.canteenCasts)).
  - apply Canteen.reachable_event; [apply Canteen.reachable_initial | reflexivity].
  - discriminate.
Defined.

Lemma feedback_submission_outcomes_witness :
  let w' := snd (Canteen.handleFeedbackSubmit Sample.studentWorld) in
  Canteen.feedbackStatus (Canteen.status (page w')) = "Failed to fetch" /\
  Canteen.feedbackMessage (Canteen.feedbackForm (page w')) = "Tasty rice".
Proof.
  intros w'.
  destruct (feedback_submission_outcomes (P := Sample.platform) Sample.studentWorld)
    as [_ Hfail].
  destruct (Hfail [] "Failed to fetch" eq_refl) as (_ & Hstatus & Hform).
  split; [exact Hstatus |]. subst w'. rewrite Hform. reflexivity.
Defined.

Lemma item_submission_outcomes_witness :
  let w := Deployed.canteenWorld [Deployed.respond 201 Deployed.riceJson] in
  Canteen.items (Canteen.loaded (page (snd (Canteen.handleSubmit (C := Sample.canteenCasts) w)))) =
  [Sample.canteenItem Deployed.riceJson].
Proof.
  intros w.
  destruct (item_submission_outcomes (P := Deployed.platform) (C := Sample.canteenCasts) w)
    as [Hanswered _].
  destruct (Hanswered [] 201 (Sample.stringify Deployed.riceJson) eq_refl)
    as (_ & Hok & _).
  destruct (Hok eq_refl eq_refl) as (Hitems & _). exact Hitems.
Defined.

Lemma loaders_on_unreadable_answer_witness :
  let w := Sample.canteenWorld [Responds (mkResponse 200 (BodyText ""))] in
  Canteen.feedbacks (Canteen.loaded (page (snd (Canteen.loadFeedbacks
                                                  (C := Sample.canteenCasts) w)))) = [] /\
  Canteen.error (Canteen.status (page (snd (Canteen.loadAnalytics
                                              (C := Sample.canteenCasts) w)))) =
  "Invalid analytics response.".
Proof.
  intros w.
  destruct (loaders_on_unreadable_answer (P := Sample.platform) (C := Sample.canteenCasts)
              w [] 200 "" eq_refl eq_refl) as (_ & Hanalytics & Hfeedbacks).
  split.
  - apply Hfeedbacks. reflexivity.
  - apply Hanalytics. reflexivity.
Defined.

Lemma items_load_outcomes_witness :
  let w := Deployed.canteenWorld [Deployed.respond 200 Deployed.emptyJson] in
  Canteen.items (Canteen.loaded (page (snd (Canteen.loadItems (C := Sample.canteenCasts) w)))) =
  [].
Proof.
  intros w.
  destruct (items_load_outcomes (P := Deployed.platform) (C := Sample.canteenCasts) w)
    as [Hanswered _].
  destruct (Hanswered [] 200 (Sample.stringify Deployed.emptyJson) eq_refl) as (_ & Hok & _).
  destruct (Hok eq_refl eq_refl) as (Hitems & _). exact Hitems.
Defined.

Lemma login_outcomes_witness :
  let w := mkWorld (P := Deployed.platform)
                   (Canteen.setUsername " warden " Canteen.initialState)
                   [Deployed.respond 200 Deployed.adminLogin] [] in
  Canteen.session (page (snd (Canteen.handleLogin w))) =
  Canteen.mkSession (JStr "admin") " warden " "" (JStr "warden") "" false.
Proof.
  intros w.
  destruct (login_outcomes (P := Deployed.platform) w []
              200 (Sample.stringify Deployed.adminLogin) eq_refl) as [Haccepted _].
  apply (Haccepted "admin"); [reflexivity | reflexivity | reflexivity | now right].
Defined.

Lemma history_of_sorted_list_witness :
  Canteen.sortedHistory (P := Sample.platform) [Sample.dosa; Sample.roti; Sample.dal] =
  [Sample.dosa; Sample.roti; Sample.dal].
Proof.
  destruct (history_of_sorted_list (P := Sample.platform) [Sample.dosa; Sample.roti; Sample.dal])
    as [H _].
  apply H.
  repeat constructor; eexists _, _; (split; [reflexivity | split; [reflexivity | lia]]).
Defined.

Lemma blank_filters_add_no_query_witness :
  url (Canteen.itemsRequest (P := Sample.platform)
         (Canteen.setFilterSearch "   " Canteen.initialState)) =
  Canteen.FOOD_URL (P := Sample.platform).
Proof.
  destruct (blank_filters_add_no_query (P := Sample.platform)
              (Canteen.setFilterSearch "   " Canteen.initialState) eq_refl) as [H _].
  destruct (H eq_refl eq_refl eq_refl eq_refl) as [Hurl _]. exact Hurl.
Defined.

Lemma portal_load_outcomes_witness :
  let w := Deployed.portalWorld [] in
  Portal.error (page (snd (Portal.loadItems (C := Sample.inventoryCasts) w))) =
  "Cannot reach backend API. Start Django server on http://localhost:8000.".
Proof.
  intros w.
  destruct (portal_load_outcomes (P := Deployed.platform) (C := Sample.inventoryCasts) w)
    as [Hfail _].
  destruct (Hfail [] "Failed to fetch" eq_refl) as (_ & Herror & _). exact Herror.
Defined.

Lemma portal_login_logout_witness :
  let w := Deployed.portalWorld [Deployed.respond 200 Deployed.adminLogin] in
  Portal.role (page (snd (Portal.handleLogin w))) = JStr "admin" /\
  Portal.role (page (snd (Portal.logout (snd (Portal.handleLogin w))))) = JNull.
Proof.
  intros w.
  destruct (portal_login_logout (P := Deployed.platform) w []
              200 (Sample.stringify Deployed.adminLogin) eq_refl) as [Haccepted _].
  destruct (Haccepted "admin" eq_refl eq_refl eq_refl ltac:(now right))
    as (Hrole & _ & _ & _ & _ & Hout & _).
  split; [exact Hrole | exact Hout].
Defined.

Section PortalSubmit.
Import Portal.
Context {P : Platform} {C : Inventory.Casts}.

(** In the first portal a new item is put in front of the list, and the
    form reset to an empty name, "morning" and quantity 1, only when the
    answer has a status in 200-299 and a body that parses to a truthy value.
    A network failure shows "Cannot reach backend API. Start Django server on
    http://localhost:8000.", a refused answer the [error] of its body or
    "Unable to create item.", an accepted answer with an empty, malformed or
    falsy body "Backend returned an invalid response."; these keep the list
    and the name, category and quantity as typed, and every other cell of
    the state.  In every case [submitting] is cleared. *)
Theorem portal_submit_outcomes (w : World State) :
  (forall env' msg,
     serve (env w) (createRequest (page w)) = (env', NetworkFailure msg) ->
     let w' := snd (handleSubmit w) in
     submitting (page w') = false /\
     error (page w') =
       "Cannot reach backend API. Start Django server on http://localhost:8000." /\
     items (page w') = items (page w) /\
     nameInput (page w') = nameInput (page w) /\
     categoryInput (page w') = categoryInput (page w) /\
     quantityInput (page w') = quantityInput (page w) /\
     page w' =
       setSubmitting false
         (setError "Cannot reach backend API. Start Django server on http://localhost:8000."
            (page w))) /\
  (forall env' code t,
     serve (env w) (createRequest (page w)) =
       (env', Responds (mkResponse code (BodyText t))) ->
     let w' := snd (handleSubmit w) in
     submitting (page w') = false /\
     (ok (mkResponse code (BodyText t)) = false ->
      error (page w') =
        nullish (getPropOpt (Canteen.bodyValue t) "error") toStringJson
                "Unable to create item." /\
      items (page w') = items (page w) /\
      nameInput (page w') = nameInput (page w) /\
      categoryInput (page w') = categoryInput (page w) /\
      quantityInput (page w') = quantityInput (page w) /\
      page w' =
        setSubmitting false
          (setError (nullish (getPropOpt (Canteen.bodyValue t) "error") toStringJson
                             "Unable to create item.") (page w))) /\
     (ok (mkResponse code (BodyText t)) = true -> falsy (Canteen.bodyValue t) = true ->
      error (page w') = "Backend returned an invalid response." /\
      items (page w') = items (page w) /\
      nameInput (page w') = nameInput (page w) /\
      categoryInput (page w') = categoryInput (page w) /\
      quantityInput (page w') = quantityInput (page w) /\
      page w' =
        setSubmitting false (setError "Backend returned an invalid response." (page w))) /\
     (ok (mkResponse code (BodyText t)) = true -> falsy (Canteen.bodyValue t) = false ->
      error (page w') = "" /\
      items (page w') = Inventory.asFoodItem (Canteen.bodyValue t) :: items (page w) /\
      nameInput (page w') = "" /\
      categoryInput (page w') = "morning" /\
      quantityInput (page w') = "1")).
Proof.
  split.
  - intros env' msg Hnet w'. subst w'. unfold handleSubmit.
    unfold bind, getState, tryFinally, tryCatch, setState, fetch, throwIf, reportError, throw,
      ret, currentTime.
    cbn -[readJsonSafely] in Hnet. cbn -[readJsonSafely]. rewrite Hnet. cbn.
    repeat split; reflexivity.
  - intros env' code t Hnet w'. subst w'. unfold handleSubmit.
    unfold bind, getState, tryFinally, tryCatch, setState, fetch, throwIf, reportError, throw,
      ret, currentTime.
    cbn -[readJsonSafely] in Hnet. cbn -[readJsonSafely]. rewrite Hnet. cbn -[readJsonSafely].
    rewrite ?readJsonSafely_bodyValue. cbn -[Canteen.bodyValue].
    destruct (ok _); cbn -[Canteen.bodyValue];
      [destruct (falsy (Canteen.bodyValue t)); cbn -[Canteen.bodyValue] |];
      repeat split; intros; try discriminate; reflexivity.
Qed.

End PortalSubmit.

Lemma portal_submit_outcomes_witness :
  let w := Deployed.portalWorld [Deployed.respond 201 Deployed.riceJson] in
  Portal.items (page (snd (Portal.handleSubmit (C := Sample.inventoryCasts) w))) =
  [Sample.inventoryItem Deployed.riceJson].
Proof.
  intros w.
  destruct (portal_submit_outcomes (P := Deployed.platform) (C := Sample.inventoryCasts) w)
    as [_ Hanswered].
  destruct (Hanswered [] 201 (Sample.stringify Deployed.riceJson) eq_refl)
    as (_ & _ & _ & Hok).
  destruct (Hok eq_refl eq_refl) as (_ & Hitems & _). exact Hitems.
Defined.
